(** * micro-lab-ocr: the OCR-result normalization and record-reconstruction
      pipeline of [backend_preservation.py] (class [PreservationTestOCR]) and
      the identifier scan of [backend.py] ([DataCleaner.extract_numbers]).

    Modelling conventions.

    - A Python [str] is a Rocq [string] holding the UTF-8 bytes of the text, so
      every literal of the source is written here as it is written there.
      Equality, containment, [replace] and [startswith] on well-formed UTF-8
      coincide with the same operations on code points.
    - Python's whitespace (for [str.strip] and the regex class [\s]) is the
      full list of code points for which [str.isspace] holds, as byte
      sequences.  Digits ([\d], [int]), word characters ([\b]) and case
      mapping ([upper], [lower], [re.IGNORECASE]) are modelled on the ASCII
      range; a byte above 127 is a word character and has no case.
    - Regular expressions are kept as the source text of the pattern and
      parsed by [Re.parse] into a syntax tree that a backtracking matcher
      with Python's priorities (leftmost, greedy, first alternative) runs.
    - A [dict] keyed by row index is a [gmap Z _]; a row, whose iteration
      order the code observes through [items()] and [values()], is an
      association list in insertion order.
    - The logger calls have no effect on any result and are left out. *)

From Stdlib Require Import ZArith String Ascii List Bool Lia Permutation Sorted.
From stdpp Require Import base option list gmap strings.

Import ListNotations.
Local Open Scope string_scope.
Local Open Scope list_scope.
Local Open Scope nat_scope.

(** ** Python strings *)

Module Py.

Definition code (a : ascii) : nat := nat_of_ascii a.

Definition str_of_codes (l : list nat) : string :=
  fold_right (fun n s => String (ascii_of_nat n) s) EmptyString l.

(** The double quote character, as a one-character string. *)
Definition dq : string := str_of_codes [34].
(** The line feed, ['\n']. *)
Definition nl : string := str_of_codes [10].

Definition is_digit (a : ascii) : bool := (48 <=? code a) && (code a <=? 57).
Definition is_upper (a : ascii) : bool := (65 <=? code a) && (code a <=? 90).
Definition is_lower (a : ascii) : bool := (97 <=? code a) && (code a <=? 122).
Definition is_word (a : ascii) : bool :=
  is_digit a || is_upper a || is_lower a || (code a =? 95) || (128 <=? code a).

Definition upper_char (a : ascii) : ascii :=
  if is_lower a then ascii_of_nat (code a - 32) else a.
Definition lower_char (a : ascii) : ascii :=
  if is_upper a then ascii_of_nat (code a + 32) else a.

Fixpoint map_str (f : ascii -> ascii) (s : string) : string :=
  match s with
  | EmptyString => EmptyString
  | String c s' => String (f c) (map_str f s')
  end.

Definition upper : string -> string := map_str upper_char.
Definition lower : string -> string := map_str lower_char.

Fixpoint rev_acc (s acc : string) : string :=
  match s with
  | EmptyString => acc
  | String c s' => rev_acc s' (String c acc)
  end.
Definition rev (s : string) : string := rev_acc s EmptyString.

(** [drop_prefix p s] is [Some r] when [s = p ++ r]. *)
Fixpoint drop_prefix (p s : string) : option string :=
  match p with
  | EmptyString => Some s
  | String a p' =>
      match s with
      | EmptyString => None
      | String b s' => if Ascii.eqb a b then drop_prefix p' s' else None
      end
  end.

Definition startswith (s p : string) : bool :=
  match drop_prefix p s with Some _ => true | None => false end.

(** [sub in s] *)
Fixpoint contains (sub s : string) : bool :=
  startswith s sub ||
  match s with
  | EmptyString => false
  | String _ s' => contains sub s'
  end.

(** [s.replace(old, new)]: non-overlapping occurrences, left to right; an
    empty [old] matches before every character and at the end. *)
Fixpoint replace_fuel (fuel : nat) (old new s : string) : string :=
  match fuel with
  | O => s
  | S fuel' =>
      match s with
      | EmptyString => EmptyString
      | String c s' =>
          match drop_prefix old s with
          | Some r => new +:+ replace_fuel fuel' old new r
          | None => String c (replace_fuel fuel' old new s')
          end
      end
  end.

(** [new] before every character and at the end; the bytes 128 to 191
    continue a character. *)
Fixpoint interleave (new s : string) : string :=
  match s with
  | EmptyString => new
  | String c s' =>
      if (128 <=? code c) && (code c <? 192) then String c (interleave new s')
      else new +:+ String c (interleave new s')
  end.

Definition replace (s old new : string) : string :=
  match old with
  | EmptyString => interleave new s
  | _ => replace_fuel (String.length s) old new s
  end.

(** The code points for which [str.isspace] holds, in UTF-8:
    U+0009..U+000D, U+001C..U+0020, U+0085, U+00A0, U+1680,
    U+2000..U+200A, U+2028, U+2029, U+202F, U+205F, U+3000. *)
Definition whitespace : list string :=
  map str_of_codes
    [ [9]; [10]; [11]; [12]; [13]; [28]; [29]; [30]; [31]; [32];
      [194; 133]; [194; 160]; [225; 154; 128];
      [226; 128; 128]; [226; 128; 129]; [226; 128; 130]; [226; 128; 131];
      [226; 128; 132]; [226; 128; 133]; [226; 128; 134]; [226; 128; 135];
      [226; 128; 136]; [226; 128; 137]; [226; 128; 138];
      [226; 128; 168]; [226; 128; 169]; [226; 128; 175];
      [226; 129; 159]; [227; 128; 128] ].

(** Drops the first of [toks] that is a prefix of [s]. *)
Fixpoint drop_any (toks : list string) (s : string) : option string :=
  match toks with
  | [] => None
  | t :: toks' =>
      match drop_prefix t s with
      | Some r => Some r
      | None => drop_any toks' s
      end
  end.

Fixpoint lstrip_fuel (fuel : nat) (toks : list string) (s : string) : string :=
  match fuel with
  | O => s
  | S fuel' =>
      match drop_any toks s with
      | Some r => lstrip_fuel fuel' toks r
      | None => s
      end
  end.

Definition lstrip (s : string) : string :=
  lstrip_fuel (String.length s) whitespace s.
Definition rstrip (s : string) : string :=
  rev (lstrip_fuel (String.length s) (map rev whitespace) (rev s)).
(** [s.strip()] *)
Definition strip (s : string) : string := rstrip (lstrip s).

(** [sep.join(l)] *)
Fixpoint join (sep : string) (l : list string) : string :=
  match l with
  | [] => EmptyString
  | [x] => x
  | x :: l' => x +:+ sep +:+ join sep l'
  end.

(** Truth value of a string: [not s] is [is_empty s]. *)
Definition is_empty (s : string) : bool :=
  match s with EmptyString => true | _ => false end.

(** [x in l] for a list of strings. *)
Definition mem (x : string) (l : list string) : bool :=
  existsb (String.eqb x) l.

Fixpoint repeat_char (c : ascii) (n : nat) : string :=
  match n with
  | O => EmptyString
  | S n' => String c (repeat_char c n')
  end.

(** [len(s)]: the number of characters, the bytes 128 to 191 continuing
    one. *)
Fixpoint len (s : string) : nat :=
  match s with
  | EmptyString => 0
  | String c s' =>
      if (128 <=? code c) && (code c <? 192) then len s' else S (len s')
  end.

(** [s.zfill(w)]: a sign, if any, stays in front of the padding. *)
Definition zfill (s : string) (w : nat) : string :=
  let pad := repeat_char "0"%char (w - len s) in
  match s with
  | String c s' =>
      if Ascii.eqb c "+"%char || Ascii.eqb c "-"%char
      then String c (pad +:+ s') else pad +:+ s
  | EmptyString => pad
  end.

End Py.

(** ** Regular expressions (Python's [re]) *)

Module Re.

(** An element of a bracketed class. *)
Inductive citem : Type :=
| CChar (s : string)            (* one character, as its UTF-8 bytes *)
| CRange (lo hi : ascii)        (* [lo-hi], on single bytes *)
| CDigit                        (* \d *)
| CSpace.                       (* \s *)

Inductive regex : Type :=
| REps
| RChar (s : string)            (* one character, as its UTF-8 bytes *)
| RClass (items : list citem)   (* [...] *)
| RBol                          (* ^ *)
| REol                          (* $ *)
| RWordB                        (* \b *)
| RSeq (r1 r2 : regex)
| RAlt (r1 r2 : regex)
| RRep (r : regex) (lo : nat) (hi : option nat)   (* greedy r{lo,hi} *)
| RGroup (n : nat) (r : regex).                    (* n-th capturing group *)

(** *** Parser for the pattern syntax the source uses *)

(** Number of bytes of the UTF-8 character that starts with byte [a]. *)
Definition char_width (a : ascii) : nat :=
  let n := Py.code a in
  if n <? 192 then 1 else if n <? 224 then 2 else if n <? 240 then 3 else 4.

Fixpoint take (n : nat) (s : string) : string :=
  match n, s with
  | S n', String c s' => String c (take n' s')
  | _, _ => EmptyString
  end.

Fixpoint drop (n : nat) (s : string) : string :=
  match n, s with
  | S n', String _ s' => drop n' s'
  | _, _ => s
  end.

(** Splits off the first character of a non-empty string. *)
Definition next_char (s : string) : option (string * string) :=
  match s with
  | EmptyString => None
  | String a _ =>
      let w := char_width a in
      if w <=? String.length s then Some (take w s, drop w s) else None
  end.

Fixpoint read_nat_acc (s : string) (acc : nat) : nat * string :=
  match s with
  | String c s' =>
      if Py.is_digit c then read_nat_acc s' (10 * acc + (Py.code c - 48))
      else (acc, s)
  | EmptyString => (acc, s)
  end.

(** A decimal number at the head of [s], if there is one. *)
Definition read_nat (s : string) : option (nat * string) :=
  match s with
  | String c _ => if Py.is_digit c then Some (read_nat_acc s 0) else None
  | EmptyString => None
  end.

Definition is_alnum (a : ascii) : bool :=
  Py.is_digit a || Py.is_upper a || Py.is_lower a.

(** An escape [\c]: a class shorthand or an escaped punctuation mark.
    Escaped letters and digits other than [d], [s] are not in the
    supported syntax. *)
Definition parse_escape_item (c : ascii) : option citem :=
  if Ascii.eqb c "d" then Some CDigit
  else if Ascii.eqb c "s" then Some CSpace
  else if is_alnum c || (128 <=? Py.code c) then None
  else Some (CChar (String c EmptyString)).

(** The items of a class, up to the closing bracket. *)
Fixpoint parse_class (fuel : nat) (s : string) (acc : list citem)
  : option (list citem * string) :=
  match fuel with
  | O => None
  | S fuel' =>
      match s with
      | EmptyString => None
      | String "]" s' => Some (List.rev acc, s')
      | String "\" (String c s') =>
          match parse_escape_item c with
          | Some it => parse_class fuel' s' (it :: acc)
          | None => None
          end
      | String a (String "-" (String b s')) =>
          if Ascii.eqb b "]"
          then parse_class fuel' (String "-" (String b s'))
                 (CChar (String a EmptyString) :: acc)
          else if (Py.code a <? 128) && (Py.code b <? 128)
                  && negb (Ascii.eqb b "\")
          then parse_class fuel' s' (CRange a b :: acc)
          else None
      | _ =>
          match next_char s with
          | Some (ch, s') => parse_class fuel' s' (CChar ch :: acc)
          | None => None
          end
      end
  end.

(** A quantifier after an atom, if any. *)
Definition parse_quant (r : regex) (s : string) : option (regex * string) :=
  match s with
  | String "*" s' => Some (RRep r 0 None, s')
  | String "+" s' => Some (RRep r 1 None, s')
  | String "?" s' => Some (RRep r 0 (Some 1), s')
  | String "{" s' =>
      match read_nat s' with
      | Some (lo, String "}" s'') => Some (RRep r lo (Some lo), s'')
      | Some (lo, String "," (String "}" s'')) => Some (RRep r lo None, s'')
      | Some (lo, String "," s'') =>
          match read_nat s'' with
          | Some (hi, String "}" s3) => Some (RRep r lo (Some hi), s3)
          | _ => None
          end
      | _ => None
      end
  | _ => Some (r, s)
  end.

(** [parse_alt fuel s g]: an alternation at the head of [s], where [g] is
    the number of groups opened so far; stops at a closing parenthesis or
    at the end.  [parse_seq] reads one branch. *)
Fixpoint parse_alt (fuel : nat) (s : string) (g : nat)
  : option (regex * string * nat) :=
  match fuel with
  | O => None
  | S fuel' =>
      let parse_atom (s : string) (g : nat) : option (regex * string * nat) :=
        match s with
        | String "(" s' =>
            match parse_alt fuel' s' (S g) with
            | Some (r, String ")" s'', g') => Some (RGroup (S g) r, s'', g')
            | _ => None
            end
        | String "[" (String "^" _) => None   (* negated classes: not used *)
        | String "[" s' =>
            match parse_class (S (String.length s')) s' [] with
            | Some (items, s'') => Some (RClass items, s'', g)
            | None => None
            end
        | String "\" (String c s') =>
            if Ascii.eqb c "b" then Some (RWordB, s', g)
            else match parse_escape_item c with
                 | Some (CChar ch) => Some (RChar ch, s', g)
                 | Some it => Some (RClass [it], s', g)
                 | None => None
                 end
        | String "^" s' => Some (RBol, s', g)
        | String "$" s' => Some (REol, s', g)
        | String c _ =>
            if existsb (Ascii.eqb c) ["*"; "+"; "?"; "{"; "}"; "."; "]"; "\"]%char
            then None
            else match next_char s with
                 | Some (ch, s') => Some (RChar ch, s', g)
                 | None => None
                 end
        | EmptyString => None
        end in
      let parse_seq :=
        fix parse_seq (n : nat) (s : string) (g : nat)
          : option (regex * string * nat) :=
          match n with
          | O => None
          | S n' =>
              match s with
              | EmptyString | String ")" _ | String "|" _ => Some (REps, s, g)
              | _ =>
                  match parse_atom s g with
                  | Some (a, s1, g1) =>
                      match parse_quant a s1 with
                      | Some (q, s2) =>
                          match parse_seq n' s2 g1 with
                          | Some (REps, s3, g3) => Some (q, s3, g3)
                          | Some (r, s3, g3) => Some (RSeq q r, s3, g3)
                          | None => None
                          end
                      | None => None
                      end
                  | None => None
                  end
              end
          end in
      match parse_seq (S (String.length s)) s g with
      | Some (r1, String "|" s1, g1) =>
          match parse_alt fuel' s1 g1 with
          | Some (r2, s2, g2) => Some (RAlt r1 r2, s2, g2)
          | None => None
          end
      | res => res
      end
  end.

(** The syntax tree of a whole pattern. *)
Definition parse (p : string) : option regex :=
  match parse_alt (S (String.length p)) p 0 with
  | Some (r, EmptyString, _) => Some r
  | _ => None
  end.

(** Number of capturing groups of a pattern. *)
Fixpoint ngroups (r : regex) : nat :=
  match r with
  | RSeq r1 r2 | RAlt r1 r2 => ngroups r1 + ngroups r2
  | RRep r' _ _ => ngroups r'
  | RGroup _ r' => S (ngroups r')
  | _ => 0
  end.

(** *** Backtracking matcher *)

(** A position in the subject: the byte before it (none at the start), the
    text after it, and the groups captured on the way. *)
Record mstate : Type := MState {
  m_prev : option ascii;
  m_rest : string;
  m_caps : list (nat * string)
}.

Fixpoint advance (n : nat) (prev : option ascii) (s : string)
  : option ascii * string :=
  match n, s with
  | S n', String c s' => advance n' (Some c) s'
  | _, _ => (prev, s)
  end.

Definition step (n : nat) (st : mstate) : mstate :=
  let '(p, s) := advance n (m_prev st) (m_rest st) in
  MState p s (m_caps st).

(** Prefix test, ignoring the case of ASCII letters when [ci] is set. *)
Fixpoint has_prefix (ci : bool) (p s : string) : bool :=
  match p with
  | EmptyString => true
  | String a p' =>
      match s with
      | EmptyString => false
      | String b s' =>
          (if ci then Ascii.eqb (Py.lower_char a) (Py.lower_char b)
           else Ascii.eqb a b) && has_prefix ci p' s'
      end
  end.

Definition in_range (lo hi b : ascii) : bool :=
  (Py.code lo <=? Py.code b) && (Py.code b <=? Py.code hi).

(** Number of bytes one class item takes at the head of [s], if it
    matches there. *)
Definition eat_item (ci : bool) (it : citem) (s : string) : option nat :=
  match it with
  | CChar ch => if has_prefix ci ch s then Some (String.length ch) else None
  | CRange lo hi =>
      match s with
      | String b _ =>
          if in_range lo hi b
             || (ci && (in_range lo hi (Py.lower_char b)
                        || in_range lo hi (Py.upper_char b)))
          then Some 1 else None
      | EmptyString => None
      end
  | CDigit =>
      match s with
      | String b _ => if Py.is_digit b then Some 1 else None
      | EmptyString => None
      end
  | CSpace =>
      match Py.drop_any Py.whitespace s with
      | Some r => Some (String.length s - String.length r)
      | None => None
      end
  end.

Fixpoint eat_class (ci : bool) (items : list citem) (s : string) : option nat :=
  match items with
  | [] => None
  | it :: items' =>
      match eat_item ci it s with
      | Some n => Some n
      | None => eat_class ci items' s
      end
  end.

Definition word_before (st : mstate) : bool :=
  match m_prev st with Some c => Py.is_word c | None => false end.
Definition word_after (st : mstate) : bool :=
  match m_rest st with String c _ => Py.is_word c | EmptyString => false end.

(** [$]: at the end, or before a line feed that ends the subject. *)
Definition at_eol (st : mstate) : bool :=
  match m_rest st with
  | EmptyString => true
  | String c EmptyString => Py.code c =? 10
  | _ => false
  end.

Definition set_cap (n : nat) (v : string) (st : mstate) : mstate :=
  MState (m_prev st) (m_rest st)
         ((n, v) :: filter (fun p => negb (fst p =? n)) (m_caps st)).

Definition at_max (n : nat) (hi : option nat) : bool :=
  match hi with Some h => h <=? n | None => false end.

(** [run ci r st k]: matches [r] at [st], then the rest of the pattern [k];
    on failure of [k] the next choice of [r] is tried.  A repetition first
    tries one more round (greedy) and gives up a round that consumed
    nothing once [lo] rounds are done. *)
Fixpoint run (ci : bool) (r : regex) (st : mstate)
  (k : mstate -> option mstate) {struct r} : option mstate :=
  match r with
  | REps => k st
  | RChar ch =>
      if has_prefix ci ch (m_rest st) then k (step (String.length ch) st)
      else None
  | RClass items =>
      match eat_class ci items (m_rest st) with
      | Some n => k (step n st)
      | None => None
      end
  | RBol => match m_prev st with None => k st | Some _ => None end
  | REol => if at_eol st then k st else None
  | RWordB => if xorb (word_before st) (word_after st) then k st else None
  | RSeq r1 r2 => run ci r1 st (fun st' => run ci r2 st' k)
  | RAlt r1 r2 =>
      match run ci r1 st k with
      | Some res => Some res
      | None => run ci r2 st k
      end
  | RRep r' lo hi =>
      (fix loop (fuel n : nat) (st : mstate) {struct fuel} : option mstate :=
         let stop := if lo <=? n then k st else None in
         match fuel with
         | O => stop
         | S fuel' =>
             if at_max n hi then stop
             else
               match run ci r' st (fun st' =>
                       if (String.length (m_rest st') <? String.length (m_rest st))
                          || (n <? lo)
                       then loop fuel' (S n) st' else None) with
               | Some res => Some res
               | None => stop
               end
         end) (String.length (m_rest st) + lo + 1) 0 st
  | RGroup n r' =>
      run ci r' st (fun st' =>
        k (set_cap n
             (take (String.length (m_rest st) - String.length (m_rest st'))
                   (m_rest st)) st'))
  end.

(** A match object. *)
Record rmatch : Type := RMatch {
  m_text : string;                 (* group(0) *)
  m_groups : list (nat * string);
  m_last : option ascii;           (* the byte before the end of the match *)
  m_after : string                 (* the subject after the match *)
}.

(** [m.group(n)]; a group that took no part in the match reads as the empty
    string (the source only tests such a value for truth). *)
Definition group (n : nat) (m : rmatch) : string :=
  match n with
  | O => m_text m
  | _ => match find (fun p => fst p =? n) (m_groups m) with
         | Some p => snd p
         | None => EmptyString
         end
  end.

(** A match that starts exactly at the position ([prev], [s]). *)
Definition match_at (ci : bool) (r : regex) (prev : option ascii) (s : string)
  : option rmatch :=
  match run ci r (MState prev s []) Some with
  | Some st =>
      Some (RMatch (take (String.length s - String.length (m_rest st)) s)
                   (m_caps st) (m_prev st) (m_rest st))
  | None => None
  end.

(** The leftmost match at or after the position, with the text skipped
    before it. *)
Fixpoint search_from (ci : bool) (r : regex) (prev : option ascii) (s : string)
  : option (string * rmatch) :=
  match match_at ci r prev s with
  | Some m => Some (EmptyString, m)
  | None =>
      match s with
      | EmptyString => None
      | String c s' =>
          match search_from ci r (Some c) s' with
          | Some (skipped, m) => Some (String c skipped, m)
          | None => None
          end
      end
  end.

(** All non-overlapping matches, left to right, each with the text between
    it and the one before.  After an empty match the scan moves on by one
    byte. *)
Fixpoint scan (fuel : nat) (ci : bool) (r : regex) (prev : option ascii)
  (s : string) : list (string * rmatch) * string :=
  match fuel with
  | O => ([], s)
  | S fuel' =>
      match search_from ci r prev s with
      | None => ([], s)
      | Some (skipped, m) =>
          match m_text m, m_after m with
          | EmptyString, EmptyString => ([(skipped, m)], EmptyString)
          | EmptyString, String c s' =>
              let '(ms, tl) := scan fuel' ci r (Some c) s' in
              ((skipped, m) :: match ms with
                               | [] => []
                               | (sk, m') :: ms' => (String c sk, m') :: ms'
                               end,
               match ms with [] => String c tl | _ => tl end)
          | _, after =>
              let '(ms, tl) := scan fuel' ci r (m_last m) after in
              ((skipped, m) :: ms, tl)
          end
      end
  end.

(** *** The functions of the [re] module *)

(** A pattern that the parser does not accept matches nothing;
    every pattern of the source is accepted (see [patterns_parse]). *)
Definition compile (p : string) : regex :=
  match parse p with Some r => r | None => RClass [] end.

(** [re.match(p, s)], with [re.IGNORECASE] when [ci] is set. *)
Definition re_match_flags (ci : bool) (p s : string) : option rmatch :=
  match_at ci (compile p) None s.
Definition re_match : string -> string -> option rmatch := re_match_flags false.

(** [re.search(p, s)] *)
Definition re_search (p s : string) : option rmatch :=
  option_map snd (search_from false (compile p) None s).

(** [re.finditer(p, s)], as a list. *)
Definition re_finditer (p s : string) : list rmatch :=
  map snd (fst (scan (S (String.length s)) false (compile p) None s)).

(** [re.findall(p, s)] for a pattern with at most one group: the group if
    there is one, the whole match otherwise. *)
Definition re_findall (p s : string) : list string :=
  map (fun m => if ngroups (compile p) =? 1 then group 1 m else m_text m)
      (re_finditer p s).

(** [re.sub(p, repl, s)], the replacement template given as a function of
    the match. *)
Definition re_sub (p : string) (repl : rmatch -> string) (s : string) : string :=
  let '(ms, tl) := scan (S (String.length s)) false (compile p) None s in
  fold_right (fun '(skipped, m) acc => skipped +:+ repl m +:+ acc) tl ms.

Definition is_match (m : option rmatch) : bool :=
  match m with Some _ => true | None => false end.

End Re.

(** ** Value Normalizer ([PreservationTestOCR._clean_cfu_value] and its stages) *)

Import Re.

Definition _split_merged_cells (value : string) : string :=
  if Py.is_empty value then value
  else
    let scientific_pattern := "(\d+\.?\d*[×xX]10[\^]?\d+)" in
    let matches := re_findall scientific_pattern value in
    if 2 <=? length matches then nth 0 matches ""
    else
      let less_than_pattern := "<\s*\d+" in
      let less_matches := re_findall less_than_pattern value in
      if 2 <=? length less_matches then nth 0 less_matches ""
      else value.

Definition _remove_noise (value : string) : string :=
  if Py.is_empty value then value
  else
    let value := Py.replace (Py.replace value ":selected:" "") ":unselected:" "" in
    let value := Py.replace (Py.replace value Py.dq "") "'" "" in
    let value := Py.replace value "°" "" in
    let value := Py.replace value "€" "" in
    let value := Py.replace value Py.nl " " in
    Py.strip value.

Definition less_than_10_patterns : list string :=
  [ "40"; "40°"; "40€";
    "CIO"; "CIÒ"; "C10"; "410"; "90";
    "Lio"; "LIO"; "Clo"; "CLO";
    "CO"; "cio"; "clo";
    "L10"; "L 10"; "L10" +:+ Py.dq; "L 10" +:+ Py.dq;
    "€10"; "€ 10";
    "010"; "(10)"; "(10"; "10)";
    "(1)"; "(1"; "1)";
    "2 <10";
    "LION"; "LION,"; "Lion"; "lion";
    "zion"; "Zion"; "ZION";
    "40L"; "10L";
    "400"; "4100";
    "610";
    "Cle"; "CLE"; "Cia"; "CIA";
    "CCO"; "cco";
    "00";
    "COL"; "Col";
    "clo" +:+ Py.dq; "clo'" ].

Definition _fix_less_than_10 (value : string) : string :=
  if Py.is_empty value then value
  else
    let value := Py.strip value in
    if Py.mem value ["..."; "...."; "…"] then ""
    else if Py.mem value less_than_10_patterns then "<10"
    else if is_match (re_match "^<\s*10[\?\-\)]+$" value) then "<10"
    else if is_match (re_match_flags true "^<\s*[czsCZS]ion" value) then "<10"
    else if is_match (re_match "^\d$" value) then "<10"
    else if String.eqb value "00" then "<10"
    else if is_match (re_match "^<\s*10[\^]?2$" value) then "<10^2"
    else if is_match (re_match "^<\s*10[\^]?2,?$" value) then "<10^2"
    else if is_match (re_match "^<\s*10\s+2$" value) then "<10^2"
    else if Py.mem value ["4102"; "5102"; "6102"; "512"] then "<10^2"
    else if Py.mem value ["<12"; "<62"; "<1.2"] then "<10^2"
    else if Py.mem value ["GIO2"; "GI02"; "CIS2"; "C12"; "C102"] then "<10^2"
    else if Py.mem value ["CIO2"; "Clo2"; "CI02"; "ClO2"] then "<10^2"
    else if is_match (re_match_flags true "^[SC]I0?2,?$" value) then "<10^2"
    else if is_match (re_match "^[5C6]/0?2$" value) then "<10^2"
    else if is_match (re_match "^\(\s*10?2,?$" value) then "<10^2"
    else if is_match (re_match_flags true "^[SC]I0?2\s+2$" value) then "<10^2"
    else if is_match (re_match "^\d+[45]102$" value) then "<10^2"
    else if Py.mem value ["110"; "210"; "2103"; "510"] then "<10"
    else if Py.mem value ["<1>"; "LU"; "/10"] then "<10"
    else if is_match (re_match "^\d+\s*<\s*10" value) then "<10"
    else if String.eqb value "103" then "<10^3"
    else if is_match (re_match ("^<\s*10\s*[" +:+ Py.dq +:+ "\'\s\?\-\)]*$") value)
    then "<10"
    else if String.eqb value "<10" || String.eqb value "< 10" then "<10"
    else value.

(** The prefix kept in front of a normalized value. *)
Definition inequality_prefix (value : string) : string :=
  if Py.startswith value "<" then "<"
  else if Py.startswith value "≤" then "≤"
  else "".

Definition _normalize_scientific (value : string) : string :=
  if Py.is_empty value then value
  else
    let value := Py.strip value in
    let value := Py.replace (Py.replace value "X" "×") "x" "×" in
    let pattern1 := "(\d+\.?\d*)\s*[×]\s*10\s*(\d*)" in
    match re_search pattern1 value with
    | Some match1 =>
        let base := group 1 match1 in
        let exponent :=
          if Py.is_empty (group 2 match1) then "0" else group 2 match1 in
        inequality_prefix value +:+ base +:+ "×10^" +:+ exponent
    | None =>
        let pattern2 := "(\d+\.?\d*)[×]10(\d+)" in
        match re_search pattern2 value with
        | Some match2 =>
            let base := group 1 match2 in
            let exponent := group 2 match2 in
            inequality_prefix value +:+ base +:+ "×10^" +:+ exponent
        | None => value
        end
    end.

Definition clear_less_10_patterns : list string :=
  [ "< 10"; "<10"; "< 10" +:+ Py.dq; "<10" +:+ Py.dq; "< 10'" ].

Definition ambiguous_patterns : list string :=
  [ "40"; "40°"; "40€"; "CIO"; "CIÒ"; "C10"; "410"; "90" ].

Definition _fix_7day_ambiguous (value original : string) : string :=
  if Py.contains "^" value then value
  else if negb (String.eqb value "<10") then value
  else
    let original_clean := Py.strip original in
    if existsb (fun pattern =>
                  String.eqb original_clean pattern
                  || String.eqb original_clean (Py.replace pattern " " ""))
               clear_less_10_patterns
    then "<10"
    else if existsb (fun pattern => Py.contains pattern original_clean)
                    ambiguous_patterns
    then "<10^2"
    else "<10".

Definition _clean_cfu_value (value strain day_column : string) : string :=
  if Py.is_empty value then ""
  else
    let original_value := value in
    let value := _split_merged_cells value in
    let value := _remove_noise value in
    if String.eqb day_column "0일" then _normalize_scientific value
    else
      let value := _fix_less_than_10 value in
      let value := _normalize_scientific value in
      if String.eqb day_column "7일"
      then _fix_7day_ambiguous value original_value
      else value.

(** ** Identifier Extractor *)

(** The first pattern of the list that is found in the text, with its match
    (the [for pattern in ...: match = re.search(...); if match: ...; break]
    loops). *)
Fixpoint first_search (patterns : list string) (text : string) : option rmatch :=
  match patterns with
  | [] => None
  | pattern :: rest =>
      match re_search pattern text with
      | Some m => Some m
      | None => first_search rest text
      end
  end.

Definition test_patterns : list string :=
  [ "\b(2[0-9][A-Z]\d{2}[I!|1]\d{2})\b";
    "\b(2[0-9][E]\d{2}1\d{2})\b" ].

Definition prescription_patterns : list string :=
  [ "\b([A-Z]{2,4}\d{4,5}[A-Z]?-[A-Z]{1,5}\d?)\b";
    "\b([A-Z]{3}\d{5}-[A-Z]{2,4})\b";
    "\b(M-[A-Z]{2,4}\d{4,5}-[A-Z]{1,4}\d?)\b";
    "\b([A-Z]{2,4}\d{3,6}-[A-Z]{1,5})\b";
    "\b([A-Z]{2,5}\d{4}-[A-Z]{1,3}\d{0,2})\b";
    "\b([A-Z]{1,3}\d{4,5}-[A-Z]{2,4}[A-Z]?)\b";
    "\b([A-Z]{2,4}\d{4}-[A-Z]\d[A-Z]{1,3})\b";
    "\b([A-Z]{2,4}\d{3,4}[A-Z]?-[A-Z]{1,4}\d*)\b";
    "\b([A-Z]{2,4}\d{4}-\d{1,2}[A-Z]{1,2})\b";
    "\b([A-Z]{2,4}\d{4,5}[A-Z]?-\s*[A-Z]{1,5}\d?)\b";
    "\b([A-Z]{2,4}\d{4,5}[A-Z]?-\s*[A-Z]+\d+[A-Z]+)\b";
    "\b([A-Z]{2,4}\d{4,5}[A-Z]?-[A-Z]{1,5}\d[A-Z]+)\b";
    "\b([A-Z]{2,4}\d{3,5}-[A-Z]{1,4}\d{1,2})\b";
    "\b([A-Z]{2,5}\d{3,5}-[A-Z]{2,5}[A-Z\d]*)\b" ].

(** The preprocessing of the bulk-name text in [_extract_test_info_from_row]. *)
Definition preprocess_row_text (row_text : string) : string :=
  let row_text_upper := Py.upper row_text in
  let row_text_upper := Py.replace row_text_upper "!" "I" in
  let row_text_upper := Py.replace row_text_upper "|" "I" in
  let row_text_upper := re_sub "-\s+" (fun _ => "-") row_text_upper in
  let row_text_upper := re_sub "\s+-" (fun _ => "-") row_text_upper in
  let row_text_upper := re_sub "-+" (fun _ => "-") row_text_upper in
  re_sub "\s+" (fun _ => " ") row_text_upper.

(** [PreservationTestOCR._extract_test_info_from_row] *)
Definition _extract_test_info_from_row (row_text : string) : string * string :=
  if Py.is_empty row_text then ("", "")
  else
    let row_text_upper := preprocess_row_text row_text in
    let test_number :=
      match first_search test_patterns row_text_upper with
      | Some m =>
          let test_number := group 1 m in
          let test_number :=
            re_sub "([A-Z])(\d{2})1(\d{2})"
              (fun m => group 1 m +:+ group 2 m +:+ "I" +:+ group 3 m)
              test_number in
          let test_number := Py.replace test_number "|" "I" in
          Py.replace test_number "!" "I"
      | None => ""
      end in
    let prescription_number :=
      match first_search prescription_patterns row_text_upper with
      | Some m => Py.strip (group 1 m)
      | None => ""
      end in
    (test_number, prescription_number).

(** [DataCleaner.extract_numbers] of [backend.py]; Python's [None] is the
    [None] of [option].  No statement of the [try] block raises on a string,
    so the [except] branch, which returns [(None, None)], is never taken. *)
Definition extract_numbers_prescription_patterns : list string :=
  [ "\b[A-Z]{2,4}\d{4,5}[A-Z]?-[A-Z]{1,5}\d?\b";
    "\b[A-Z]{3}\d{5}-[A-Z]{2,4}\b";
    "\b[A-Z]{2,4}\d{3,6}-[A-Z]{1,5}\b";
    "\b[A-Z]{2,5}\d{4}-[A-Z]{1,3}\d{0,2}\b";
    "\b[A-Z]{2,4}\d{4,5}[A-Z]?-\s*[A-Z]{1,5}\d?\b";
    "\b[A-Z]{2,4}\d{3,5}-[A-Z]{1,4}\d{1,2}\b" ].

Definition ocr_error_patterns : list string :=
  [ "\b(\d{2}[A-L]\d{2}1\d{2,3})\b";
    "\b(\d{2}[A-L]\d{5,6})\b" ].

(** The correction applied to a match of an [ocr_error_patterns] entry:
    matches of length 7 or 8 get an ["I"] at index 5, others are dropped. *)
Definition correct_ocr_match (m : string) : list string :=
  if (Py.len m =? 7) || (Py.len m =? 8)
  then [ take 5 m +:+ "I" +:+ drop 6 m ]
  else [].

(** The preprocessing of [extract_numbers]. *)
Definition preprocess_bulk_name (bulk_name : string) : string :=
  let bulk_name := Py.upper bulk_name in
  let bulk_name := Py.replace bulk_name "!" "I" in
  let bulk_name := re_sub "-\s+" (fun _ => "-") bulk_name in
  re_sub "\s+" (fun _ => " ") bulk_name.

(** [all_prescription_matches], before the removal of duplicates. *)
Definition all_prescription_matches (bulk_name : string) : list string :=
  concat (map (fun pattern => re_findall pattern bulk_name)
              extract_numbers_prescription_patterns).

(** [all_test_matches], before the removal of duplicates. *)
Definition all_test_matches (bulk_name : string) : list string :=
  let correct_matches := re_findall "\b(\d{2}[A-L]\d{2}I\d{2,3})\b" bulk_name in
  let ocr_matches :=
    concat (map (fun pattern =>
                   concat (map correct_ocr_match (re_findall pattern bulk_name)))
                ocr_error_patterns) in
  let raw_matches :=
    map (fun m => group 1 m +:+ group 2 m +:+ group 3 m +:+ group 4 m
                  +:+ "I" +:+ take 2 (group 5 m))
        (re_finditer "(\d{2})([A-L])(\d)\s+(\d)(\d{2,3})" bulk_name) in
  correct_matches ++ ocr_matches ++ raw_matches.

(** [list(dict.fromkeys(l))] keeps the first element of [l] in front, so
    the first element after the removal of duplicates is the head of [l]. *)
Definition extract_numbers (bulk_name : string) : option string * option string :=
  let bulk_name := preprocess_bulk_name bulk_name in
  (head (all_test_matches bulk_name), head (all_prescription_matches bulk_name)).

(** ** Strain names and judgment *)

Definition strain_mapping : list (string * string) :=
  [ ("E.coli", "E.coli");
    ("Escherichia coli", "E.coli");
    ("E. coli", "E.coli");
    ("Escherichia", "E.coli");
    ("P.aeruginosa", "P.aeruginosa");
    ("Pseudomonas aeruginosa", "P.aeruginosa");
    ("P. aeruginosa", "P.aeruginosa");
    ("Pseudomonas", "P.aeruginosa");
    ("S.aureus", "S.aureus");
    ("Staphylococcus aureus", "S.aureus");
    ("S. aureus", "S.aureus");
    ("Staphylococcus", "S.aureus");
    ("C.albicans", "C.albicans");
    ("Candida albicans", "C.albicans");
    ("C. albicans", "C.albicans");
    ("Candida", "C.albicans");
    ("A.brasiliensis", "A.brasiliensis");
    ("Aspergillus brasiliensis", "A.brasiliensis");
    ("A. brasiliensis", "A.brasiliensis");
    ("Aspergillus", "A.brasiliensis") ].

Definition _normalize_strain_name (strain : string) : string :=
  match find (fun '(full_name, _) =>
                Py.contains (Py.lower full_name) (Py.lower strain))
             strain_mapping with
  | Some (_, short_name) => short_name
  | None => ""
  end.

Definition _extract_judgment (value : string) : string :=
  if Py.is_empty value then "적합"
  else
    let value := Py.upper (Py.strip value) in
    if existsb (fun char => Py.contains char value) ["X"; "×"; "V"; "부적합"]
    then "부적합"
    else "적합".

(** ** Calendar dates ([datetime], [timedelta], [strftime]) *)

Local Open Scope Z_scope.

Record date : Type := Date { year : Z; month : Z; day : Z }.

Definition is_leap (y : Z) : bool :=
  ((y mod 4 =? 0) && negb (y mod 100 =? 0)) || (y mod 400 =? 0).

Definition days_in_month (y m : Z) : Z :=
  if m =? 2 then (if is_leap y then 29 else 28)
  else if (m =? 4) || (m =? 6) || (m =? 9) || (m =? 11) then 30
  else 31.

(** [datetime(y, m, d)]; [None] stands for the [ValueError] of a month or a
    day out of range. *)
Definition datetime (y m d : Z) : option date :=
  if (1 <=? m) && (m <=? 12) && (1 <=? d) && (d <=? days_in_month y m)
  then Some (Date y m d) else None.

Definition next_day (t : date) : date :=
  if day t <? days_in_month (year t) (month t)
  then Date (year t) (month t) (day t + 1)
  else if month t <? 12 then Date (year t) (month t + 1) 1
  else Date (year t + 1) 1 1.

(** [t + timedelta(days=n)] *)
Definition add_days (t : date) (n : nat) : date := Nat.iter n next_day t.

Definition digit_char (n : Z) : ascii := ascii_of_nat (48 + Z.to_nat n).

(** A number below 100 on two digits. *)
Definition two_digits (n : Z) : string :=
  String (digit_char (n / 10)) (String (digit_char (n mod 10)) EmptyString).

(** [t.strftime("%m/%d")] *)
Definition strftime_md (t : date) : string :=
  two_digits (month t) +:+ "/" +:+ two_digits (day t).

(** [int(s)] for a string of ASCII digits. *)
Definition int_of_digits (s : string) : Z := Z.of_nat (fst (read_nat_acc s 0)).

(** ** Cell matrix *)

(** One row: column index to text, in insertion order; a well-formed row has
    no column twice. *)
Definition row : Type := list (Z * string).

Abbreviation matrix := (gmap Z row).

(** [row_data.get(col, default)] *)
Definition row_get (row_data : row) (col : Z) (default : string) : string :=
  match find (fun p => fst p =? col) row_data with
  | Some p => snd p
  | None => default
  end.

(** [col in row_data] *)
Definition row_has (row_data : row) (col : Z) : bool :=
  existsb (fun p => fst p =? col) row_data.

(** Stable insertion sort by an integer key ([sorted], [list.sort(key=...)]). *)
Section Sort.
Context {A : Type} (key : A -> Z).

Fixpoint insert_by (x : A) (l : list A) : list A :=
  match l with
  | [] => [x]
  | y :: l' => if key x <=? key y then x :: l else y :: insert_by x l'
  end.

Fixpoint sort_by (l : list A) : list A :=
  match l with
  | [] => []
  | x :: l' => insert_by x (sort_by l')
  end.
End Sort.

(** [range(a, b)] *)
Definition range (a b : Z) : list Z :=
  map (fun i => a + Z.of_nat i) (seq 0 (Z.to_nat (b - a))).

(** [len(table_matrix)] *)
Definition len (table_matrix : matrix) : Z := Z.of_nat (size table_matrix).

(** The first result of [f] over a list: a loop whose body returns from the
    function on [Some] and goes on to the next element on [None]. *)
Fixpoint first_some {A B : Type} (f : A -> option B) (l : list A) : option B :=
  match l with
  | [] => None
  | x :: l' => match f x with Some y => Some y | None => first_some f l' end
  end.

(** The rows a loop [for row_idx in range(a, b): if row_idx not in
    table_matrix: continue] gets to work on, in order. *)
Definition rows_in_range (table_matrix : matrix) (a b : Z) : list (Z * row) :=
  omap (fun row_idx => match table_matrix !! row_idx with
                       | Some row_data => Some (row_idx, row_data)
                       | None => None
                       end)
       (range a b).

(** ** Date-Block Extractor ([PreservationTestOCR._extract_date_info]) *)

(** The result dictionary, in insertion order; [[]] is the empty dict. *)
Definition date_info : Type := list (string * string).

(** The correction of a decimal point read for a space: '0.5 15' -> '05 15'. *)
Definition correct_date_text (value : string) : string :=
  re_sub "^(\d)\.(\d)\s+(\d{1,2})$"
         (fun m => group 1 m +:+ group 2 m +:+ " " +:+ group 3 m) value.

(** The two groups of a date-like cell, if the cell is one. *)
Definition date_like (value : string) : option (string * string) :=
  let value := correct_date_text (Py.strip value) in
  match re_match "^(\d{1,2})[/\-.](\d{1,2})$" value with
  | Some match1 => Some (group 1 match1, group 2 match1)
  | None =>
      match re_match "^(\d{1,2})\s+(\d{1,2})$" value with
      | Some match2 => Some (group 1 match2, group 2 match2)
      | None => None
      end
  end.

(** First pass, one row: the dates of its cells in column order. *)
Definition row_dates (row_data : row) : list (string * string) :=
  omap (fun col_idx => date_like (row_get row_data col_idx ""))
       (sort_by id (map fst row_data)).

Definition md (d : string * string) : string :=
  Py.zfill (fst d) 2 +:+ "/" +:+ Py.zfill (snd d) 2.

Definition four_dates (row_data : row) : option date_info :=
  match row_dates row_data with
  | d0 :: d1 :: d2 :: d3 :: _ =>
      Some [ ("date_0", md d0); ("date_7", md d1);
             ("date_14", md d2); ("date_28", md d3) ]
  | _ => None
  end.

(** Second pass, one cell: the block derived from a start date; [None] when
    the cell is not date-like or [datetime] refuses it (the [except:
    continue]). *)
Definition derived_dates (value : string) : option date_info :=
  match date_like value with
  | Some (g1, g2) =>
      match datetime 2024 (int_of_digits g1) (int_of_digits g2) with
      | Some start_date =>
          Some [ ("date_0", strftime_md start_date);
                 ("date_7", strftime_md (add_days start_date 7));
                 ("date_14", strftime_md (add_days start_date 14));
                 ("date_28", strftime_md (add_days start_date 28)) ]
      | None => None
      end
  | None => None
  end.

(** The rows both passes scan: [range(min(5, len(table_matrix)))]. *)
Definition leading_rows (table_matrix : matrix) : list (Z * row) :=
  rows_in_range table_matrix 0 (Z.min 5 (len table_matrix)).

Definition _extract_date_info (table_matrix : matrix) : date_info :=
  match first_some (fun r => four_dates (snd r)) (leading_rows table_matrix) with
  | Some date_info => date_info
  | None =>
      match first_some (fun r => first_some (fun c => derived_dates (snd c)) (snd r))
                       (leading_rows table_matrix) with
      | Some date_info => date_info
      | None => []
      end
  end.

(** ** Table Structure Resolver ([PreservationTestOCR._find_header_row]) *)

Definition header_keywords : list string :=
  [ "CHALLENGED ORGANISM"; "BULK NAME"; "SPECIFICATION" ].

Definition strain_keywords : list string :=
  [ "E.COLI"; "ESCHERICHIA"; "P.AERUGINOSA"; "PSEUDOMONAS";
    "S.AUREUS"; "STAPHYLOCOCCUS"; "C.ALBICANS"; "CANDIDA";
    "A.BRASILIENSIS"; "ASPERGILLUS"; "균주"; "STRAIN" ].

(** [' '.join(str(v) for v in row.values()).upper()] *)
Definition row_text_upper (row_data : row) : string :=
  Py.upper (Py.join " " (map snd row_data)).

Definition has_keyword (keywords : list string) (row_data : row) : bool :=
  existsb (fun keyword => Py.contains keyword (row_text_upper row_data)) keywords.

(** A cell shaped like a CFU value: scientific notation anywhere in it, or
    nothing but four or more digits. *)
Definition cfu_shaped (value : string) : bool :=
  let value_str := Py.strip value in
  is_match (re_search "\d+\.?\d*\s*[×xX]\s*10[\^]?\d+" value_str)
  || is_match (re_match "^\d{4,}$" value_str).

Definition has_cfu_pattern (row_data : row) : bool :=
  existsb (fun c => cfu_shaped (snd c)) row_data.

(** The rows of [range(min(15, len(table_matrix)))] with a strain keyword. *)
Definition candidate_rows (table_matrix : matrix) : list (Z * row) :=
  filter (fun r => has_keyword strain_keywords (snd r))
         (rows_in_range table_matrix 0 (Z.min 15 (len table_matrix))).

(** [None] is Python's [None] (no header found), [Some (-1)] the special
    value for a table without header, [Some i] the header row.  The loop
    over the candidate rows returns in its first round on either branch. *)
Definition _find_header_row (table_matrix : matrix) : option Z :=
  match first_some (fun r => if has_keyword header_keywords (snd r)
                             then Some (fst r) else None)
                   (rows_in_range table_matrix 0 (Z.min 5 (len table_matrix))) with
  | Some row_idx => Some row_idx
  | None =>
      match candidate_rows table_matrix with
      | (row_idx, row_data) :: _ =>
          if has_cfu_pattern row_data then Some (-1) else Some row_idx
      | [] => None
      end
  end.

(** ** Column mapping ([PreservationTestOCR._identify_columns]) *)

(** The column map, a dict from role name to column index. *)
Abbreviation column_map_t := (gmap string Z).

(** [column_map.get(role, -1)] *)
Definition col_or (column_map : column_map_t) (role : string) : Z :=
  default (-1) (column_map !! role).

(** [role in column_map] *)
Definition has_role (column_map : column_map_t) (role : string) : bool :=
  match column_map !! role with Some _ => true | None => false end.

(** The unit of a day column: ['일' in value or 'DAY' in value_upper or
    'CFU' in value_upper]. *)
Definition day_unit (value value_upper : string) : bool :=
  Py.contains "일" value || Py.contains "DAY" value_upper
  || Py.contains "CFU" value_upper.

(** The body of the loop over the header cells. *)
Definition identify_cell (column_map : column_map_t) (cell : Z * string)
  : column_map_t :=
  let '(col_idx, value) := cell in
  let value_upper := Py.strip (Py.upper value) in
  let column_map :=
    if Py.contains "균주" value || Py.contains "STRAIN" value_upper
       || Py.contains "E.COLI" value_upper || Py.contains "ORGANISM" value_upper
    then <["strain_col" := col_idx]> column_map else column_map in
  let column_map :=
    if Py.contains "SPECIFICATION" value_upper || Py.contains "SPEC" value_upper
    then <["specification_col" := col_idx]> column_map else column_map in
  let column_map :=
    if Py.contains "0" value
       && (day_unit value value_upper || Py.contains "접종" value)
    then <["cfu_0_col" := col_idx]> column_map
    else if Py.contains "7" value && day_unit value value_upper
    then <["cfu_7_col" := col_idx]> column_map
    else if Py.contains "14" value && day_unit value value_upper
    then <["cfu_14_col" := col_idx]> column_map
    else if Py.contains "28" value && day_unit value value_upper
    then <["cfu_28_col" := col_idx]> column_map
    else column_map in
  if Py.contains "판정" value || Py.contains "JUDGMENT" value_upper
  then
    if Py.contains "최종" value || Py.contains "FINAL" value_upper
    then <["final_judgment_col" := col_idx]> column_map
    else if negb (has_role column_map "judgment_col")
    then <["judgment_col" := col_idx]> column_map
    else column_map
  else column_map.

(** [sorted(table_matrix.keys())] *)
Definition sorted_rows (table_matrix : matrix) : list Z :=
  sort_by id (map fst (map_to_list table_matrix)).

(** The number of specification-shaped values among the first five cells
    found in column [next_col] below the header row. *)
Definition spec_pattern_count (table_matrix : matrix) (header_row next_col : Z)
  : nat :=
  let cells :=
    omap (fun row_idx =>
            if row_idx <=? header_row then None
            else match table_matrix !! row_idx with
                 | Some row_data =>
                     if row_has row_data next_col
                     then Some (Py.strip (row_get row_data next_col ""))
                     else None
                 | None => None
                 end)
         (sorted_rows table_matrix) in
  length (filter (fun value =>
                    is_match (re_match "^(≤[0-9]+[°cC]?|[0-9]{1,2}[°cC]?|SI)$" value))
                 (firstn 5 cells)).

(** [column_map[role] = col] unless the role is already mapped. *)
Definition set_default (role : string) (col : Z) (column_map : column_map_t)
  : column_map_t :=
  if has_role column_map role then column_map else <[role := col]> column_map.

Definition _identify_columns (table_matrix : matrix) (header_row : Z)
  : column_map_t :=
  match table_matrix !! header_row with
  | None => ∅
  | Some header_data =>
      let column_map := fold_left identify_cell header_data ∅ in
      match column_map !! "strain_col" with
      | None => column_map
      | Some strain_col =>
          let spec_col := col_or column_map "specification_col" in
          let '(spec_col, column_map) :=
            if spec_col =? -1
            then
              let next_col := strain_col + 1 in
              if (3 <=? spec_pattern_count table_matrix header_row next_col)%nat
              then (next_col, <["specification_col" := next_col]> column_map)
              else (spec_col, column_map)
            else (spec_col, column_map) in
          let cfu_start_col :=
            if strain_col <? spec_col then spec_col + 1 else strain_col + 1 in
          set_default "final_judgment_col" (cfu_start_col + 5)
            (set_default "judgment_col" (cfu_start_col + 4)
               (set_default "cfu_28_col" (cfu_start_col + 3)
                  (set_default "cfu_14_col" (cfu_start_col + 2)
                     (set_default "cfu_7_col" (cfu_start_col + 1)
                        (set_default "cfu_0_col" cfu_start_col column_map)))))
      end
  end.

(** ** Record Assembler (the row loop and the reordering of
       [PreservationTestOCR._extract_strain_data]) *)

Record test_record : Type := TestRecord {
  test_number : string;
  prescription_number : string;
  strain : string;
  cfu_0day : string;
  cfu_7day : string;
  cfu_14day : string;
  cfu_28day : string;
  judgment : string;
  final_judgment : string
}.

(** The identifier context: [(current_test, current_prescription)]. *)
Definition context : Type := string * string.

(** Step 1 of the loop body: the context after the bulk-name cell of the
    row has been looked at. *)
Definition update_context (row_data : row) (ctx : context) : context :=
  let bulk_name_col := 0 in
  let bulk_name := Py.strip (row_get row_data bulk_name_col "") in
  if Py.is_empty bulk_name then ctx
  else
    let '(test_num, presc_num) := _extract_test_info_from_row bulk_name in
    let current_test := if Py.is_empty test_num then fst ctx else test_num in
    let current_prescription :=
      if Py.is_empty presc_num then snd ctx else presc_num in
    (current_test, current_prescription).

(** Steps 2 to 4: the record of the row under the current context, or
    [None] where the body says [continue]. *)
Definition row_record (column_map : column_map_t) (row_data : row) (ctx : context)
  : option test_record :=
  match column_map !! "strain_col" with
  | None => None
  | Some strain_col =>
      if negb (row_has row_data strain_col) then None
      else
        let strain := Py.strip (row_get row_data strain_col "") in
        let strain_normalized := _normalize_strain_name strain in
        if Py.is_empty strain_normalized then None
        else
          let cfu_0 := _clean_cfu_value
                         (row_get row_data (col_or column_map "cfu_0_col") "")
                         strain_normalized "0일" in
          let cfu_7 := _clean_cfu_value
                         (row_get row_data (col_or column_map "cfu_7_col") "")
                         strain_normalized "7일" in
          let cfu_14 := _clean_cfu_value
                          (row_get row_data (col_or column_map "cfu_14_col") "")
                          strain_normalized "14일" in
          let cfu_28 := _clean_cfu_value
                          (row_get row_data (col_or column_map "cfu_28_col") "")
                          strain_normalized "28일" in
          let judgment :=
            _extract_judgment
              (row_get row_data (col_or column_map "judgment_col") "") in
          let final_judgment_col := col_or column_map "final_judgment_col" in
          let final_judgment :=
            if final_judgment_col =? -1 then ""
            else
              let final_judgment_value :=
                row_get row_data final_judgment_col "" in
              if Py.is_empty final_judgment_value then ""
              else _extract_judgment final_judgment_value in
          Some (TestRecord (fst ctx) (snd ctx) strain_normalized
                           cfu_0 cfu_7 cfu_14 cfu_28 judgment final_judgment)
  end.

(** The loop state: the context and [test_data]. *)
Definition loop_state : Type := context * list test_record.

(** One round of the row loop on a row present in the matrix. *)
Definition process_row (column_map : column_map_t) (st : loop_state)
  (row_data : row) : loop_state :=
  let ctx := update_context row_data (fst st) in
  match row_record column_map row_data ctx with
  | Some record => (ctx, snd st ++ [record])
  | None => (ctx, snd st)
  end.

(** The loop over a list of rows. *)
Definition process_rows (column_map : column_map_t) (st : loop_state)
  (rows : list row) : loop_state :=
  fold_left (process_row column_map) rows st.

(** The rows the loop [for row_idx in range(data_start_row,
    len(table_matrix))] works on. *)
Definition visited_rows (table_matrix : matrix) (data_start_row : Z)
  : list (Z * row) :=
  rows_in_range table_matrix data_start_row (len table_matrix).

Definition strain_order : list (string * Z) :=
  [ ("E.coli", 0); ("P.aeruginosa", 1); ("S.aureus", 2);
    ("C.albicans", 3); ("A.brasiliensis", 4) ].

(** [strain_order.get(x['strain'], 999)] *)
Definition strain_key (x : test_record) : Z :=
  match find (fun p => String.eqb (fst p) (strain x)) strain_order with
  | Some p => snd p
  | None => 999
  end.

(** The state of the reordering loop: [sorted_data],
    [current_test_number] ([None] before the first record) and
    [test_group]. *)
Definition group_state : Type := list test_record * option string * list test_record.

Definition flush (sorted_data test_group : list test_record) : list test_record :=
  match test_group with
  | [] => sorted_data
  | _ => sorted_data ++ sort_by strain_key test_group
  end.

Definition group_step (st : group_state) (data : test_record) : group_state :=
  let '(sorted_data, current_test_number, test_group) := st in
  if negb (bool_decide (Some (test_number data) = current_test_number))
  then (flush sorted_data test_group, Some (test_number data), [data])
  else (sorted_data, current_test_number, test_group ++ [data]).

(** The post-pass: group by test number in encounter order and sort each
    group by strain. *)
Definition reorder (test_data : list test_record) : list test_record :=
  let '(sorted_data, _, test_group) :=
    fold_left group_step test_data ([], None, []) in
  flush sorted_data test_group.

(** What the reordering loop returns from its final state. *)
Definition finish (st : group_state) : list test_record :=
  let '(sorted_data, _, test_group) := st in flush sorted_data test_group.

(** [assemble(matrix, column_map, start_row)]: the part of
    [_extract_strain_data] after the header and the columns are known. *)
Definition assemble (table_matrix : matrix) (column_map : column_map_t)
  (data_start_row : Z) : list test_record :=
  let test_data :=
    snd (process_rows column_map (("", ""), [])
           (map snd (visited_rows table_matrix data_start_row))) in
  reorder test_data.

(** [PreservationTestOCR._extract_strain_data] ([date_info] is not used by
    the body). *)
Definition _extract_strain_data (table_matrix : matrix) : list test_record :=
  match _find_header_row table_matrix with
  | None => []
  | Some header_row =>
      if header_row =? -1
      then assemble table_matrix (_identify_columns table_matrix 0) 0
      else assemble table_matrix (_identify_columns table_matrix header_row)
                    (header_row + 1)
  end.

(** ** Definitions used to state the properties *)

(** The value the day-7 disambiguation receives: the input after the
    stages of [_clean_cfu_value] that come before it. *)
Definition corrected_value (value : string) : string :=
  _normalize_scientific
    (_fix_less_than_10 (_remove_noise (_split_merged_cells value))).

(** The literal spellings of "<10" that [_fix_7day_ambiguous] accepts: the
    listed patterns, and each of them with its spaces removed. *)
Definition unambiguous_spellings : list string :=
  clear_less_10_patterns
  ++ map (fun pattern => Py.replace pattern " " "") clear_less_10_patterns.

(** The reordering as the specification words it: the maximal consecutive
    runs of one test number, each sorted by strain, put back in order. *)
Fixpoint spec_runs (l : list test_record) : list (list test_record) :=
  match l with
  | [] => []
  | x :: l' =>
      match spec_runs l' with
      | (y :: g) :: gs =>
          if String.eqb (test_number x) (test_number y)
          then (x :: y :: g) :: gs
          else [x] :: (y :: g) :: gs
      | _ => [[x]]
      end
  end.

Definition spec_reorder (l : list test_record) : list test_record :=
  concat (map (sort_by strain_key) (spec_runs l)).

(** All records of [g] carry the test number [t]. *)
Definition uniform (t : string) (g : list test_record) : Prop :=
  List.Forall (fun r => test_number r = t) g.

(** The order of two records under the canonical strain order. *)
Definition strain_le (a b : test_record) : Prop := strain_key a <= strain_key b.

(** The five strains in canonical order. *)
Definition canonical_strains : list string := map fst strain_order.

(** The identifying fields of a record. *)
Definition identity (r : test_record) : string * string * string :=
  (test_number r, prescription_number r, strain r).

Definition identity_key (i : string * string * string) : Z :=
  match find (fun p => String.eqb (fst p) (snd i)) strain_order with
  | Some p => snd p
  | None => 999
  end.

Definition example_header : row :=
  [ (0, "Bulk Name"); (1, "Challenged Organism"); (2, "Specification");
    (3, "0 day"); (4, "7 day"); (5, "14 day"); (6, "28 day"); (7, "Judgment") ].

Definition example_strain_row (name : string) (cfu : Z -> string) : row :=
  [ (1, name); (3, cfu 3); (4, cfu 4); (5, cfu 5); (6, cfu 6) ].

(** A page with the header in row 0, the dates in row 1, the bulk name
    "25E15I14 GB1919-ZMB" in row 2 and one strain per row from row 3 on, with
    the CFU text [cfu i c] in column [c] of the [i]-th strain row. *)
Definition example_page (names : list string) (cfu : nat -> Z -> string)
  : matrix :=
  list_to_map
    ((0, example_header)
     :: (1, [ (3, "01 15"); (4, "01 22"); (5, "01 29"); (6, "02 12") ])
     :: (2, [ (0, "25E15I14 GB1919-ZMB") ])
     :: imap (fun i name => (3 + Z.of_nat i, example_strain_row name (cfu i)))
             names).

(** A page whose row indices are 0, 1 and 3: a header and two strain rows. *)
Definition sparse_page : matrix :=
  list_to_map
    [ (0, example_header);
      (1, [ (0, "25E15I14 GB1919-ZMB"); (1, "E.coli"); (3, "5.5X105") ]);
      (3, [ (1, "S.aureus"); (3, "6.8X105") ]) ].

(** The same rows at the indices 0, 1 and 2. *)
Definition dense_page : matrix :=
  list_to_map
    [ (0, example_header);
      (1, [ (0, "25E15I14 GB1919-ZMB"); (1, "E.coli"); (3, "5.5X105") ]);
      (2, [ (1, "S.aureus"); (3, "6.8X105") ]) ].

(** The cells the second pass of [_extract_date_info] looks at, in the
    order it does: leading rows by index, the cells of a row as stored. *)
Definition scanned_cells (table_matrix : matrix) : list (Z * string) :=
  concat (map snd (leading_rows table_matrix)).

(** The date block derived from a start date. *)
Definition derived_block (start_date : date) : date_info :=
  [ ("date_0", strftime_md start_date);
    ("date_7", strftime_md (add_days start_date 7));
    ("date_14", strftime_md (add_days start_date 14));
    ("date_28", strftime_md (add_days start_date 28)) ].

(** The rows [_find_header_row] searches for a structural keyword. *)
Definition keyword_rows (table_matrix : matrix) : list (Z * row) :=
  rows_in_range table_matrix 0 (Z.min 5 (len table_matrix)).

(** Every pattern of the source, for [patterns_parse]. *)
Definition source_patterns : list string :=
  [ "(\d+\.?\d*[×xX]10[\^]?\d+)"; "<\s*\d+";
    "^<\s*10[\?\-\)]+$"; "^<\s*[czsCZS]ion"; "^\d$";
    "^<\s*10[\^]?2$"; "^<\s*10[\^]?2,?$"; "^<\s*10\s+2$";
    "^[SC]I0?2,?$"; "^[5C6]/0?2$"; "^\(\s*10?2,?$"; "^[SC]I0?2\s+2$";
    "^\d+[45]102$"; "^\d+\s*<\s*10";
    "^<\s*10\s*[" +:+ Py.dq +:+ "\'\s\?\-\)]*$";
    "(\d+\.?\d*)\s*[×]\s*10\s*(\d*)"; "(\d+\.?\d*)[×]10(\d+)";
    "-\s+"; "\s+-"; "-+"; "\s+"; "([A-Z])(\d{2})1(\d{2})";
    "\b(\d{2}[A-L]\d{2}I\d{2,3})\b"; "(\d{2})([A-L])(\d)\s+(\d)(\d{2,3})";
    "^(\d)\.(\d)\s+(\d{1,2})$"; "^(\d{1,2})[/\-.](\d{1,2})$";
    "^(\d{1,2})\s+(\d{1,2})$";
    "\d+\.?\d*\s*[×xX]\s*10[\^]?\d+"; "^\d{4,}$";
    "^(≤[0-9]+[°cC]?|[0-9]{1,2}[°cC]?|SI)$" ]
  ++ test_patterns ++ prescription_patterns
  ++ extract_numbers_prescription_patterns ++ ocr_error_patterns.

(** The test [_identify_columns] makes on a header cell for the strain
    column. *)
Definition is_strain_header (value : string) : bool :=
  let value_upper := Py.strip (Py.upper value) in
  Py.contains "균주" value || Py.contains "STRAIN" value_upper
  || Py.contains "E.COLI" value_upper || Py.contains "ORGANISM" value_upper.

(** The roles that get a positional default once the strain column is
    known. *)
Definition defaulted_roles : list string :=
  [ "cfu_0_col"; "cfu_7_col"; "cfu_14_col"; "cfu_28_col";
    "judgment_col"; "final_judgment_col" ].

(** The keys of a complete date block, in the order they are written. *)
Definition date_keys : list string := [ "date_0"; "date_7"; "date_14"; "date_28" ].

(** The test number of the first record of a group. *)
Definition tag (g : list test_record) : string :=
  match g with
  | [] => ""
  | x :: _ => test_number x
  end.

(** A list of groups that are the runs of their concatenation: no group is
    empty, each carries one test number, and neighbours carry different
    ones. *)
Fixpoint well_split (gs : list (list test_record)) : Prop :=
  match gs with
  | [] => True
  | g :: gs' =>
      g <> [] /\ uniform (tag g) g
      /\ match gs' with [] => True | g' :: _ => tag g' <> tag g end
      /\ well_split gs'
  end.

(** ** Table matrix ([PreservationTestOCR.extract_preservation_test_table]) *)

(** A cell of an analysed table: [cell.row_index], [cell.column_index],
    [cell.content]. *)
Record cell : Type := Cell {
  row_index : Z;
  column_index : Z;
  content : string
}.

(** A table of the analysis result. *)
Record table : Type := Table {
  row_count : Z;
  column_count : Z;
  cells : list cell
}.

(** [row_data[col] = v]: the value of a key that is present is replaced
    where it stands, a new key goes to the end. *)
Fixpoint row_set (row_data : row) (col : Z) (v : string) : row :=
  match row_data with
  | [] => [ (col, v) ]
  | (c, x) :: rest =>
      if c =? col then (c, v) :: rest else (c, x) :: row_set rest col v
  end.

(** The body of the loop over [table.cells]. *)
Definition put_cell (table_matrix : matrix) (c : cell) : matrix :=
  let row_idx := row_index c in
  let col_idx := column_index c in
  let row_data := default [] (table_matrix !! row_idx) in
  <[row_idx := row_set row_data col_idx (Py.strip (content c))]> table_matrix.

Definition matrix_of_cells (l : list cell) : matrix := fold_left put_cell l ∅.

(** [max(l, key=...)] on a non-empty list [x :: l]: the first element with
    the greatest key. *)
Fixpoint max_by {A : Type} (key : A -> Z) (x : A) (l : list A) : A :=
  match l with
  | [] => x
  | y :: l' => max_by key (if key x <? key y then y else x) l'
  end.

(** The function after the call of the analysis service, whose result
    [result.tables] is the argument: the pair is the ['data'] and the
    ['date_info'] of the returned dict. *)
Definition extract_preservation_test_table (tables : list table)
  : list test_record * date_info :=
  match tables with
  | [] => ([], [])
  | t :: ts =>
      let table := max_by (fun t => row_count t * column_count t) t ts in
      let table_matrix := matrix_of_cells (cells table) in
      let date_info := _extract_date_info table_matrix in
      let test_data := _extract_strain_data table_matrix in
      (test_data, date_info)
  end.

(** The text of the matrix at a row and column, if there is one. *)
Definition cell_at (table_matrix : matrix) (row_idx col_idx : Z) : option string :=
  match table_matrix !! row_idx with
  | Some row_data =>
      if row_has row_data col_idx then Some (row_get row_data col_idx "")
      else None
  | None => None
  end.

(** The cells of a list at a row and column. *)
Definition cells_at (l : list cell) (row_idx col_idx : Z) : list cell :=
  List.filter (fun c => (row_index c =? row_idx) && (column_index c =? col_idx)) l.

(** ** Identifier scan of the whole matrix
       ([PreservationTestOCR._extract_test_info]) *)

Definition scan_prescription_patterns : list string :=
  [ "\b[A-Z]{2,4}\d{4,5}[A-Z]?-[A-Z]{1,5}\d?\b";
    "\b[A-Z]{3}\d{5}-[A-Z]{2,4}\b";
    "\bM-[A-Z]{2,4}\d{4,5}-[A-Z]{1,4}\d?\b";
    "\b[A-Z]{2,4}\d{3,6}-[A-Z]{1,5}\b";
    "\b[A-Z]{2,5}\d{4}-[A-Z]{1,3}\d{0,2}\b";
    "\b[A-Z]{1,3}\d{4,5}-[A-Z]{2,4}[A-Z]?\b";
    "\b[A-Z]{2,4}\d{4}-[A-Z]\d[A-Z]{1,3}\b";
    "\b[A-Z]{2,4}\d{3,4}[A-Z]?-[A-Z]{1,4}\d*\b";
    "\b[A-Z]{2,4}\d{4}-\d{1,2}[A-Z]{1,2}\b";
    "\b[A-Z]{2,4}\d{4,5}[A-Z]?-\s*[A-Z]{1,5}\d?\b";
    "\b[A-Z]{2,4}\d{4,5}[A-Z]?-\s*[A-Z]+\d+[A-Z]+\b";
    "\b[A-Z]{2,4}\d{4,5}[A-Z]?-[A-Z]{1,5}\d[A-Z]+\b";
    "\b[A-Z]{2,4}\d{3,5}-[A-Z]{1,4}\d{1,2}\b";
    "\b[A-Z]{2,5}\d{3,5}-[A-Z]{2,5}[A-Z\d]*\b" ].

(** [if x not in l: l.append(x)] *)
Definition append_new (l : list string) (x : string) : list string :=
  if Py.mem x l then l else l ++ [x].

(** The state of the test-number steps of one row: [test_numbers] and
    [found_in_this_row]; a number in neither list is appended to both. *)
Definition add_found (st : list string * list string) (x : string)
  : list string * list string :=
  let '(test_numbers, found_in_this_row) := st in
  if negb (Py.mem x test_numbers) && negb (Py.mem x found_in_this_row)
  then (test_numbers ++ [x], found_in_this_row ++ [x])
  else st.

(** Step 2-3: a match of 7 or 8 characters gets its ["I"], the others are
    passed over. *)
Definition insert_missing_i (m : string) : list string :=
  if (Py.len m =? 7)%nat then [ take 5 m +:+ "I" +:+ drop 6 m ]
  else if (Py.len m =? 8)%nat then [ take 5 m +:+ "I" +:+ drop 5 m ]
  else [].

(** Step 2-5, one match of the truncated form. *)
Definition add_truncated (test_numbers : list string) (m : string) : list string :=
  if (Py.len m <? 6)%nat then test_numbers
  else
    let normalized :=
      if (6 <=? Py.len m)%nat && Py.mem (take 1 (drop 5 m)) [ "1"; "|" ]
      then take 5 m +:+ "I" +:+ drop 6 m else m in
    append_new test_numbers normalized.

(** The body of the loop over the rows. *)
Definition scan_row (st : list string * list string) (row_data : row)
  : list string * list string :=
  let '(test_numbers, prescription_numbers) := st in
  let row_text := Py.join " " (map snd row_data) in
  let row_text_upper := preprocess_row_text row_text in
  let prescription_numbers :=
    fold_left
      (fun acc pattern =>
         fold_left
           (fun acc m =>
              append_new acc (re_sub "-+" (fun _ => "-") (Py.replace m " " "")))
           (re_findall pattern row_text_upper) acc)
      scan_prescription_patterns prescription_numbers in
  let correct_matches :=
    re_findall "\b(\d{2}[A-L]\d{2}I\d{2,3})\b" row_text_upper in
  let st := fold_left add_found correct_matches (test_numbers, []) in
  let ocr_error_matches :=
    re_findall "\b(\d{2}[A-L]\d{2}1\d{2,3})\b" row_text_upper in
  let st :=
    match correct_matches with
    | [] => fold_left add_found
              (map (fun m => take 5 m +:+ "I" +:+ drop 6 m) ocr_error_matches) st
    | _ => st
    end in
  let st :=
    match correct_matches, ocr_error_matches with
    | [], [] =>
        fold_left add_found
          (concat (map insert_missing_i
                       (re_findall "\b(\d{2}[A-L]\d{5,6})\b" row_text_upper))) st
    | _, _ => st
    end in
  let st :=
    fold_left add_found
      (map (fun m => group 1 m +:+ group 2 m +:+ group 3 m +:+ group 4 m
                     +:+ "I" +:+ take 2 (group 5 m))
           (re_finditer "(\d{2})([A-L])(\d)\s+(\d)(\d{2,3})" row_text_upper)) st in
  let test_numbers :=
    match snd st with
    | [] =>
        fold_left add_truncated
          (re_findall "(\d{2}[A-L]\d{2}[A-Z1I|]?\d{0,3})\s*$" row_text_upper)
          (fst st)
    | _ => fst st
    end in
  (test_numbers, prescription_numbers).

(** [if not l: l = ['']] *)
Definition or_blank (l : list string) : list string :=
  match l with [] => [ "" ] | _ => l end.

(** The argument [header_row] is not used by the body. *)
Definition _extract_test_info (table_matrix : matrix) (header_row : Z)
  : list string * list string :=
  let '(test_numbers, prescription_numbers) :=
    fold_left scan_row
      (map snd (rows_in_range table_matrix 0 (len table_matrix))) ([], []) in
  (or_blank test_numbers, or_blank prescription_numbers).

Definition scan_patterns : list string :=
  scan_prescription_patterns
  ++ [ "\b(\d{2}[A-L]\d{2}1\d{2,3})\b"; "\b(\d{2}[A-L]\d{5,6})\b";
       "(\d{2}[A-L]\d{2}[A-Z1I|]?\d{0,3})\s*$" ].

(** ** [DataCleaner] of [backend.py] *)

Module DataCleaner.

Definition strain_mapping : list (string * string) :=
  [ ("E.coli", "E.coli"); ("Escherichia coli", "E.coli"); ("E. coli", "E.coli");
    ("P.aeruginosa", "P.aeruginosa");
    ("Pseudomonas aeruginosa", "P.aeruginosa");
    ("P. aeruginosa", "P.aeruginosa");
    ("S.aureus", "S.aureus"); ("Staphylococcus aureus", "S.aureus");
    ("S. aureus", "S.aureus");
    ("C.albicans", "C.albicans"); ("Candida albicans", "C.albicans");
    ("C. albicans", "C.albicans");
    ("A.brasiliensis", "A.brasiliensis");
    ("Aspergillus brasiliensis", "A.brasiliensis");
    ("A. brasiliensis", "A.brasiliensis") ].

(** [DataCleaner.normalize_strain_name]: an exact match first, then
    containment, else the name as it came. *)
Definition normalize_strain_name (strain : string) : string :=
  match find (fun '(full_name, _) =>
                String.eqb (Py.lower full_name) (Py.lower strain))
             strain_mapping with
  | Some (_, short_name) => short_name
  | None =>
      match find (fun '(full_name, _) =>
                    Py.contains (Py.lower full_name) (Py.lower strain))
                 strain_mapping with
      | Some (_, short_name) => short_name
      | None => strain
      end
  end.

(** [re.sub(r'[ぁ-んァ-ン一-龯]+', '', value)]: the characters U+3041 to
    U+3093, U+30A1 to U+30F3 and U+4E00 to U+9FAF, each three bytes long in
    UTF-8, are dropped. *)
Definition is_continuation (a : ascii) : bool :=
  (128 <=? Py.code a)%nat && (Py.code a <? 192)%nat.

Definition code_point3 (a b c : ascii) : Z :=
  (Z.of_nat (Py.code a) - 224) * 4096
  + (Z.of_nat (Py.code b) - 128) * 64
  + (Z.of_nat (Py.code c) - 128).

Definition is_kana_or_kanji (n : Z) : bool :=
  ((12353 <=? n) && (n <=? 12435))
  || ((12449 <=? n) && (n <=? 12531))
  || ((19968 <=? n) && (n <=? 40879)).

Fixpoint remove_kana_kanji (s : string) : string :=
  match s with
  | EmptyString => EmptyString
  | String a t =>
      match t with
      | String b (String c s') =>
          if (224 <=? Py.code a)%nat && (Py.code a <? 240)%nat
             && is_continuation b && is_continuation c
             && is_kana_or_kanji (code_point3 a b c)
          then remove_kana_kanji s'
          else String a (remove_kana_kanji t)
      | _ => String a (remove_kana_kanji t)
      end
  end.

(** The removal of OCR errors at the head of [clean_cfu_value]. *)
Definition ocr_cleanup (value : string) : string :=
  let value := remove_kana_kanji value in
  let value :=
    Py.replace (Py.replace (Py.replace value "く" "<") "C" "<") "O" "0" in
  let value :=
    Py.replace (Py.replace (Py.replace value "Co" "0") "CIO" "<10") "C10" "<10" in
  Py.strip value.

(** [strain and any(s in strain for s in target_strains)] *)
Definition is_target_strain (strain : option string) : bool :=
  match strain with
  | Some strain =>
      negb (Py.is_empty strain)
      && existsb (fun s => Py.contains s strain)
                 [ "E.coli"; "P.aeruginosa"; "S.aureus"; "C.albicans" ]
  | None => false
  end.

(** [day_column in l] for a day column that may be [None]. *)
Definition day_in (day_column : option string) (l : list string) : bool :=
  match day_column with
  | Some d => Py.mem d l
  | None => false
  end.

(** [DataCleaner.clean_cfu_value(value, strain=None, day_column=None)] *)
Definition clean_cfu_value (value : string) (strain day_column : option string)
  : string :=
  if Py.is_empty value then ""
  else
    let original_value := value in
    let value := ocr_cleanup value in
    let exponent_form :=
      if is_match (re_search "[×xX]" value)
      then re_match "([0-9.]+)\s*[×xX]\s*10\s*\^?([0-9]+)" value
      else None in
    match exponent_form with
    | Some exp_match => group 1 exp_match +:+ "×10^" +:+ group 2 exp_match
    | None =>
        if Py.contains "<" value
        then
          match re_search "<\s*10\s*\^?\s*([0-9]+)" value with
          | Some m => "<10^" +:+ group 1 m
          | None =>
              match re_search "<\s*([0-9]+)" value with
              | Some m => "<" +:+ group 1 m
              | None => "<10"
              end
          end
        else
          let limit_form :=
            if Py.contains "≤" value
            then re_search "≤\s*([0-9]+)" value else None in
          match limit_form with
          | Some m => "≤" +:+ group 1 m
          | None =>
              if day_in day_column [ "7일"; "14일"; "28일" ]
                 && is_target_strain strain
              then
                if is_match (re_match_flags true "^≤\d+[°⁰]?$" value) then value
                else if (6 <=? Py.len original_value)%nat then value
                else
                  let corrected_value :=
                    if day_in day_column [ "7일" ] then "<10^2" else "<10" in
                  let has_clear_power_signal :=
                    Py.contains "2" original_value
                    && existsb (fun char => Py.contains char original_value)
                               [ "^"; "²"; "⁰"; "¹"; "²"; "³" ] in
                  if has_clear_power_signal && negb (day_in day_column [ "28일" ])
                  then "<10^2" else corrected_value
              else value
          end
    end.

(** The part of [DataCleaner.convert_to_log] for an empty value and for a
    value with ['<']; [None] where the function goes on to the numeric
    branches, which compute with floating-point numbers. *)
Definition convert_to_log_limit (cfu_value : string) : option string :=
  if Py.is_empty cfu_value then Some ""
  else if Py.contains "<" cfu_value
  then
    if Py.contains "10^" cfu_value
    then
      match re_search "<10\^(\d+)" cfu_value with
      | Some exp_match => Some ("<" +:+ group 1 exp_match +:+ ".0")
      | None => Some "<1.0"
      end
    else
      let num_match :=
        if Py.contains "≤" cfu_value
        then re_search "≤(\d+)" cfu_value else None in
      match num_match with
      | Some num_match => Some ("<" +:+ group 1 num_match +:+ ".0")
      | None => Some "<1.0"
      end
  else None.

Definition patterns : list string :=
  [ "[×xX]"; "([0-9.]+)\s*[×xX]\s*10\s*\^?([0-9]+)";
    "<\s*10\s*\^?\s*([0-9]+)"; "<\s*([0-9]+)"; "≤\s*([0-9]+)";
    "^≤\d+[°⁰]?$"; "<10\^(\d+)"; "≤(\d+)" ].

End DataCleaner.

(** The part of [PreservationTestOCR.convert_to_log] for an empty value and
    for a value with ['<']; [None] where the function goes on to the
    numeric branches. *)
Definition convert_to_log_limit (cfu_value : string) : option string :=
  if Py.is_empty cfu_value then Some ""
  else if Py.contains "<" cfu_value
  then
    if Py.contains "10^" cfu_value
    then
      match re_search "<10\^(\d+)" cfu_value with
      | Some exp_match => Some ("<" +:+ group 1 exp_match +:+ ".0")
      | None => Some "<1.0"
      end
    else Some "<1.0"
  else None.

(** The byte [c] does not occur in [s]. *)
Fixpoint free_of (c : ascii) (s : string) : bool :=
  match s with
  | EmptyString => true
  | String a s' => negb (Ascii.eqb a c) && free_of c s'
  end.

(** The double quote, as a byte. *)
Definition dq_char : ascii := ascii_of_nat 34.

(** The entries of the correction table of [_fix_less_than_10] that hold a
    quote character. *)
Definition quoted_patterns : list string :=
  [ "L10" +:+ Py.dq; "L 10" +:+ Py.dq; "clo" +:+ Py.dq; "clo'" ].

(** ** A declarative reading of the matcher, to state what a match
       guarantees *)

(** [n] rounds of a relation between positions. *)
Fixpoint rounds (R : mstate -> mstate -> Prop) (n : nat) (st st' : mstate)
  : Prop :=
  match n with
  | O => st' = st
  | S n' => exists st1, R st st1 /\ rounds R n' st1 st'
  end.

(** [matches ci r st st']: [r] can take the matcher from [st] to [st']. *)
Fixpoint matches (ci : bool) (r : regex) (st st' : mstate) : Prop :=
  match r with
  | REps => st' = st
  | RChar ch =>
      has_prefix ci ch (m_rest st) = true /\ st' = step (String.length ch) st
  | RClass items =>
      exists n, eat_class ci items (m_rest st) = Some n /\ st' = step n st
  | RBol => m_prev st = None /\ st' = st
  | REol => at_eol st = true /\ st' = st
  | RWordB => xorb (word_before st) (word_after st) = true /\ st' = st
  | RSeq r1 r2 => exists st1, matches ci r1 st st1 /\ matches ci r2 st1 st'
  | RAlt r1 r2 => matches ci r1 st st' \/ matches ci r2 st st'
  | RRep r' lo hi =>
      exists n, rounds (matches ci r') n st st'
                /\ (lo <= n)%nat
                /\ match hi with Some h => (n <= h)%nat | None => True end
  | RGroup n r' =>
      exists st1,
        matches ci r' st st1
        /\ st' = set_cap n
                   (take (String.length (m_rest st) - String.length (m_rest st1))
                         (m_rest st)) st1
  end.

(** [seg st st' w]: from [st] to [st'] the matcher has read [w] and left
    the groups as they were. *)
Definition seg (st st' : mstate) (w : string) : Prop :=
  m_rest st = w +:+ m_rest st' /\ m_caps st' = m_caps st.

(** A string of ASCII digits. *)
Fixpoint all_digits (s : string) : bool :=
  match s with
  | EmptyString => true
  | String c s' => Py.is_digit c && all_digits s'
  end.







(** [takes ci r st st']: the matcher has one way through [r] at [st], and
    it ends at [st']; [fails ci r st]: it has none. *)
Definition takes (ci : bool) (r : regex) (st st' : mstate) : Prop :=
  forall k, run ci r st k = k st'.







(** Every byte of [s] satisfies [P]. *)
Fixpoint all_bytes (P : ascii -> bool) (s : string) : bool :=
  match s with
  | EmptyString => true
  | String c s' => P c && all_bytes P s'
  end.

(** A digit or a point: the bytes of the class [[0-9.]]. *)
Definition digit_or_point (b : ascii) : bool :=
  Py.is_digit b || Ascii.eqb b ".".

(** A non-empty string of ASCII digits. *)
Definition is_number (s : string) : bool :=
  negb (Py.is_empty s) && all_digits s.


(** [s.split()]: the words between runs of whitespace. [cur] is the word
    read so far. *)
Fixpoint split_fuel (fuel : nat) (s cur : string) : list string :=
  let emit := if Py.is_empty cur then [] else [ cur ] in
  match fuel with
  | O => emit
  | S fuel' =>
      match s with
      | EmptyString => emit
      | String c s' =>
          match Py.drop_any Py.whitespace s with
          | Some r => emit ++ split_fuel fuel' r EmptyString
          | None => split_fuel fuel' s' (cur +:+ String c EmptyString)
          end
      end
  end.

Definition str_split (s : string) : list string :=
  split_fuel (String.length s) s EmptyString.

(** [s.isdigit()], on the ASCII digits. *)
Definition isdigit (s : string) : bool := negb (Py.is_empty s) && all_digits s.

(** The loop [for i in range(0, min(8, len(parts)), 2): if i + 1 <
    len(parts): dates.append(f"{parts[i]}/{parts[i + 1]}")] over the first
    eight parts. *)
Fixpoint pair_dates (parts : list string) : list string :=
  match parts with
  | month :: day :: rest => (month +:+ "/" +:+ day) :: pair_dates rest
  | _ => []
  end.

(** [DataCleaner.parse_consecutive_dates]; nothing in the [try] block
    raises on a string. *)
Definition parse_consecutive_dates (date_text : string) : list string :=
  let parts := str_split date_text in
  if (8 <=? length parts)%nat
     && forallb (fun part => isdigit part && (Py.len part =? 2)%nat) parts
  then
    let dates := pair_dates (firstn 8 parts) in
    if (4 <=? length dates)%nat then firstn 4 dates else []
  else [].


(** * Properties *)

(** Every pattern of the source is in the syntax the parser reads. *)
Lemma patterns_parse :
  forallb (fun p => match parse p with Some _ => true | None => false end)
          source_patterns = true.
Proof. vm_compute. reflexivity. Qed.

(** The matcher on some of the texts the docstrings of the source give. *)
Example findall_scientific :
  re_findall "(\d+\.?\d*[×xX]10[\^]?\d+)" "7.0X102 1.0×10^3" = [ "7.0X102"; "1.0×10^3" ].
Proof. vm_compute. reflexivity. Qed.

Example findall_less_than :
  re_findall "<\s*\d+" "<10 < 10" = [ "<10"; "< 10" ].
Proof. vm_compute. reflexivity. Qed.

Example search_groups :
  option_map (fun m => (group 1 m, group 2 m))
             (re_search "(\d+\.?\d*)\s*[×]\s*10\s*(\d*)" "<6.1 × 100")
  = Some ("6.1", "0").
Proof. vm_compute. reflexivity. Qed.

Example sub_dashes :
  re_sub "-+" (fun _ => "-") "GB1919---ZMB" = "GB1919-ZMB".
Proof. vm_compute. reflexivity. Qed.

Example word_boundary :
  is_match (re_search "\b(2[0-9][A-Z]\d{2}[I!|1]\d{2})\b" "X25E15I14") = false
  /\ is_match (re_search "\b(2[0-9][A-Z]\d{2}[I!|1]\d{2})\b" "X 25E15I14") = true.
Proof. vm_compute. split; reflexivity. Qed.

Example end_anchor_before_line_feed :
  is_match (re_match "^\d$" ("1" +:+ Py.nl)) = true.
Proof. vm_compute. reflexivity. Qed.

Example strip_unicode_space :
  Py.strip (Py.str_of_codes [194; 160]%nat +:+ " <10 " +:+ Py.nl) = "<10".
Proof. vm_compute. reflexivity. Qed.

Example add_days_leap_february :
  add_days (Date 2024 2 28) 7 = Date 2024 3 6.
Proof. vm_compute. reflexivity. Qed.

Example add_days_new_year :
  add_days (Date 2024 12 25) 28 = Date 2025 1 22.
Proof. vm_compute. reflexivity. Qed.

(** ** Value Normalizer *)

Section ValueNormalizer.

Variable strain : string.

(** In the day-7 column a non-empty input goes through the stages in
    order and ends in the disambiguation, which sees the raw input. *)
Lemma clean_day7 (value : string) :
  value <> "" ->
  _clean_cfu_value value strain "7일"
  = _fix_7day_ambiguous (corrected_value value) value.
Proof.
  destruct value as [|c v]; [congruence|intros _].
  unfold _clean_cfu_value, corrected_value. cbn [Py.is_empty].
  replace (String.eqb "7일" "0일") with false by reflexivity.
  replace (String.eqb "7일" "7일") with true by reflexivity.
  reflexivity.
Qed.


(** Any other column name takes the branch of the 14- and 28-day columns. *)
Lemma clean_other_day (value day_column : string) :
  value <> "" -> day_column <> "0일" -> day_column <> "7일" ->
  _clean_cfu_value value strain day_column = corrected_value value.
Proof.
  intros Hv H0 H7. destruct value; [congruence|].
  unfold _clean_cfu_value, corrected_value. cbn [Py.is_empty].
  destruct (String.eqb_spec day_column "0일") as [E|_]; [congruence|].
  destruct (String.eqb_spec day_column "7일") as [E|_]; [congruence|].
  reflexivity.
Qed.

(** The result for a closed input does not depend on the column name
    beyond its being "0일", "7일" or something else. *)
Lemma clean_by_cases (value day_column r0 r7 r : string) :
  _clean_cfu_value value strain "0일" = r0 ->
  _clean_cfu_value value strain "7일" = r7 ->
  _clean_cfu_value value strain "14일" = r ->
  _clean_cfu_value value strain day_column
  = if String.eqb day_column "0일" then r0
    else if String.eqb day_column "7일" then r7 else r.
Proof.
  intros E0 E7 E.
  destruct (String.eqb_spec day_column "0일") as [->|H0]; [exact E0|].
  destruct (String.eqb_spec day_column "7일") as [->|H7]; [exact E7|].
  destruct value as [|c v]; [exact E|].
  rewrite clean_other_day by congruence.
  rewrite clean_other_day in E by (congruence || discriminate). exact E.
Qed.

End ValueNormalizer.

(** C1 (the code departs from the claim): normalizing is not idempotent.
    The canonical form "5.5×10^5" that the normalizer returns for "5.5X105"
    is itself turned into "5.5×10^0" when it is normalized again, in every
    day column: [pattern1] of [_normalize_scientific] has no place for the
    caret it writes, so the exponent it reads is empty and defaults to 0. *)
Theorem normalize_twice_loses_exponent :
  Forall (fun day_column =>
            _clean_cfu_value "5.5X105" "E.coli" day_column = "5.5×10^5"
            /\ _clean_cfu_value (_clean_cfu_value "5.5X105" "E.coli" day_column)
                                "E.coli" day_column = "5.5×10^0")
         [ "0일"; "7일"; "14일"; "28일" ].
Proof. repeat constructor; vm_compute; reflexivity. Qed.

(** The same at the stage itself. *)
Lemma normalize_scientific_on_canonical_form :
  _normalize_scientific "5.5×10^5" = "5.5×10^0".
Proof. vm_compute. reflexivity. Qed.

Lemma fix_7day_keeps (value original : string) :
  value = "<10" -> In (Py.strip original) unambiguous_spellings ->
  _fix_7day_ambiguous value original = "<10".
Proof.
  intros -> Hin. unfold _fix_7day_ambiguous.
  unfold unambiguous_spellings, clear_less_10_patterns in Hin.
  cbn [In app map] in Hin.
  repeat (destruct Hin as [<-|Hin]; [vm_compute; reflexivity|]).
  contradiction.
Qed.

Lemma fix_7day_promotes (value original : string) :
  value = "<10" -> In (Py.strip original) ambiguous_patterns ->
  _fix_7day_ambiguous value original = "<10^2".
Proof.
  intros -> Hin. unfold _fix_7day_ambiguous.
  unfold ambiguous_patterns in Hin. cbn [In] in Hin.
  repeat (destruct Hin as [<-|Hin]; [vm_compute; reflexivity|]).
  contradiction.
Qed.

Lemma fix_7day_exponent (value original : string) :
  Py.contains "^" value = true -> _fix_7day_ambiguous value original = value.
Proof. intros H. unfold _fix_7day_ambiguous. now rewrite H. Qed.

(** C2: in the day-7 column "CIO" becomes "<10^2" and the literal "<10"
    stays "<10"; whenever the corrected value is exactly "<10", it is kept
    when the raw text is one of the unambiguous spellings of "<10" and
    promoted to "<10^2" when the raw text is one of the ambiguous misread
    tokens; a corrected value with an exponent mark is returned as it is. *)
Theorem day7_disambiguation (value strain : string) :
  _clean_cfu_value "CIO" strain "7일" = "<10^2"
  /\ _clean_cfu_value "<10" strain "7일" = "<10"
  /\ (value <> "" -> corrected_value value = "<10" ->
      In (Py.strip value) unambiguous_spellings ->
      _clean_cfu_value value strain "7일" = "<10")
  /\ (value <> "" -> corrected_value value = "<10" ->
      In (Py.strip value) ambiguous_patterns ->
      _clean_cfu_value value strain "7일" = "<10^2")
  /\ (value <> "" -> Py.contains "^" (corrected_value value) = true ->
      _clean_cfu_value value strain "7일" = corrected_value value).
Proof.
  split; [vm_compute; reflexivity|].
  split; [vm_compute; reflexivity|].
  split; [|split].
  - intros Hv Hc Hin. rewrite clean_day7 by exact Hv.
    now apply fix_7day_keeps.
  - intros Hv Hc Hin. rewrite clean_day7 by exact Hv.
    now apply fix_7day_promotes.
  - intros Hv Hc. rewrite clean_day7 by exact Hv.
    now apply fix_7day_exponent.
Qed.

(** A misread token of the correction table that is not in
    [ambiguous_patterns] keeps "<10" in the day-7 column. *)
Lemma day7_other_token_kept (strain : string) :
  _clean_cfu_value "LIO" strain "7일" = "<10"
  /\ _clean_cfu_value "1" strain "7일" = "<10".
Proof. split; vm_compute; reflexivity. Qed.

Lemma day7_disambiguation_witness :
  _clean_cfu_value "< 10" "E.coli" "7일" = "<10"
  /\ _clean_cfu_value "40" "E.coli" "7일" = "<10^2"
  /\ _clean_cfu_value "<102" "E.coli" "7일" = corrected_value "<102".
Proof.
  split; [|split].
  - pose proof (day7_disambiguation "< 10" "E.coli") as (_ & _ & H & _).
    apply H; [discriminate | vm_compute; reflexivity | vm_compute; tauto].
  - pose proof (day7_disambiguation "40" "E.coli") as (_ & _ & _ & H & _).
    apply H; [discriminate | vm_compute; reflexivity | vm_compute; tauto].
  - pose proof (day7_disambiguation "<102" "E.coli") as (_ & _ & _ & _ & H).
    apply H; [discriminate | vm_compute; reflexivity].
Defined.

Lemma split_keeps_first_scientific (value first : string) (rest : list string) :
  re_findall "(\d+\.?\d*[×xX]10[\^]?\d+)" value = first :: rest -> rest <> [] ->
  _split_merged_cells value = first.
Proof.
  intros H Hrest. destruct value as [|c v]; [vm_compute in H; discriminate|].
  unfold _split_merged_cells. cbn [Py.is_empty]. cbv zeta. rewrite H.
  destruct rest; [congruence|reflexivity].
Qed.

Lemma split_keeps_first_limit (value first : string) (rest : list string) :
  (length (re_findall "(\d+\.?\d*[×xX]10[\^]?\d+)" value) < 2)%nat ->
  re_findall "<\s*\d+" value = first :: rest -> rest <> [] ->
  _split_merged_cells value = first.
Proof.
  intros Hs H Hrest. destruct value as [|c v]; [vm_compute in H; discriminate|].
  unfold _split_merged_cells. cbn [Py.is_empty]. cbv zeta.
  destruct (Nat.leb_spec 2 (length (re_findall "(\d+\.?\d*[×xX]10[\^]?\d+)"
                                               (String c v)))) as [Hle|_];
    [lia|].
  rewrite H. destruct rest; [congruence|reflexivity].
Qed.

(** C5, as the code has it: on "7.0X102 1.0 ×103" the normalizer as a whole
    returns "7.0×10^2", the first value and not the second, in every day
    column.  The split stage, when its scientific-notation pattern (or,
    failing that, its "<digits" pattern) occurs twice or more, hands on the
    first occurrence as it is written in the input ("7.0X102" for
    "7.0X102 1.0×103"); the multiplication sign and the caret of the
    canonical form are written by the scientific-notation stage. *)
Theorem merged_cell_first_value (value strain day_column first : string)
  (rest : list string) :
  _clean_cfu_value "7.0X102 1.0 ×103" strain day_column = "7.0×10^2"
  /\ (re_findall "(\d+\.?\d*[×xX]10[\^]?\d+)" value = first :: rest ->
      rest <> [] -> _split_merged_cells value = first)
  /\ ((length (re_findall "(\d+\.?\d*[×xX]10[\^]?\d+)" value) < 2)%nat ->
      re_findall "<\s*\d+" value = first :: rest ->
      rest <> [] -> _split_merged_cells value = first)
  /\ _split_merged_cells "7.0X102 1.0×103" = "7.0X102".
Proof.
  split; [|split; [|split]].
  - rewrite (clean_by_cases strain _ day_column "7.0×10^2" "7.0×10^2" "7.0×10^2")
      by (vm_compute; reflexivity).
    now repeat destruct (String.eqb _ _).
  - apply split_keeps_first_scientific.
  - apply split_keeps_first_limit.
  - vm_compute. reflexivity.
Qed.

Lemma merged_cell_first_value_witness :
  _split_merged_cells "7.0X102 1.0×103" = "7.0X102"
  /\ _split_merged_cells "<10 < 10" = "<10".
Proof.
  split.
  - pose proof (merged_cell_first_value "7.0X102 1.0×103" "E.coli" "0일"
                  "7.0X102" [ "1.0×103" ]) as (_ & H & _).
    apply H; [vm_compute; reflexivity | discriminate].
  - pose proof (merged_cell_first_value "<10 < 10" "E.coli" "7일"
                  "<10" [ "< 10" ]) as (_ & _ & H & _).
    apply H; [vm_compute; lia | vm_compute; reflexivity | discriminate].
Defined.

(** C5, as stated, fails: the split stage does not return "7.0×10^2" on
    "7.0X102 1.0 ×103"; it returns the text unchanged, its pattern finding
    one occurrence only. *)
Lemma split_stage_leaves_text :
  re_findall "(\d+\.?\d*[×xX]10[\^]?\d+)" "7.0X102 1.0 ×103" = ["7.0X102"]
  /\ _split_merged_cells "7.0X102 1.0 ×103" = "7.0X102 1.0 ×103"
  /\ _split_merged_cells "7.0X102 1.0 ×103" <> "7.0×10^2".
Proof. vm_compute. repeat split; discriminate. Qed.

(** C10: in the day-7, day-14 and day-28 columns the inputs "...", "...."
    and "…" are normalized to the empty string; in the day-0 column they
    come out unchanged. *)
Theorem ellipsis_cells (strain : string) :
  Forall (fun value =>
            _clean_cfu_value value strain "7일" = ""
            /\ _clean_cfu_value value strain "14일" = ""
            /\ _clean_cfu_value value strain "28일" = ""
            /\ _clean_cfu_value value strain "0일" = value)
         [ "..."; "...."; "…" ].
Proof. repeat constructor; vm_compute; reflexivity. Qed.

(** ** Record Assembler: the reordering *)

(** *** The stable sort *)

Section SortFacts.
Context {A : Type} (key : A -> Z).

Lemma insert_by_perm (x : A) (l : list A) :
  Permutation (insert_by key x l) (x :: l).
Proof.
  induction l as [|y l IH]; simpl; [reflexivity|].
  destruct (key x <=? key y); [reflexivity|].
  rewrite IH. apply perm_swap.
Qed.

Lemma sort_by_perm (l : list A) : Permutation (sort_by key l) l.
Proof.
  induction l as [|x l IH]; simpl; [constructor|].
  rewrite insert_by_perm. now constructor.
Qed.

Lemma insert_by_sorted (x : A) (l : list A) :
  Sorted (fun a b => key a <= key b) l ->
  Sorted (fun a b => key a <= key b) (insert_by key x l).
Proof.
  induction 1 as [|y l Hs IH Hhd]; simpl.
  - repeat constructor.
  - destruct (Z.leb_spec (key x) (key y)) as [Hle|Hgt].
    + constructor; [now constructor|]. now constructor.
    + constructor; [exact IH|].
      destruct Hhd as [|z l Hyz]; simpl.
      * constructor. lia.
      * destruct (key x <=? key z); constructor; lia.
Qed.

Lemma sort_by_sorted (l : list A) :
  Sorted (fun a b => key a <= key b) (sort_by key l).
Proof.
  induction l as [|x l IH]; simpl; [constructor|].
  now apply insert_by_sorted.
Qed.

(** Stability: records with the same key keep their order. *)
Lemma insert_by_stable (k : Z) (x : A) (l : list A) :
  List.filter (fun a => key a =? k) (insert_by key x l)
  = List.filter (fun a => key a =? k) (x :: l).
Proof.
  induction l as [|y l IH]; [reflexivity|].
  cbn [insert_by].
  destruct (Z.leb_spec (key x) (key y)) as [Hle|Hgt]; [reflexivity|].
  cbn [List.filter] in *. rewrite IH.
  destruct (Z.eqb_spec (key x) k) as [Hx|Hx];
    destruct (Z.eqb_spec (key y) k) as [Hy|Hy]; try reflexivity.
  lia.
Qed.

Lemma sort_by_stable (k : Z) (l : list A) :
  List.filter (fun a => key a =? k) (sort_by key l)
  = List.filter (fun a => key a =? k) l.
Proof.
  induction l as [|x l IH]; [reflexivity|].
  cbn [sort_by]. rewrite insert_by_stable. cbn [List.filter].
  now rewrite IH.
Qed.
End SortFacts.

Lemma spec_runs_nonempty (l : list test_record) :
  List.Forall (fun g => g <> []) (spec_runs l).
Proof.
  induction l as [|x l IH]; simpl; [constructor|].
  destruct (spec_runs l) as [|[|y g] gs]; try (repeat constructor; easy).
  inversion IH; subst.
  destruct (String.eqb _ _); repeat constructor; easy.
Qed.

Lemma spec_runs_concat (l : list test_record) : concat (spec_runs l) = l.
Proof.
  induction l as [|x l IH]; simpl; [reflexivity|].
  pose proof (spec_runs_nonempty l) as Hne.
  destruct (spec_runs l) as [|[|y g] gs].
  - simpl in IH. now subst.
  - inversion Hne; subst. congruence.
  - destruct (String.eqb _ _); simpl in *; now rewrite IH.
Qed.

(** Every run holds one test number. *)
Lemma spec_runs_uniform (l : list test_record) :
  List.Forall (fun g => exists t, uniform t g) (spec_runs l).
Proof.
  induction l as [|x l IH]; simpl; [constructor|].
  destruct (spec_runs l) as [|[|y g] gs].
  - repeat constructor. exists (test_number x). now repeat constructor.
  - repeat constructor. exists (test_number x). now repeat constructor.
  - inversion IH as [|? ? [t Ht] Hgs]; subst.
    destruct (String.eqb_spec (test_number x) (test_number y)) as [E|E].
    + constructor; [|exact Hgs]. exists t. constructor; [|exact Ht].
      inversion Ht; subst. congruence.
    + constructor; [|now constructor; [exists t|]].
      exists (test_number x). now repeat constructor.
Qed.

(** The runs are maximal: where one run ends and the next begins, the test
    number changes. *)
Lemma spec_runs_maximal (l : list test_record) gs1 g1 g2 gs2 a b :
  spec_runs l = gs1 ++ g1 :: g2 :: gs2 ->
  last g1 = Some a -> head g2 = Some b ->
  test_number a <> test_number b.
Proof.
  revert gs1 g1 g2 gs2 a b.
  induction l as [|x l IH]; intros gs1 g1 g2 gs2 a b Hr Ha Hb; simpl in Hr.
  - now destruct gs1.
  - destruct (spec_runs l) as [|[|y g] gs] eqn:E.
    + destruct gs1 as [|? [|? ?]]; discriminate.
    + pose proof (spec_runs_nonempty l) as Hne. rewrite E in Hne.
      inversion Hne; subst. congruence.
    + destruct (String.eqb_spec (test_number x) (test_number y)) as [Exy|Exy].
      * destruct gs1 as [|h gs1]; simpl in Hr.
        -- inversion Hr; subst.
           apply (IH [] (y :: g) g2 gs2 a b); [reflexivity| |exact Hb].
           simpl in Ha. destruct g; exact Ha.
        -- inversion Hr; subst.
           apply (IH ((y :: g) :: gs1) g1 g2 gs2 a b); [|exact Ha|exact Hb].
           simpl. congruence.
      * destruct gs1 as [|h gs1]; simpl in Hr.
        -- inversion Hr; subst. simpl in Ha, Hb.
           inversion Ha; inversion Hb; subst. exact Exy.
        -- inversion Hr; subst.
           apply (IH gs1 g1 g2 gs2 a b); [assumption|exact Ha|exact Hb].
Qed.

(** *** The grouping loop against the runs *)

Lemma reorder_finish (l : list test_record) :
  reorder l = finish (fold_left group_step l ([], None, [])).
Proof. unfold reorder, finish. now destruct (fold_left _ _ _) as [[? ?] ?]. Qed.

Lemma spec_runs_app (t : string) (g l : list test_record) :
  g <> [] -> uniform t g ->
  spec_runs (g ++ l) =
    match spec_runs l with
    | (y :: h) :: gs =>
        if String.eqb t (test_number y) then (g ++ y :: h) :: gs
        else g :: (y :: h) :: gs
    | _ => [g]
    end.
Proof.
  induction g as [|x g IH]; intros Hne Hu; [congruence|].
  inversion Hu as [|? ? Hx Hg]; subst.
  destruct g as [|x' g].
  - simpl. now destruct (spec_runs l) as [|[|y h] gs].
  - cbn [app spec_runs] in *. rewrite IH by (congruence || assumption).
    inversion Hg as [|? ? Hx' _]; subst.
    destruct (spec_runs l) as [|[|y h] gs]; simpl;
      try (rewrite Hx', String.eqb_refl; reflexivity).
    destruct (String.eqb (test_number x) (test_number y)) eqn:E;
      simpl; now rewrite Hx', String.eqb_refl.
Qed.

Lemma group_loop (l : list test_record) :
  forall sorted_data t g, g <> [] -> uniform t g ->
    finish (fold_left group_step l (sorted_data, Some t, g))
    = sorted_data ++ concat (map (sort_by strain_key) (spec_runs (g ++ l))).
Proof.
  induction l as [|x l IH]; intros sd t g Hne Hu.
  - rewrite (spec_runs_app t g []) by assumption. simpl.
    destruct g; [congruence|]. now rewrite app_nil_r.
  - cbn [fold_left group_step].
    case_bool_decide as E; cbn [negb].
    + rewrite IH.
      * now rewrite <- app_assoc.
      * now destruct g.
      * apply Forall_app. split; [exact Hu|]. repeat constructor. congruence.
    + rewrite IH by (try discriminate; now repeat constructor).
      rewrite (spec_runs_app t g (x :: l)) by assumption.
      pose proof (spec_runs_nonempty (x :: l)) as Hn.
      pose proof (spec_runs_concat (x :: l)) as Hc.
      change ([x] ++ l) with (x :: l).
      destruct (spec_runs (x :: l)) as [|[|y h] gs] eqn:Er.
      * discriminate.
      * inversion Hn; congruence.
      * simpl in Hc. injection Hc as -> _.
        destruct (String.eqb_spec t (test_number x)) as [Et|Et];
          [exfalso; apply E; congruence|].
        unfold flush. destruct g; [congruence|].
        simpl. now rewrite <- app_assoc.
Qed.

Lemma reorder_refines (l : list test_record) : reorder l = spec_reorder l.
Proof.
  rewrite reorder_finish. destruct l as [|x l]; [reflexivity|].
  cbn [fold_left group_step].
  case_bool_decide; [discriminate|]. cbn [negb flush].
  rewrite group_loop by (try discriminate; now repeat constructor).
  reflexivity.
Qed.

Lemma reorder_perm (l : list test_record) : Permutation (reorder l) l.
Proof.
  rewrite reorder_refines. unfold spec_reorder.
  rewrite <- (spec_runs_concat l) at 2.
  induction (spec_runs l) as [|g gs IH]; simpl; [constructor|].
  apply Permutation_app; [apply sort_by_perm|exact IH].
Qed.

Section SortMap.
Context {A B : Type} (f : A -> B) (ka : A -> Z) (kb : B -> Z).
Hypothesis key_f : forall a, kb (f a) = ka a.

Lemma insert_by_map (x : A) (l : list A) :
  map f (insert_by ka x l) = insert_by kb (f x) (map f l).
Proof.
  induction l as [|y l IH]; [reflexivity|].
  simpl. rewrite !key_f. destruct (ka x <=? ka y); [reflexivity|].
  simpl. now rewrite IH.
Qed.

Lemma sort_by_map (l : list A) :
  map f (sort_by ka l) = sort_by kb (map f l).
Proof.
  induction l as [|x l IH]; [reflexivity|].
  simpl. now rewrite insert_by_map, IH.
Qed.
End SortMap.

(** A single run is sorted as a whole. *)
Lemma reorder_single_run (t : string) (g : list test_record) :
  uniform t g -> reorder g = sort_by strain_key g.
Proof.
  intros Hu. rewrite reorder_refines. unfold spec_reorder.
  destruct g as [|x g]; [reflexivity|].
  rewrite <- (app_nil_r (x :: g)) at 1.
  rewrite (spec_runs_app t (x :: g) []) by (congruence || assumption).
  simpl. now rewrite app_nil_r.
Qed.

Lemma sort_canonical (t p : string) (names : list string) :
  Permutation names canonical_strains ->
  sort_by identity_key (map (fun s => (t, p, s)) names)
  = map (fun s => (t, p, s)) canonical_strains.
Proof.
  intros Hp.
  assert (Hin : names ∈ permutations canonical_strains)
    by (apply permutations_Permutation; now symmetry).
  clear Hp. revert names Hin. apply Forall_forall.
  vm_compute permutations.
  repeat (apply Forall_cons; split; [vm_compute; reflexivity|]).
  apply Forall_nil. trivial.
Qed.

(** *** The row loop on strain rows *)

Lemma update_context_no_bulk (row_data : row) (ctx : context) :
  row_get row_data 0 "" = "" -> update_context row_data ctx = ctx.
Proof. intros H. unfold update_context. now rewrite H. Qed.

Lemma row_record_no_strain (cm : column_map_t) (row_data : row) (ctx : context)
  (sc : Z) :
  cm !! "strain_col" = Some sc -> row_has row_data sc = false ->
  row_record cm row_data ctx = None.
Proof. intros Hc Hr. unfold row_record. now rewrite Hc, Hr. Qed.

Lemma process_row_skip (cm : column_map_t) (st : loop_state)
  (row_data : row) (sc : Z) :
  cm !! "strain_col" = Some sc -> row_has row_data sc = false ->
  process_row cm st row_data = (update_context row_data (fst st), snd st).
Proof.
  intros Hc Hr. unfold process_row.
  now rewrite (row_record_no_strain cm _ _ sc Hc Hr).
Qed.

Lemma row_record_identity (cm : column_map_t) (row_data : row) (ctx : context)
  (sc : Z) (n : string) :
  cm !! "strain_col" = Some sc -> row_has row_data sc = true ->
  _normalize_strain_name (Py.strip (row_get row_data sc "")) = n -> n <> "" ->
  exists r, row_record cm row_data ctx = Some r
            /\ identity r = (fst ctx, snd ctx, n).
Proof.
  intros Hc Hr Hn Hne. unfold row_record. rewrite Hc, Hr. cbn [negb].
  rewrite Hn. destruct n as [|c n]; [congruence|]. cbn [Py.is_empty].
  eexists. split; reflexivity.
Qed.

Lemma normalize_canonical (n : string) :
  In n canonical_strains ->
  _normalize_strain_name (Py.strip n) = n /\ n <> "".
Proof.
  intros Hin. vm_compute in Hin.
  repeat (destruct Hin as [<-|Hin]; [split; [vm_compute; reflexivity|discriminate]|]).
  contradiction.
Qed.

Lemma process_strain_row (cm : column_map_t) (ctx : context)
  (acc : list test_record) (n : string) (cfu : Z -> string) :
  cm !! "strain_col" = Some 1 -> In n canonical_strains ->
  exists r, process_row cm (ctx, acc) (example_strain_row n cfu)
            = (ctx, acc ++ [r])
            /\ identity r = (fst ctx, snd ctx, n).
Proof.
  intros Hc Hin. destruct (normalize_canonical n Hin) as [Hn Hne].
  destruct (row_record_identity cm (example_strain_row n cfu) ctx 1 n Hc
              eq_refl Hn Hne) as (r & Hr & Hi).
  exists r. split; [|exact Hi].
  unfold process_row. cbn [fst snd].
  rewrite update_context_no_bulk by reflexivity. now rewrite Hr.
Qed.

Lemma process_strain_rows (cm : column_map_t) (ctx : context)
  (rows : list (string * (Z -> string))) :
  cm !! "strain_col" = Some 1 ->
  List.Forall (fun nc => In (fst nc) canonical_strains) rows ->
  forall acc, exists recs,
    process_rows cm (ctx, acc)
      (map (fun nc => example_strain_row (fst nc) (snd nc)) rows)
    = (ctx, acc ++ recs)
    /\ map identity recs = map (fun nc => (fst ctx, snd ctx, fst nc)) rows.
Proof.
  intros Hc. induction 1 as [|[n cfu] rows Hn _ IH]; intros acc.
  - exists []. now rewrite app_nil_r.
  - destruct (process_strain_row cm ctx acc n cfu Hc Hn) as (r & Hr & Hi).
    destruct (IH (acc ++ [r])) as (recs & Hrecs & Hids).
    exists (r :: recs). split.
    + cbn [map process_rows fold_left fst snd]. rewrite Hr.
      unfold process_rows in Hrecs. rewrite Hrecs. now rewrite <- app_assoc.
    + cbn [map]. now rewrite Hi, Hids.
Qed.

Lemma example_page_records (names : list string) (cfu : nat -> Z -> string) :
  Permutation names canonical_strains ->
  map identity (_extract_strain_data (example_page names cfu))
  = map (fun s => ("25E15I14", "GB1919-ZMB", s)) canonical_strains.
Proof.
  intros Hp.
  assert (Hall : List.Forall (fun n => In n canonical_strains) names).
  { apply List.Forall_forall. intros n Hn. now apply (Permutation_in _ Hp). }
  pose proof (Permutation_length Hp) as Hlen.
  destruct names as [|n0 [|n1 [|n2 [|n3 [|n4 [|? ?]]]]]]; try discriminate Hlen.
  clear Hlen. unfold _extract_strain_data.
  replace (_find_header_row _) with (Some 0) by (vm_compute; reflexivity).
  cbn [Z.eqb]. unfold assemble.
  set (cm := _identify_columns _ 0).
  assert (Hc : cm !! "strain_col" = Some 1) by (vm_compute; reflexivity).
  clearbody cm.
  replace (map snd (visited_rows _ (0 + 1)))
    with ([ (3, "01 15"); (4, "01 22"); (5, "01 29"); (6, "02 12") ]
          :: [ (0, "25E15I14 GB1919-ZMB") ]
          :: map (fun nc => example_strain_row (fst nc) (snd nc))
               [ (n0, cfu 0%nat); (n1, cfu 1%nat); (n2, cfu 2%nat);
                 (n3, cfu 3%nat); (n4, cfu 4%nat) ])
    by (vm_compute; reflexivity).
  unfold process_rows. cbn [fold_left].
  rewrite !(process_row_skip cm _ _ 1 Hc) by reflexivity. cbn [fst snd].
  rewrite (update_context_no_bulk [ (3, "01 15"); _; _; _ ]) by reflexivity.
  replace (update_context _ _) with ("25E15I14", "GB1919-ZMB")
    by (vm_compute; reflexivity).
  destruct (process_strain_rows cm ("25E15I14", "GB1919-ZMB")
              [ (n0, cfu 0%nat); (n1, cfu 1%nat); (n2, cfu 2%nat);
                (n3, cfu 3%nat); (n4, cfu 4%nat) ] Hc) with (acc := @nil test_record)
    as (recs & Hrecs & Hids).
  { repeat (inversion Hall as [|? ? ? Hall']; subst; clear Hall;
            rename Hall' into Hall; constructor; [assumption|]).
    constructor. }
  unfold process_rows in Hrecs. rewrite Hrecs. cbn [snd app].
  rewrite (reorder_single_run "25E15I14").
  - rewrite (sort_by_map identity strain_key identity_key) by reflexivity.
    rewrite Hids. cbn [fst snd map].
    exact (sort_canonical "25E15I14" "GB1919-ZMB" [n0; n1; n2; n3; n4] Hp).
  - apply List.Forall_forall. intros r Hr.
    apply (in_map identity) in Hr. rewrite Hids in Hr.
    apply in_map_iff in Hr as (nc & E & _). cbn [fst snd] in E.
    unfold identity in E. congruence.
Qed.

(** C4: the reordering splits the emitted records into the maximal
    consecutive runs of one test number (the runs are non-empty, uniform,
    give back the sequence when concatenated, and the test number changes
    between neighbours), sorts each run with a stable sort by the canonical
    strain order E.coli, P.aeruginosa, S.aureus, C.albicans, A.brasiliensis
    (the sort keys 0 to 4), and concatenates the runs in order; a page with the bulk name
    "25E15I14 GB1919-ZMB" followed by the five strains, one per row in any
    order and with any CFU text, gives five records with that test number
    and prescription number in canonical strain order. *)
Theorem post_pass_reordering :
  (forall test_data, reorder test_data = spec_reorder test_data)
  /\ (forall test_data,
        concat (spec_runs test_data) = test_data
        /\ List.Forall (fun g => g <> [] /\ exists t, uniform t g)
                       (spec_runs test_data))
  /\ (forall test_data gs1 g1 g2 gs2 a b,
        spec_runs test_data = gs1 ++ g1 :: g2 :: gs2 ->
        last g1 = Some a -> head g2 = Some b ->
        test_number a <> test_number b)
  /\ (forall g,
        Permutation (sort_by strain_key g) g
        /\ Sorted strain_le (sort_by strain_key g)
        /\ forall k,
             List.filter (fun r => strain_key r =? k) (sort_by strain_key g)
             = List.filter (fun r => strain_key r =? k) g)
  /\ canonical_strains
     = [ "E.coli"; "P.aeruginosa"; "S.aureus"; "C.albicans"; "A.brasiliensis" ]
  /\ map (fun s => strain_key (TestRecord "" "" s "" "" "" "" "" ""))
         canonical_strains = [ 0; 1; 2; 3; 4 ]
  /\ (forall names cfu,
        Permutation names canonical_strains ->
        map identity (_extract_strain_data (example_page names cfu))
        = map (fun s => ("25E15I14", "GB1919-ZMB", s)) canonical_strains).
Proof.
  split; [exact reorder_refines|].
  split.
  { intros l. split; [apply spec_runs_concat|].
    pose proof (spec_runs_nonempty l) as Hn.
    pose proof (spec_runs_uniform l) as Hu.
    induction Hn as [|g gs Hg Hn IH]; [constructor|].
    inversion Hu; subst. constructor; [now split|now apply IH]. }
  split; [exact spec_runs_maximal|].
  split.
  { intros g. split; [apply sort_by_perm|].
    split; [apply (sort_by_sorted strain_key)|].
    intros k. apply sort_by_stable. }
  split; [reflexivity|].
  split; [reflexivity|].
  exact example_page_records.
Qed.

Lemma post_pass_reordering_witness :
  map identity
      (_extract_strain_data
         (example_page [ "A.brasiliensis"; "C.albicans"; "S.aureus";
                         "P.aeruginosa"; "E.coli" ]
                       (fun _ _ => "5.5X105")))
  = [ ("25E15I14", "GB1919-ZMB", "E.coli");
      ("25E15I14", "GB1919-ZMB", "P.aeruginosa");
      ("25E15I14", "GB1919-ZMB", "S.aureus");
      ("25E15I14", "GB1919-ZMB", "C.albicans");
      ("25E15I14", "GB1919-ZMB", "A.brasiliensis") ].
Proof.
  pose proof post_pass_reordering as (_ & _ & _ & _ & _ & _ & H).
  apply (H [ "A.brasiliensis"; "C.albicans"; "S.aureus"; "P.aeruginosa"; "E.coli" ]
           (fun _ _ => "5.5X105")).
  symmetry.
  apply (Permutation_rev [ "E.coli"; "P.aeruginosa"; "S.aureus"; "C.albicans";
                           "A.brasiliensis" ]).
Defined.

(** ** Record Assembler: the identifier context *)

Lemma update_context_test (row_data : row) (ctx : context) :
  let bulk_name := Py.strip (row_get row_data 0 "") in
  fst (update_context row_data ctx)
  = if Py.is_empty bulk_name
       || Py.is_empty (fst (_extract_test_info_from_row bulk_name))
    then fst ctx else fst (_extract_test_info_from_row bulk_name).
Proof.
  cbv zeta. unfold update_context. cbv zeta.
  destruct (Py.is_empty (Py.strip (row_get row_data 0 ""))); [reflexivity|].
  destruct (_extract_test_info_from_row _) as [t p]. cbn [fst snd orb].
  now destruct (Py.is_empty t).
Qed.

Lemma update_context_prescription (row_data : row) (ctx : context) :
  let bulk_name := Py.strip (row_get row_data 0 "") in
  snd (update_context row_data ctx)
  = if Py.is_empty bulk_name
       || Py.is_empty (snd (_extract_test_info_from_row bulk_name))
    then snd ctx else snd (_extract_test_info_from_row bulk_name).
Proof.
  cbv zeta. unfold update_context. cbv zeta.
  destruct (Py.is_empty (Py.strip (row_get row_data 0 ""))); [reflexivity|].
  destruct (_extract_test_info_from_row _) as [t p]. cbn [fst snd orb].
  now destruct (Py.is_empty p).
Qed.

Lemma is_empty_true (s : string) : Py.is_empty s = true <-> s = "".
Proof. destruct s; simpl; split; congruence. Qed.

Lemma is_empty_false (s : string) : Py.is_empty s = false <-> s <> "".
Proof. destruct s; simpl; split; congruence. Qed.

(** A record carries the context it was built under. *)
Lemma row_record_fields (cm : column_map_t) (row_data : row) (ctx : context)
  (r : test_record) :
  row_record cm row_data ctx = Some r ->
  test_number r = fst ctx /\ prescription_number r = snd ctx.
Proof.
  unfold row_record. destruct (cm !! "strain_col") as [sc|]; [|discriminate].
  destruct (negb (row_has row_data sc)); [discriminate|].
  destruct (Py.is_empty _); [discriminate|].
  intros [= <-]. now split.
Qed.

Lemma process_rows_snoc (cm : column_map_t) (st : loop_state)
  (rows : list row) (row_data : row) :
  process_rows cm st (rows ++ [row_data])
  = process_row cm (process_rows cm st rows) row_data.
Proof. unfold process_rows. now rewrite fold_left_app. Qed.

Lemma process_row_context (cm : column_map_t) (st : loop_state) (row_data : row) :
  fst (process_row cm st row_data) = update_context row_data (fst st).
Proof. unfold process_row. now destruct (row_record _ _ _). Qed.

(** Loop invariant: a record of [test_data] was there before the loop or was
    built from one of the rows under the context that row left. *)
Lemma process_rows_records (cm : column_map_t) (st : loop_state)
  (rows : list row) (r : test_record) :
  In r (snd (process_rows cm st rows)) ->
  In r (snd st)
  \/ exists pre row_data post,
       rows = pre ++ row_data :: post
       /\ row_record cm row_data (fst (process_rows cm st (pre ++ [row_data])))
          = Some r.
Proof.
  induction rows as [|x rows IH] using rev_ind; intros Hin.
  - now left.
  - rewrite process_rows_snoc in Hin. unfold process_row in Hin.
    destruct (row_record cm x _) as [new|] eqn:E; cbn [snd] in Hin.
    + apply in_app_or in Hin as [Hin|[<-|[]]].
      * destruct (IH Hin) as [Hst|(pre & row_data & post & -> & Hr)];
          [now left|right].
        exists pre, row_data, (post ++ [x]). split; [|exact Hr].
        now rewrite <- app_assoc.
      * right. exists rows, x, []. split; [reflexivity|].
        now rewrite process_rows_snoc, process_row_context.
    + destruct (IH Hin) as [Hst|(pre & row_data & post & -> & Hr)];
        [now left|right].
      exists pre, row_data, (post ++ [x]). split; [|exact Hr].
      now rewrite <- app_assoc.
Qed.

(** C3: the identifier context is changed by nothing but the bulk-name cell
    of the row being processed: it stays as it is when that cell is empty,
    and a field of it is replaced exactly when the Identifier Extractor
    returns a non-empty value for that field on the cell; every record
    that is emitted was built from a visited row and carries, as test
    number and prescription number, the context in effect once that row's
    bulk-name cell had been looked at. *)
Theorem identifier_context_invariant (table_matrix : matrix)
  (column_map : column_map_t) (data_start_row : Z) :
  (forall st row_data,
     fst (process_row column_map st row_data) = update_context row_data (fst st))
  /\ (forall row_data ctx,
        Py.strip (row_get row_data 0 "") = "" ->
        update_context row_data ctx = ctx)
  /\ (forall row_data ctx,
        let ids := _extract_test_info_from_row (Py.strip (row_get row_data 0 "")) in
        (fst ids = "" -> fst (update_context row_data ctx) = fst ctx)
        /\ (snd ids = "" -> snd (update_context row_data ctx) = snd ctx)
        /\ (Py.strip (row_get row_data 0 "") <> "" -> fst ids <> "" ->
            fst (update_context row_data ctx) = fst ids)
        /\ (Py.strip (row_get row_data 0 "") <> "" -> snd ids <> "" ->
            snd (update_context row_data ctx) = snd ids))
  /\ (forall r,
        In r (assemble table_matrix column_map data_start_row) ->
        exists pre row_data post,
          map snd (visited_rows table_matrix data_start_row)
          = pre ++ row_data :: post
          /\ let ctx := fst (process_rows column_map (("", ""), [])
                                          (pre ++ [row_data])) in
             row_record column_map row_data ctx = Some r
             /\ test_number r = fst ctx
             /\ prescription_number r = snd ctx).
Proof.
  split; [intros; apply process_row_context|].
  split.
  { intros row_data ctx H. unfold update_context. now rewrite H. }
  split.
  { intros row_data ctx ids.
    pose proof (update_context_test row_data ctx) as Ht.
    pose proof (update_context_prescription row_data ctx) as Hp.
    cbv zeta in Ht, Hp. fold ids in Ht, Hp.
    repeat split.
    - intros E. rewrite Ht. apply is_empty_true in E. rewrite E.
      now rewrite orb_true_r.
    - intros E. rewrite Hp. apply is_empty_true in E. rewrite E.
      now rewrite orb_true_r.
    - intros Hb E. rewrite Ht. apply is_empty_false in Hb, E.
      now rewrite Hb, E.
    - intros Hb E. rewrite Hp. apply is_empty_false in Hb, E.
      now rewrite Hb, E. }
  intros r Hin. unfold assemble in Hin.
  apply (Permutation_in _ (reorder_perm _)) in Hin.
  apply process_rows_records in Hin as [[]|(pre & row_data & post & E & Hr)].
  exists pre, row_data, post. split; [exact E|].
  cbv zeta. split; [exact Hr|]. now apply row_record_fields in Hr.
Qed.

Lemma identifier_context_invariant_witness :
  update_context [ (1, "E.coli") ] ("25E15I14", "GB1919-ZMB")
  = ("25E15I14", "GB1919-ZMB")
  /\ fst (update_context [ (0, "GB1919-ZMB") ] ("25E15I14", ""))
     = fst ("25E15I14", "")
  /\ snd (update_context [ (0, "25A15I14") ] ("", "GB1919-ZMB"))
     = snd ("", "GB1919-ZMB")
  /\ fst (update_context [ (0, "25A15I14") ] ("25E15I14", "GB1919-ZMB"))
     = fst (_extract_test_info_from_row
              (Py.strip (row_get [ (0, "25A15I14") ] 0 "")))
  /\ snd (update_context [ (0, "AB1234-XY") ] ("25E15I14", "GB1919-ZMB"))
     = snd (_extract_test_info_from_row
              (Py.strip (row_get [ (0, "AB1234-XY") ] 0 "")))
  /\ exists pre row_data post,
       map snd (visited_rows dense_page 1) = pre ++ row_data :: post
       /\ test_number
            (TestRecord "25E15I14" "GB1919-ZMB" "S.aureus" "6.8×10^5" "" "" ""
                        "적합" "")
          = fst (fst (process_rows (_identify_columns dense_page 0)
                                   (("", ""), []) (pre ++ [row_data]))).
Proof.
  pose proof (identifier_context_invariant dense_page
                (_identify_columns dense_page 0) 1) as (_ & H1 & H2 & H3).
  split; [exact (H1 [ (1, "E.coli") ] ("25E15I14", "GB1919-ZMB") eq_refl)|].
  split.
  { destruct (H2 [ (0, "GB1919-ZMB") ] ("25E15I14", "")) as (H & _).
    apply H. vm_compute. reflexivity. }
  split.
  { destruct (H2 [ (0, "25A15I14") ] ("", "GB1919-ZMB")) as (_ & H & _).
    apply H. vm_compute. reflexivity. }
  split.
  { destruct (H2 [ (0, "25A15I14") ] ("25E15I14", "GB1919-ZMB"))
      as (_ & _ & H & _).
    apply H; vm_compute; discriminate. }
  split.
  { destruct (H2 [ (0, "AB1234-XY") ] ("25E15I14", "GB1919-ZMB"))
      as (_ & _ & _ & H).
    apply H; vm_compute; discriminate. }
  destruct (H3 (TestRecord "25E15I14" "GB1919-ZMB" "S.aureus" "6.8×10^5"
                           "" "" "" "적합" ""))
    as (pre & row_data & post & E & _ & Ht & _).
  - vm_compute. tauto.
  - exists pre, row_data, post. split; [exact E|exact Ht].
Defined.

Lemma range_spec (a b i : Z) : In i (range a b) <-> a <= i < b.
Proof.
  unfold range. rewrite in_map_iff. split.
  - intros (n & <- & Hn). apply in_seq in Hn. lia.
  - intros H. exists (Z.to_nat (i - a)). split; [lia|].
    apply in_seq. lia.
Qed.

Lemma rows_in_range_spec (m : matrix) (a b i : Z) (r : row) :
  In (i, r) (rows_in_range m a b) <-> a <= i < b /\ m !! i = Some r.
Proof.
  unfold rows_in_range. rewrite <- list_elem_of_In, list_elem_of_omap. split.
  - intros (j & Hj & E). apply list_elem_of_In, range_spec in Hj.
    destruct (m !! j) as [r'|] eqn:Em; [|discriminate].
    injection E as <- <-. now split.
  - intros (Hi & Em). exists i. split.
    + now apply list_elem_of_In, range_spec.
    + now rewrite Em.
Qed.

(** The rows the loop works on are exactly the rows at an index from the
    start row up to, but not including, the number of rows. *)
Lemma visited_rows_spec (m : matrix) (start i : Z) (r : row) :
  In (i, r) (visited_rows m start) <-> start <= i < len m /\ m !! i = Some r.
Proof. apply rows_in_range_spec. Qed.

(** When the row indices are 0 to [len] - 1, every row from the start row on
    is visited. *)
Lemma contiguous_rows_visited (m : matrix) (start i : Z) (r : row) :
  (forall j, is_Some (m !! j) -> 0 <= j < len m) ->
  start <= i -> m !! i = Some r -> In (i, r) (visited_rows m start).
Proof.
  intros Hdom Hi Hr. apply visited_rows_spec. split; [|exact Hr].
  destruct (Hdom i) as [_ Hlt]; [now exists r|]. lia.
Qed.

(** C6 (the code departs from the claim): the loop works on the rows at
    the indices from the start row up to, not including, the number of
    rows of the matrix.  On a matrix with the row indices 0, 1 and 3 that is
    [range(1, 3)], so row 3, a strain row above the start row, is never
    visited and its record is missing; with the same rows at 0, 1 and 2
    both records come out. *)
Theorem sparse_rows_not_visited :
  (forall (m : matrix) start i r,
     In (i, r) (visited_rows m start) <-> start <= i < len m /\ m !! i = Some r)
  /\ sparse_page !! 3 = Some [ (1, "S.aureus"); (3, "6.8X105") ]
  /\ _find_header_row sparse_page = Some 0
  /\ len sparse_page = 3
  /\ map fst (visited_rows sparse_page 1) = [1]
  /\ map strain (_extract_strain_data sparse_page) = [ "E.coli" ]
  /\ map strain (_extract_strain_data dense_page) = [ "E.coli"; "S.aureus" ].
Proof.
  split; [exact visited_rows_spec|].
  vm_compute. repeat split; reflexivity.
Qed.

(** ** Identifier Extractor *)

Lemma first_search_none_inv (patterns : list string) (text : string) :
  first_search patterns text = None <->
  List.Forall (fun pattern => re_search pattern text = None) patterns.
Proof.
  induction patterns as [|p ps IH]; simpl.
  - split; [constructor|reflexivity].
  - destruct (re_search p text) eqn:E.
    + split; [discriminate|]. intros H. inversion H; congruence.
    + rewrite IH. split; [now constructor|]. intros H. now inversion H.
Qed.

(** C7, as the code has it: [_extract_test_info_from_row] returns a pair of
    strings for every input, the test number being the empty string when no
    test-number pattern is found and the prescription number being the empty
    string when no prescription pattern is found; [extract_numbers] of the
    other backend returns a pair as well but marks a field without match
    with [None]. *)
Theorem identifier_extraction_total (text : string) :
  (exists test_number prescription_number,
     _extract_test_info_from_row text = (test_number, prescription_number))
  /\ (List.Forall (fun pattern =>
                     re_search pattern (preprocess_row_text text) = None)
                  test_patterns ->
      fst (_extract_test_info_from_row text) = "")
  /\ (List.Forall (fun pattern =>
                     re_search pattern (preprocess_row_text text) = None)
                  prescription_patterns ->
      snd (_extract_test_info_from_row text) = "")
  /\ (all_test_matches (preprocess_bulk_name text) = [] ->
      fst (extract_numbers text) = None)
  /\ (all_prescription_matches (preprocess_bulk_name text) = [] ->
      snd (extract_numbers text) = None).
Proof.
  split; [destruct (_extract_test_info_from_row text) as [t p]; now exists t, p|].
  split; [|split; [|split]].
  - intros H. apply first_search_none_inv in H.
    unfold _extract_test_info_from_row.
    destruct (Py.is_empty text); [reflexivity|]. cbn [fst]. now rewrite H.
  - intros H. apply first_search_none_inv in H.
    unfold _extract_test_info_from_row.
    destruct (Py.is_empty text); [reflexivity|]. cbn [snd]. now rewrite H.
  - intros H. unfold extract_numbers. cbn [fst]. now rewrite H.
  - intros H. unfold extract_numbers. cbn [snd]. now rewrite H.
Qed.

Lemma identifier_extraction_total_witness :
  fst (_extract_test_info_from_row "GB1919-ZMB") = ""
  /\ snd (_extract_test_info_from_row "25E15I14") = ""
  /\ fst (extract_numbers "GB1919-ZMB") = None
  /\ snd (extract_numbers "25E15I14") = None.
Proof.
  split; [|split; [|split]].
  - pose proof (identifier_extraction_total "GB1919-ZMB") as (_ & H & _).
    apply H. unfold test_patterns.
    repeat (constructor; [vm_compute; reflexivity|]). constructor.
  - pose proof (identifier_extraction_total "25E15I14") as (_ & _ & H & _).
    apply H. unfold prescription_patterns.
    repeat (constructor; [vm_compute; reflexivity|]). constructor.
  - pose proof (identifier_extraction_total "GB1919-ZMB") as (_ & _ & _ & H & _).
    apply H. vm_compute. reflexivity.
  - pose proof (identifier_extraction_total "25E15I14") as (_ & _ & _ & _ & H).
    apply H. vm_compute. reflexivity.
Defined.

(** C7, as stated, fails for [extract_numbers]: on a text without any
    identifier both components are [None], not the empty string. *)
Lemma extract_numbers_returns_none :
  extract_numbers "Escherichia coli" = (None, None)
  /\ extract_numbers "" = (None, None)
  /\ _extract_test_info_from_row "Escherichia coli" = ("", "").
Proof. vm_compute. repeat split; reflexivity. Qed.

(** ** Date-Block Extractor *)

(** Proves [Forall P l] for a closed list [l]: the list is evaluated first,
    then [P] at each element; [P] is never evaluated on a variable. *)
Ltac forall_closed :=
  match goal with
  | |- List.Forall ?P ?l =>
      let l' := eval vm_compute in l in
      replace l with l' by (vm_compute; reflexivity);
      repeat (apply List.Forall_cons; [vm_compute; try reflexivity; try lia|]);
      apply List.Forall_nil
  end.

Section FirstSome.
Context {A B : Type} (f : A -> option B).

Lemma first_some_none (l : list A) :
  List.Forall (fun x => f x = None) l -> first_some f l = None.
Proof. induction 1 as [|x l Hx _ IH]; simpl; [|rewrite Hx]; easy. Qed.

Lemma first_some_skip (pre post : list A) (x : A) (y : B) :
  List.Forall (fun x => f x = None) pre -> f x = Some y ->
  first_some f (pre ++ x :: post) = Some y.
Proof.
  induction 1 as [|z pre Hz _ IH]; intros Hx; simpl.
  - now rewrite Hx.
  - rewrite Hz. now apply IH.
Qed.

Lemma first_some_app (l1 l2 : list A) :
  first_some f (l1 ++ l2)
  = match first_some f l1 with Some y => Some y | None => first_some f l2 end.
Proof.
  induction l1 as [|x l1 IH]; simpl; [reflexivity|].
  now destruct (f x).
Qed.
End FirstSome.

(** The two nested loops of the second pass look at the cells in the order
    of their concatenation. *)
Lemma first_some_rows {B : Type} (g : Z * string -> option B)
  (rows : list (Z * row)) :
  first_some (fun r => first_some g (snd r)) rows
  = first_some g (concat (map snd rows)).
Proof.
  induction rows as [|r rows IH]; simpl; [reflexivity|].
  now rewrite first_some_app, IH.
Qed.

Lemma four_dates_none (row_data : row) :
  (length (row_dates row_data) < 4)%nat -> four_dates row_data = None.
Proof.
  unfold four_dates.
  destruct (row_dates row_data) as [|? [|? [|? [|? ?]]]]; simpl; (reflexivity || lia).
Qed.

(** C8, as the code has it: when no leading row yields four or more
    date-like cells, the first cell, in the order the leading rows and
    their cells are scanned, that is date-like and names a day of the
    reference year 2024 gives day 0, and day 7, 14 and 28 are that day plus
    7, 14 and 28 days, all as "MM/DD"; date-like cells that [datetime]
    refuses are passed over.  A lone cell "03/01" gives "03/01", "03/08",
    "03/15", "03/29". *)
Theorem single_date_block (table_matrix : matrix)
  (before after : list (Z * string)) (cell : Z * string)
  (g : string * string) (start_date : date) :
  List.Forall (fun r => (length (row_dates (snd r)) < 4)%nat)
              (leading_rows table_matrix) ->
  scanned_cells table_matrix = before ++ cell :: after ->
  List.Forall (fun c => derived_dates (snd c) = None) before ->
  date_like (snd cell) = Some g ->
  datetime 2024 (int_of_digits (fst g)) (int_of_digits (snd g)) = Some start_date ->
  _extract_date_info table_matrix
  = [ ("date_0", strftime_md start_date);
      ("date_7", strftime_md (add_days start_date 7));
      ("date_14", strftime_md (add_days start_date 14));
      ("date_28", strftime_md (add_days start_date 28)) ]
  /\ _extract_date_info {[ 0 := [ (0, "03/01") ] ]}
     = [ ("date_0", "03/01"); ("date_7", "03/08");
         ("date_14", "03/15"); ("date_28", "03/29") ].
Proof.
  intros Hrows Hcells Hbefore Hlike Hdate.
  split; [|vm_compute; reflexivity].
  unfold _extract_date_info.
  rewrite first_some_none.
  2:{ eapply List.Forall_impl; [|exact Hrows].
      intros r Hr. now apply four_dates_none. }
  rewrite (first_some_rows (fun c => derived_dates (snd c))).
  fold (scanned_cells table_matrix). rewrite Hcells.
  rewrite (first_some_skip _ before after cell (derived_block start_date));
    [reflexivity|exact Hbefore|].
  unfold derived_dates. rewrite Hlike. destruct g as [g1 g2].
  cbn [fst snd] in Hdate. now rewrite Hdate.
Qed.

Lemma single_date_block_witness :
  _extract_date_info {[ 0 := [ (0, "02/30"); (1, "3.1") ] ]}
  = [ ("date_0", strftime_md (Date 2024 3 1));
      ("date_7", strftime_md (add_days (Date 2024 3 1) 7));
      ("date_14", strftime_md (add_days (Date 2024 3 1) 14));
      ("date_28", strftime_md (add_days (Date 2024 3 1) 28)) ].
Proof.
  apply (single_date_block {[ 0 := [ (0, "02/30"); (1, "3.1") ] ]}
           [ (0, "02/30") ] [] (1, "3.1") ("3", "1") (Date 2024 3 1)).
  - forall_closed.
  - vm_compute. reflexivity.
  - forall_closed.
  - vm_compute. reflexivity.
  - vm_compute. reflexivity.
Defined.

(** C8, as stated, fails: a lone cell "02/30" is date-like (a row of four
    such cells is taken as the four dates), yet the second pass refuses it
    and the block comes back empty. *)
Lemma date_like_cell_refused :
  List.Forall (fun r => (length (row_dates (snd r)) < 4)%nat)
              (leading_rows {[ 0 := [ (0, "02/30") ] ]})
  /\ scanned_cells {[ 0 := [ (0, "02/30") ] ]} = [ (0, "02/30") ]
  /\ date_like "02/30" = Some ("02", "30")
  /\ _extract_date_info {[ 0 := [ (0, "02/30") ] ]} = []
  /\ _extract_date_info
       {[ 0 := [ (0, "02/30"); (1, "02/30"); (2, "02/30"); (3, "02/30") ] ]}
     = [ ("date_0", "02/30"); ("date_7", "02/30");
         ("date_14", "02/30"); ("date_28", "02/30") ].
Proof. split; [forall_closed|]. vm_compute. repeat split; reflexivity. Qed.

(** ** Table Structure Resolver *)

(** C9, as the code has it: when none of the rows searched for a structural
    keyword has one, the first row, by index, among the first fifteen that
    holds a strain keyword decides: if one of its cells is shaped like a CFU
    value, in scientific notation or as a number of four or more digits,
    the resolver signals "no header" (-1); otherwise that row is the header.
    A matrix whose row 0 is a data row with a value in scientific notation
    gives "no header". *)
Theorem first_candidate_decides (table_matrix : matrix) (row_idx : Z)
  (row_data : row) (rest : list (Z * row)) :
  List.Forall (fun r => has_keyword header_keywords (snd r) = false)
              (keyword_rows table_matrix) ->
  candidate_rows table_matrix = (row_idx, row_data) :: rest ->
  (has_cfu_pattern row_data = true -> _find_header_row table_matrix = Some (-1))
  /\ (has_cfu_pattern row_data = false ->
      _find_header_row table_matrix = Some row_idx)
  /\ _find_header_row {[ 0 := [ (0, "E.coli"); (1, "5.5×10^5") ] ]} = Some (-1).
Proof.
  intros Hkw Hcand.
  assert (E : _find_header_row table_matrix
              = if has_cfu_pattern row_data then Some (-1) else Some row_idx).
  { unfold _find_header_row. fold (keyword_rows table_matrix).
    rewrite first_some_none; [now rewrite Hcand|].
    eapply List.Forall_impl; [|exact Hkw].
    intros r Hr. cbv beta in Hr. now rewrite Hr. }
  rewrite E.
  split; [now intros ->|].
  split; [now intros ->|].
  vm_compute. reflexivity.
Qed.

Lemma first_candidate_decides_witness :
  _find_header_row
    {[ 0 := [ (0, "Test report") ];
       1 := [ (0, "S.aureus"); (1, "12000") ];
       2 := [ (0, "E.coli"); (1, "<10") ] ]} = Some (-1)
  /\ _find_header_row
       {[ 0 := [ (0, "Strain"); (1, "0 day") ];
          1 := [ (0, "E.coli"); (1, "5.5×10^5") ] ]} = Some 0.
Proof.
  split.
  - pose proof (first_candidate_decides
                  {[ 0 := [ (0, "Test report") ];
                     1 := [ (0, "S.aureus"); (1, "12000") ];
                     2 := [ (0, "E.coli"); (1, "<10") ] ]}
                  1 [ (0, "S.aureus"); (1, "12000") ]
                  [ (2, [ (0, "E.coli"); (1, "<10") ]) ]) as H.
    destruct H as (H & _); [forall_closed | vm_compute; reflexivity |].
    apply H. vm_compute. reflexivity.
  - pose proof (first_candidate_decides
                  {[ 0 := [ (0, "Strain"); (1, "0 day") ];
                     1 := [ (0, "E.coli"); (1, "5.5×10^5") ] ]}
                  0 [ (0, "Strain"); (1, "0 day") ]
                  [ (1, [ (0, "E.coli"); (1, "5.5×10^5") ]) ]) as H.
    destruct H as (_ & H & _); [forall_closed | vm_compute; reflexivity |].
    apply H. vm_compute. reflexivity.
Defined.

(** C9, as stated, fails: row 1 below is among the first fifteen, holds a
    strain keyword and a value in scientific notation, yet the resolver
    reports row 0 as the header; and a row with a structural keyword is the
    header whatever its other cells hold. *)
Lemma later_candidate_ignored :
  let page : matrix :=
    {[ 0 := [ (0, "Strain"); (1, "0 day") ];
       1 := [ (0, "E.coli"); (1, "5.5×10^5") ] ]} in
  map fst (candidate_rows page) = [ 0; 1 ]
  /\ has_cfu_pattern [ (0, "E.coli"); (1, "5.5×10^5") ] = true
  /\ _find_header_row page = Some 0
  /\ _find_header_row
       {[ 0 := [ (0, "Challenged Organism: E.coli"); (1, "5.5×10^5") ] ]}
     = Some 0.
Proof. vm_compute. repeat split; reflexivity. Qed.

(** ** Strings *)

Lemma append_cons (c : ascii) (s t : string) :
  String c s +:+ t = String c (s +:+ t).
Proof. reflexivity. Qed.

Lemma append_nil_r (s : string) : s +:+ "" = s.
Proof.
  induction s as [|c s IH]; [reflexivity | now rewrite append_cons, IH].
Qed.

Lemma append_assoc (a b c : string) : (a +:+ b) +:+ c = a +:+ (b +:+ c).
Proof.
  induction a as [|x a IH]; [reflexivity | now rewrite !append_cons, IH].
Qed.

Lemma length_append (a b : string) :
  String.length (a +:+ b) = (String.length a + String.length b)%nat.
Proof.
  induction a as [|x a IH]; [reflexivity | rewrite append_cons; simpl; now rewrite IH].
Qed.

Lemma rev_acc_spec (s acc : string) : Py.rev_acc s acc = Py.rev s +:+ acc.
Proof.
  unfold Py.rev. revert acc.
  induction s as [|c s IH]; intros acc; simpl; [reflexivity|].
  rewrite (IH (String c acc)), (IH (String c "")), append_assoc. reflexivity.
Qed.

Lemma rev_append (a b : string) : Py.rev (a +:+ b) = Py.rev b +:+ Py.rev a.
Proof.
  induction a as [|x a IH]; simpl.
  - now rewrite append_nil_r.
  - unfold Py.rev in *. simpl.
    rewrite (rev_acc_spec (a +:+ b)), (rev_acc_spec a).
    unfold Py.rev in *. rewrite IH, append_assoc. reflexivity.
Qed.

Lemma rev_involutive (s : string) : Py.rev (Py.rev s) = s.
Proof.
  induction s as [|c s IH]; [reflexivity|].
  unfold Py.rev at 2. simpl. rewrite rev_acc_spec, rev_append, IH. reflexivity.
Qed.

Lemma length_rev (s : string) : String.length (Py.rev s) = String.length s.
Proof.
  induction s as [|c s IH]; [reflexivity|].
  unfold Py.rev. simpl. rewrite rev_acc_spec, length_append, IH. simpl. lia.
Qed.

Lemma drop_prefix_spec (p s r : string) :
  Py.drop_prefix p s = Some r <-> s = p +:+ r.
Proof.
  revert s. induction p as [|a p IH]; intros s; simpl.
  - split; [now intros [= ->] | now intros ->].
  - destruct s as [|b s]; [split; discriminate|].
    destruct (Ascii.eqb_spec a b) as [->|Hne].
    + rewrite IH. split; [now intros -> | now intros [= ->]].
    + split; [discriminate | intros [= ? ?]; congruence].
Qed.

Lemma drop_any_spec (toks : list string) (s r : string) :
  Py.drop_any toks s = Some r -> exists t, In t toks /\ s = t +:+ r.
Proof.
  induction toks as [|t toks IH]; simpl; [discriminate|].
  destruct (Py.drop_prefix t s) as [r'|] eqn:E.
  - intros [= ->]. apply drop_prefix_spec in E. eauto.
  - intros H. destruct (IH H) as (t' & Hin & ->). eauto.
Qed.

Lemma drop_any_none (toks : list string) (s : string) :
  Py.drop_any toks s = None <->
  List.Forall (fun t => Py.drop_prefix t s = None) toks.
Proof.
  induction toks as [|t toks IH]; simpl.
  - split; [constructor | reflexivity].
  - destruct (Py.drop_prefix t s) eqn:E.
    + split; [discriminate | intros H; inversion H; congruence].
    + rewrite IH. split; [now constructor | intros H; now inversion H].
Qed.

(** No token starts a prefix of a text that no token starts. *)
Lemma drop_any_none_prefix (toks : list string) (a b : string) :
  Py.drop_any toks (a +:+ b) = None -> Py.drop_any toks a = None.
Proof.
  rewrite !drop_any_none. apply List.Forall_impl. intros t Ht.
  destruct (Py.drop_prefix t a) as [r|] eqn:E; [|reflexivity].
  apply drop_prefix_spec in E. subst a.
  rewrite append_assoc in Ht.
  assert (Py.drop_prefix t (t +:+ r +:+ b) = Some (r +:+ b)) as H
    by now apply drop_prefix_spec.
  congruence.
Qed.

Lemma lstrip_fuel_fixed (fuel : nat) (toks : list string) (s : string) :
  Py.drop_any toks s = None -> Py.lstrip_fuel fuel toks s = s.
Proof. destruct fuel; simpl; [reflexivity | now intros ->]. Qed.

(** With fuel for every byte, stripping ends at a text no token starts, and
    has only removed a prefix. *)
Lemma lstrip_fuel_spec (toks : list string) :
  List.Forall (fun t => t <> "") toks ->
  forall fuel s, (String.length s <= fuel)%nat ->
    Py.drop_any toks (Py.lstrip_fuel fuel toks s) = None
    /\ exists p, s = p +:+ Py.lstrip_fuel fuel toks s.
Proof.
  intros Htoks. induction fuel as [|fuel IH]; intros s Hlen.
  - destruct s; [|simpl in Hlen; lia]. simpl. split.
    + apply drop_any_none. eapply List.Forall_impl; [|exact Htoks].
      intros [|a t] Ht; [congruence | reflexivity].
    + now exists "".
  - simpl. destruct (Py.drop_any toks s) as [r|] eqn:E.
    + destruct (drop_any_spec _ _ _ E) as (t & Hin & ->).
      assert (t <> "") as Ht by (rewrite List.Forall_forall in Htoks; auto).
      assert (String.length r <= fuel)%nat as Hr.
      { rewrite length_append in Hlen. destruct t; [congruence|]. simpl in Hlen. lia. }
      destruct (IH r Hr) as (Hnone & p & Hp). split; [exact Hnone|].
      exists (t +:+ p). rewrite append_assoc, <- Hp. reflexivity.
    + split; [exact E | now exists ""].
Qed.

Lemma whitespace_nonempty : List.Forall (fun t => t <> "") Py.whitespace.
Proof. unfold Py.whitespace. cbn. repeat constructor; discriminate. Qed.

Lemma rev_whitespace_nonempty :
  List.Forall (fun t => t <> "") (map Py.rev Py.whitespace).
Proof. unfold Py.whitespace. cbn. repeat constructor; discriminate. Qed.

Lemma lstrip_spec (s : string) :
  Py.drop_any Py.whitespace (Py.lstrip s) = None
  /\ exists p, s = p +:+ Py.lstrip s.
Proof. apply (lstrip_fuel_spec _ whitespace_nonempty). lia. Qed.

(** [rstrip] removes a suffix and leaves a text that no token ends. *)
Lemma rstrip_spec (s : string) :
  Py.drop_any (map Py.rev Py.whitespace) (Py.rev (Py.rstrip s)) = None
  /\ exists q, s = Py.rstrip s +:+ q.
Proof.
  unfold Py.rstrip. rewrite rev_involutive.
  destruct (lstrip_fuel_spec _ rev_whitespace_nonempty
              (String.length s) (Py.rev s)) as (Hnone & p & Hp).
  { rewrite length_rev. lia. }
  split; [exact Hnone|]. exists (Py.rev p).
  rewrite <- rev_append, <- Hp, rev_involutive. reflexivity.
Qed.

Lemma strip_idempotent (s : string) : Py.strip (Py.strip s) = Py.strip s.
Proof.
  unfold Py.strip at 1.
  destruct (lstrip_spec s) as (Hl & _).
  destruct (rstrip_spec (Py.lstrip s)) as (Hr & q & Hq).
  fold (Py.strip s) in Hr, Hq. rewrite Hq in Hl.
  apply drop_any_none_prefix in Hl.
  assert (Py.lstrip (Py.strip s) = Py.strip s) as ->
    by (unfold Py.lstrip; now apply lstrip_fuel_fixed).
  unfold Py.rstrip. rewrite lstrip_fuel_fixed by exact Hr.
  apply rev_involutive.
Qed.

Lemma strip_empty : Py.strip "" = "".
Proof. reflexivity. Qed.

(** Case mapping, byte by byte. *)
Lemma upper_char_idempotent (a : ascii) :
  Py.upper_char (Py.upper_char a) = Py.upper_char a.
Proof. destruct a as [[] [] [] [] [] [] [] []]; reflexivity. Qed.

Lemma upper_lower_char (a : ascii) :
  Py.upper_char (Py.lower_char a) = Py.upper_char a.
Proof. destruct a as [[] [] [] [] [] [] [] []]; reflexivity. Qed.

Lemma lower_upper_char (a : ascii) :
  Py.lower_char (Py.upper_char a) = Py.lower_char a.
Proof. destruct a as [[] [] [] [] [] [] [] []]; reflexivity. Qed.

Lemma map_str_compose (f g : ascii -> ascii) (s : string) :
  Py.map_str f (Py.map_str g s) = Py.map_str (fun a => f (g a)) s.
Proof. induction s as [|c s IH]; simpl; [reflexivity | now rewrite IH]. Qed.

Lemma map_str_ext (f g : ascii -> ascii) (s : string) :
  (forall a, f a = g a) -> Py.map_str f s = Py.map_str g s.
Proof. intros H. induction s as [|c s IH]; simpl; [reflexivity | now rewrite H, IH]. Qed.

Lemma upper_idempotent (s : string) : Py.upper (Py.upper s) = Py.upper s.
Proof.
  unfold Py.upper. rewrite map_str_compose.
  apply map_str_ext, upper_char_idempotent.
Qed.

Lemma upper_lower (s : string) : Py.upper (Py.lower s) = Py.upper s.
Proof.
  unfold Py.upper, Py.lower. rewrite map_str_compose.
  apply map_str_ext, upper_lower_char.
Qed.

Lemma lower_upper (s : string) : Py.lower (Py.upper s) = Py.lower s.
Proof.
  unfold Py.upper, Py.lower. rewrite map_str_compose.
  apply map_str_ext, lower_upper_char.
Qed.

Lemma is_empty_map_str (f : ascii -> ascii) (s : string) :
  Py.is_empty (Py.map_str f s) = Py.is_empty s.
Proof. now destruct s. Qed.

(** ** Value Normalizer: the detection-limit stage *)

Lemma fix_less_than_10_range (value : string) :
  In (_fix_less_than_10 value) [ ""; "<10"; "<10^2"; "<10^3"; Py.strip value ].
Proof.
  unfold _fix_less_than_10.
  destruct value as [|a value]; [simpl; tauto|].
  cbn [Py.is_empty]. cbv zeta.
  generalize (Py.strip (String a value)) as w. intros w.
  repeat match goal with
         | |- In (if ?b then _ else _) _ => destruct b; [simpl; tauto|]
         end.
  simpl. tauto.
Qed.

Lemma fix_less_than_10_strip (v w : string) :
  v <> "" -> w <> "" -> Py.strip v = Py.strip w ->
  _fix_less_than_10 v = _fix_less_than_10 w.
Proof.
  intros Hv Hw H. unfold _fix_less_than_10.
  destruct v; [congruence|]. destruct w; [congruence|].
  cbn [Py.is_empty]. cbv zeta. rewrite H. reflexivity.
Qed.

Lemma fix_less_than_10_constants :
  List.Forall (fun c => _fix_less_than_10 c = c) [ ""; "<10"; "<10^2"; "<10^3" ].
Proof. repeat constructor. Qed.

(** X5: the detection-limit stage yields one of four fixed texts or the
    stripped input, and applying it twice changes nothing more. *)
Theorem fix_less_than_10_idempotent (value : string) :
  In (_fix_less_than_10 value) [ ""; "<10"; "<10^2"; "<10^3"; Py.strip value ]
  /\ _fix_less_than_10 (_fix_less_than_10 value) = _fix_less_than_10 value.
Proof.
  split; [apply fix_less_than_10_range|].
  pose proof fix_less_than_10_constants as Hc.
  rewrite List.Forall_forall in Hc.
  destruct (fix_less_than_10_range value) as [H|[H|[H|[H|[H|[]]]]]];
    try (rewrite <- H; apply Hc; simpl; tauto).
  destruct (String.eqb_spec value "") as [->|Hv]; [reflexivity|].
  destruct (String.eqb_spec (Py.strip value) "") as [He|Hw].
  - rewrite <- H, He. reflexivity.
  - rewrite <- H at 1.
    apply fix_less_than_10_strip; [exact Hw | exact Hv | apply strip_idempotent].
Qed.

(** ** Value Normalizer: the day columns *)

Lemma fix_7day_cases (value original : string) :
  _fix_7day_ambiguous value original = value
  \/ value = "<10" /\ _fix_7day_ambiguous value original = "<10^2".
Proof.
  unfold _fix_7day_ambiguous.
  destruct (Py.contains "^" value); [now left|].
  destruct (String.eqb_spec value "<10") as [->|Hne]; [|now left].
  cbn [negb]. cbv zeta.
  repeat match goal with
         | |- context [if ?b then _ else _] => destruct b
         end; auto.
Qed.

(** X4: the columns other than day 0 and day 7 are normalized alike, and the
    day-7 result differs from theirs only where it turns "<10" into
    "<10^2". *)
Theorem day_columns_agree (value strain : string) :
  _clean_cfu_value value strain "28일" = _clean_cfu_value value strain "14일"
  /\ (_clean_cfu_value value strain "7일" = _clean_cfu_value value strain "14일"
      \/ _clean_cfu_value value strain "14일" = "<10"
         /\ _clean_cfu_value value strain "7일" = "<10^2").
Proof.
  destruct (String.eqb_spec value "") as [->|Hv].
  { split; auto. }
  rewrite (clean_other_day strain value "28일") by (auto; discriminate).
  rewrite (clean_other_day strain value "14일") by (auto; discriminate).
  rewrite clean_day7 by exact Hv.
  split; [reflexivity | apply fix_7day_cases].
Qed.

(** ** Records *)

Lemma normalize_strain_range (strain : string) :
  _normalize_strain_name strain = ""
  \/ In (_normalize_strain_name strain) canonical_strains.
Proof.
  unfold _normalize_strain_name.
  destruct (find _ strain_mapping) as [[full short]|] eqn:E; [|now left].
  right. apply find_some in E as [Hin _].
  unfold strain_mapping in Hin. cbn [In] in Hin.
  repeat (destruct Hin as [[= <- <-]|Hin]; [vm_compute; tauto|]).
  destruct Hin.
Qed.

Lemma extract_judgment_range (value : string) :
  In (_extract_judgment value) [ "적합"; "부적합" ].
Proof.
  unfold _extract_judgment.
  destruct (Py.is_empty value); [simpl; tauto|].
  cbv zeta. destruct (existsb _ _); simpl; tauto.
Qed.

Lemma row_record_well_formed (cm : column_map_t) (row_data : row)
  (ctx : context) (r : test_record) :
  row_record cm row_data ctx = Some r ->
  In (strain r) canonical_strains
  /\ In (judgment r) [ "적합"; "부적합" ]
  /\ In (final_judgment r) [ ""; "적합"; "부적합" ].
Proof.
  unfold row_record.
  destruct (cm !! "strain_col") as [sc|]; [|discriminate].
  destruct (negb (row_has row_data sc)); [discriminate|].
  cbv zeta.
  destruct (normalize_strain_range (Py.strip (row_get row_data sc ""))) as [E|Hin].
  { rewrite E. discriminate. }
  destruct (Py.is_empty _); [discriminate|].
  intros [= <-]. cbn [strain judgment final_judgment].
  split; [exact Hin|]. split; [apply extract_judgment_range|].
  destruct (_ =? -1); [simpl; tauto|].
  destruct (Py.is_empty _); [simpl; tauto|].
  right. apply extract_judgment_range.
Qed.

Lemma assemble_records (m : matrix) (cm : column_map_t) (start : Z)
  (r : test_record) :
  In r (assemble m cm start) ->
  exists row_data ctx, row_record cm row_data ctx = Some r.
Proof.
  unfold assemble. intros Hin.
  apply (Permutation_in _ (reorder_perm _)) in Hin.
  apply process_rows_records in Hin as [[]|(pre & row_data & post & _ & H)].
  eauto.
Qed.

Lemma extract_strain_data_records (m : matrix) (r : test_record) :
  In r (_extract_strain_data m) ->
  exists cm row_data ctx, row_record cm row_data ctx = Some r.
Proof.
  unfold _extract_strain_data.
  destruct (_find_header_row m) as [h|]; [|intros []].
  destruct (h =? -1); intros Hin; apply assemble_records in Hin as (? & ? & ?);
    eauto.
Qed.

(** X1: every record of the output names one of the five strains and carries
    a judgment that is one of the two verdicts; its final judgment is a
    verdict or empty. *)
Theorem records_well_formed (table_matrix : matrix) (r : test_record) :
  In r (_extract_strain_data table_matrix) ->
  In (strain r)
     [ "E.coli"; "P.aeruginosa"; "S.aureus"; "C.albicans"; "A.brasiliensis" ]
  /\ In (judgment r) [ "적합"; "부적합" ]
  /\ In (final_judgment r) [ ""; "적합"; "부적합" ].
Proof.
  intros Hin. apply extract_strain_data_records in Hin as (cm & row_data & ctx & H).
  exact (row_record_well_formed _ _ _ _ H).
Qed.

Lemma records_well_formed_witness :
  let r := TestRecord "25E15I14" "GB1919-ZMB" "S.aureus" "6.8×10^5" "" "" ""
                      "적합" "" in
  In (strain r)
     [ "E.coli"; "P.aeruginosa"; "S.aureus"; "C.albicans"; "A.brasiliensis" ]
  /\ In (judgment r) [ "적합"; "부적합" ]
  /\ In (final_judgment r) [ ""; "적합"; "부적합" ].
Proof.
  intros r. apply (records_well_formed dense_page r).
  vm_compute. tauto.
Defined.

(** ** Loops that return on the first hit *)

Lemma first_some_inv {A B : Type} (f : A -> option B) (l : list A) (y : B) :
  first_some f l = Some y ->
  exists pre x post,
    l = pre ++ x :: post /\ List.Forall (fun x => f x = None) pre /\ f x = Some y.
Proof.
  induction l as [|x l IH]; simpl; [discriminate|].
  destruct (f x) as [y'|] eqn:E.
  - intros [= ->]. exists [], x, l. repeat split; [constructor | exact E].
  - intros H. destruct (IH H) as (pre & x' & post & -> & Hpre & Hx).
    exists (x :: pre), x', post. repeat split; [now constructor | exact Hx].
Qed.

Lemma first_some_all_none {A B : Type} (f : A -> option B) (l : list A) :
  first_some f l = None -> List.Forall (fun x => f x = None) l.
Proof.
  induction l as [|x l IH]; simpl; [constructor|].
  destruct (f x) eqn:E; [discriminate|]. intros H. constructor; auto.
Qed.

(** ** Table Structure Resolver *)

Lemma find_header_row_cases (m : matrix) (i : Z) :
  _find_header_row m = Some i ->
  (exists row_data,
     In (i, row_data) (rows_in_range m 0 (Z.min 5 (len m)))
     /\ has_keyword header_keywords row_data = true)
  \/ (exists row_idx row_data rest,
        candidate_rows m = (row_idx, row_data) :: rest
        /\ i = (if has_cfu_pattern row_data then -1 else row_idx)).
Proof.
  unfold _find_header_row.
  destruct (first_some _ _) as [j|] eqn:E.
  - intros [= ->]. left.
    apply first_some_inv in E as (pre & [j row_data] & post & Hl & _ & Hx).
    cbn [fst snd] in Hx.
    destruct (has_keyword header_keywords row_data) eqn:Hk; [|discriminate].
    injection Hx as ->. exists row_data. split; [|exact Hk].
    rewrite Hl. apply in_elt.
  - destruct (candidate_rows m) as [|[row_idx row_data] rest] eqn:Ec;
      [discriminate|].
    intros H. right. exists row_idx, row_data, rest. split; [reflexivity|].
    destruct (has_cfu_pattern row_data); congruence.
Qed.

(** X6: a header row that [_find_header_row] reports is a row of the matrix
    among the first fifteen, never a missing index, and it holds a
    structural keyword (then it is among the first five) or a strain keyword
    without CFU-shaped content. *)
Theorem header_row_exists (table_matrix : matrix) (i : Z) :
  _find_header_row table_matrix = Some i -> i <> -1 ->
  0 <= i < Z.min 15 (len table_matrix)
  /\ exists row_data,
       table_matrix !! i = Some row_data
       /\ (has_keyword header_keywords row_data = true /\ i < 5
           \/ has_keyword strain_keywords row_data = true
              /\ has_cfu_pattern row_data = false).
Proof.
  intros H Hne.
  destruct (find_header_row_cases _ _ H)
    as [(row_data & Hin & Hk)|(row_idx & row_data & rest & Hc & Hi)].
  - apply rows_in_range_spec in Hin as [Hr Hm].
    split; [lia|]. exists row_data. split; [exact Hm|]. left. split; [exact Hk|lia].
  - assert (In (row_idx, row_data) (candidate_rows table_matrix)) as Hin
      by (rewrite Hc; now left).
    unfold candidate_rows in Hin.
    apply list_elem_of_In, list_elem_of_filter in Hin as [Hk Hin].
    cbn [snd] in Hk. apply Is_true_true in Hk.
    apply list_elem_of_In, rows_in_range_spec in Hin as [Hr Hm].
    destruct (has_cfu_pattern row_data) eqn:Hcfu; [congruence|]. subst i.
    split; [lia|]. exists row_data. split; [exact Hm|]. right. now split.
Qed.

Lemma header_row_exists_witness :
  0 <= 0 < Z.min 15 (len dense_page)
  /\ exists row_data,
       dense_page !! 0 = Some row_data
       /\ (has_keyword header_keywords row_data = true /\ 0 < 5
           \/ has_keyword strain_keywords row_data = true
              /\ has_cfu_pattern row_data = false).
Proof.
  apply (header_row_exists dense_page 0); [vm_compute; reflexivity | lia].
Defined.

(** ** Column mapping *)

Lemma identify_cell_strain (cm : column_map_t) (col_idx : Z) (value : string) :
  identify_cell cm (col_idx, value) !! "strain_col"
  = if is_strain_header value then Some col_idx else cm !! "strain_col".
Proof.
  unfold identify_cell, is_strain_header. cbv zeta.
  repeat match goal with
         | |- context [if ?b then _ else _] => destruct b
         end;
    rewrite ?(lookup_insert_ne (M := gmap string)) by discriminate;
    rewrite ?(lookup_insert_eq (M := gmap string)); reflexivity.
Qed.

Lemma identify_cells_strain (cells : list (Z * string)) (cm : column_map_t) :
  fold_left identify_cell cells cm !! "strain_col"
  = match last (map fst (filter (fun cell => is_strain_header (snd cell)) cells)) with
    | Some col_idx => Some col_idx
    | None => cm !! "strain_col"
    end.
Proof.
  revert cm. induction cells as [|[col_idx value] cells IH]; intros cm;
    [reflexivity|].
  cbn [fold_left]. rewrite IH, identify_cell_strain.
  rewrite filter_cons. cbn [snd].
  destruct (is_strain_header value) eqn:E.
  - rewrite decide_True by exact I.
    cbn [map fst]. rewrite last_cons.
    now destruct (last _).
  - rewrite decide_False by (intros []). reflexivity.
Qed.

Lemma set_default_lookup (role role' : string) (col : Z) (cm : column_map_t) :
  is_Some (set_default role col cm !! role')
  <-> role = role' \/ is_Some (cm !! role').
Proof.
  unfold set_default, has_role.
  destruct (cm !! role) as [c|] eqn:E.
  - split; [now right|]. intros [<-|H]; [now rewrite E | exact H].
  - destruct (decide (role = role')) as [<-|Hne].
    + rewrite lookup_insert_eq. split; [now left | eauto].
    + rewrite lookup_insert_ne by exact Hne. split; [now right|].
      intros [?|?]; [congruence | assumption].
Qed.

Lemma set_default_other (role role' : string) (col : Z) (cm : column_map_t) :
  role <> role' -> set_default role col cm !! role' = cm !! role'.
Proof.
  intros Hne. unfold set_default.
  destruct (has_role cm role); [reflexivity|].
  now rewrite lookup_insert_ne.
Qed.

Lemma identify_columns_strain (table_matrix : matrix) (header_row : Z) :
  _identify_columns table_matrix header_row !! "strain_col"
  = match table_matrix !! header_row with
    | Some header_data =>
        last (map fst (filter (fun cell => is_strain_header (snd cell))
                              header_data))
    | None => None
    end.
Proof.
  unfold _identify_columns.
  destruct (table_matrix !! header_row) as [header_data|]; [|apply lookup_empty].
  pose proof (identify_cells_strain header_data ∅) as Hs.
  rewrite lookup_empty in Hs.
  destruct (fold_left identify_cell header_data ∅ !! "strain_col")
    as [strain_col|] eqn:E.
  - destruct (if _ =? -1 then _ else _) as [spec_col cm] eqn:Ecm.
    rewrite !set_default_other by discriminate.
    assert (cm !! "strain_col" = Some strain_col) as ->.
    { destruct (_ =? -1); [|now injection Ecm as _ <-].
      destruct (3 <=? _)%nat; injection Ecm as _ <-; [|exact E].
      now rewrite lookup_insert_ne by discriminate. }
    rewrite Hs. now destruct (last _).
  - rewrite E, Hs. now destruct (last _).
Qed.

Lemma filter_none {A : Type} (f : A -> bool) (l : list A) :
  List.Forall (fun x => f x = false) l -> filter (fun x => f x) l = [].
Proof.
  induction 1 as [|x l Hx _ IH]; [reflexivity|].
  rewrite filter_cons, decide_False by (rewrite Hx; intros []). exact IH.
Qed.

(** X8: the strain column is the last cell of the header row, in the order
    the row is stored, whose text names the strain column; with no such
    cell, or without the header row, there is no strain column. *)
Theorem strain_column_last_match (table_matrix : matrix) (header_row : Z)
  (header_data before after : list (Z * string)) (cell : Z * string) :
  (table_matrix !! header_row = Some header_data ->
   header_data = before ++ cell :: after ->
   is_strain_header (snd cell) = true ->
   List.Forall (fun c => is_strain_header (snd c) = false) after ->
   _identify_columns table_matrix header_row !! "strain_col" = Some (fst cell))
  /\ (table_matrix !! header_row = Some header_data ->
      List.Forall (fun c => is_strain_header (snd c) = false) header_data ->
      _identify_columns table_matrix header_row !! "strain_col" = None)
  /\ (table_matrix !! header_row = None ->
      _identify_columns table_matrix header_row = ∅).
Proof.
  rewrite identify_columns_strain. repeat split.
  - intros -> -> Hc Ha.
    rewrite filter_app, filter_cons, decide_True by (rewrite Hc; exact I).
    rewrite (filter_none (fun c => is_strain_header (snd c)) after Ha).
    rewrite map_app. cbn [map]. rewrite last_snoc. reflexivity.
  - intros -> H.
    now rewrite (filter_none (fun c => is_strain_header (snd c)) header_data H).
  - intros H. unfold _identify_columns.
    destruct (table_matrix !! header_row); [discriminate | reflexivity].
Qed.

Lemma strain_column_last_match_witness :
  _identify_columns dense_page 0 !! "strain_col" = Some 1
  /\ _identify_columns {[ 0 := [ (0, "Bulk Name"); (1, "0 day") ] ]} 0
       !! "strain_col" = None
  /\ _identify_columns dense_page 7 = ∅.
Proof.
  pose proof (strain_column_last_match dense_page 0 example_header
                [ (0, "Bulk Name") ]
                [ (2, "Specification"); (3, "0 day"); (4, "7 day");
                  (5, "14 day"); (6, "28 day"); (7, "Judgment") ]
                (1, "Challenged Organism")) as (H1 & _ & _).
  pose proof (strain_column_last_match
                {[ 0 := [ (0, "Bulk Name"); (1, "0 day") ] ]} 0
                [ (0, "Bulk Name"); (1, "0 day") ] [] [] (0, "")) as (_ & H2 & _).
  pose proof (strain_column_last_match dense_page 7 [] [] [] (0, ""))
    as (_ & _ & H3).
  split; [|split].
  - apply H1; [reflexivity | reflexivity | reflexivity |].
    repeat constructor.
  - apply H2; [reflexivity|]. repeat constructor.
  - apply H3. reflexivity.
Defined.

(** X7: once the strain column is known, every CFU column and both judgment
    columns are mapped, found in the header or set by position. *)
Theorem identify_columns_complete (table_matrix : matrix) (header_row : Z) :
  is_Some (_identify_columns table_matrix header_row !! "strain_col") ->
  List.Forall
    (fun role => is_Some (_identify_columns table_matrix header_row !! role))
    defaulted_roles.
Proof.
  unfold _identify_columns.
  destruct (table_matrix !! header_row) as [header_data|].
  2:{ rewrite lookup_empty. intros [? [=]]. }
  destruct (fold_left identify_cell header_data ∅ !! "strain_col")
    as [strain_col|] eqn:E.
  2:{ rewrite E. intros [? [=]]. }
  destruct (if _ =? -1 then _ else _) as [spec_col cm].
  intros _. unfold defaulted_roles.
  repeat (apply List.Forall_cons;
          [repeat (apply set_default_lookup; first [now left | right])|]).
  apply List.Forall_nil.
Qed.

Lemma identify_columns_complete_witness :
  List.Forall
    (fun role => is_Some (_identify_columns dense_page 0 !! role))
    defaulted_roles.
Proof.
  apply (identify_columns_complete dense_page 0).
  exists 1. vm_compute. reflexivity.
Defined.

Lemma process_rows_no_strain (cm : column_map_t) (rows : list row)
  (st : loop_state) :
  cm !! "strain_col" = None -> snd (process_rows cm st rows) = snd st.
Proof.
  intros Hcm. revert st. induction rows as [|row_data rows IH]; intros st;
    [reflexivity|].
  unfold process_rows in *. cbn [fold_left]. rewrite IH.
  unfold process_row, row_record. now rewrite Hcm.
Qed.

Lemma assemble_no_strain (m : matrix) (cm : column_map_t) (start : Z) :
  cm !! "strain_col" = None -> assemble m cm start = [].
Proof.
  intros Hcm. unfold assemble. now rewrite process_rows_no_strain.
Qed.

(** X9: a page yields records only if a cell of its header row (row 0 when
    the table has no header) names the strain column. *)
Theorem records_need_strain_header (table_matrix : matrix) (r : test_record) :
  In r (_extract_strain_data table_matrix) ->
  exists header_row header_data cell,
    _find_header_row table_matrix = Some header_row
    /\ table_matrix !! (if header_row =? -1 then 0 else header_row)
       = Some header_data
    /\ In cell header_data
    /\ is_strain_header (snd cell) = true.
Proof.
  unfold _extract_strain_data.
  destruct (_find_header_row table_matrix) as [h|]; [|intros []].
  intros Hin0. set (h' := if h =? -1 then 0 else h).
  assert (In r (assemble table_matrix (_identify_columns table_matrix h')
                  (if h =? -1 then 0 else h + 1))) as Hin
    by (subst h'; destruct (h =? -1); exact Hin0).
  clear Hin0.
  destruct (_identify_columns table_matrix h' !! "strain_col") as [sc|] eqn:E.
  2:{ rewrite assemble_no_strain in Hin by exact E. destruct Hin. }
  rewrite identify_columns_strain in E.
  destruct (table_matrix !! h') as [header_data|] eqn:Eh; [|discriminate].
  apply last_Some in E as (l' & El).
  assert (In sc (map fst (filter (fun cell => is_strain_header (snd cell))
                                 header_data))) as Hsc
    by (rewrite El; apply in_elt).
  apply in_map_iff in Hsc as (cell & _ & Hcell).
  apply list_elem_of_In, list_elem_of_filter in Hcell as [Hc Hcell].
  exists h, header_data, cell. repeat split; auto.
  - now apply list_elem_of_In.
  - now apply Is_true_true.
Qed.

Lemma records_need_strain_header_witness :
  exists header_row header_data cell,
    _find_header_row dense_page = Some header_row
    /\ dense_page !! (if header_row =? -1 then 0 else header_row)
       = Some header_data
    /\ In cell header_data
    /\ is_strain_header (snd cell) = true.
Proof.
  apply (records_need_strain_header dense_page
           (TestRecord "25E15I14" "GB1919-ZMB" "S.aureus" "6.8×10^5" "" "" ""
                       "적합" "")).
  vm_compute. tauto.
Defined.

Example headerless_page_without_e_coli :
  _find_header_row {[ 0 := [ (0, "S.aureus"); (1, "6.8X105") ];
                      1 := [ (0, "E.coli"); (1, "5.5X105") ] ]} = Some (-1)
  /\ _extract_strain_data {[ 0 := [ (0, "S.aureus"); (1, "6.8X105") ];
                             1 := [ (0, "E.coli"); (1, "5.5X105") ] ]} = [].
Proof. split; vm_compute; reflexivity. Qed.

(** ** Date block *)

Lemma four_dates_keys (row_data : row) (d : date_info) :
  four_dates row_data = Some d -> map fst d = date_keys.
Proof.
  unfold four_dates.
  destruct (row_dates row_data) as [|d0 [|d1 [|d2 [|d3 ?]]]]; try discriminate.
  now intros [= <-].
Qed.

Lemma derived_dates_keys (value : string) (d : date_info) :
  derived_dates value = Some d -> map fst d = date_keys.
Proof.
  unfold derived_dates.
  destruct (date_like value) as [[g1 g2]|]; [|discriminate].
  destruct (datetime _ _ _); [|discriminate].
  intros H. apply (f_equal (option_map (map fst))) in H.
  cbn [option_map map fst] in H. now injection H as <-.
Qed.

(** X10: the date block is all or nothing: empty, or the four keys date_0,
    date_7, date_14, date_28 in this order; a matrix without rows gives the
    empty block. *)
Theorem date_block_all_or_nothing (table_matrix : matrix) :
  (_extract_date_info table_matrix = []
   \/ map fst (_extract_date_info table_matrix) = date_keys)
  /\ _extract_date_info ∅ = [].
Proof.
  split; [|vm_compute; reflexivity].
  unfold _extract_date_info.
  destruct (first_some (fun r => four_dates (snd r)) _) as [d|] eqn:E1.
  - right. apply first_some_inv in E1 as (_ & r & _ & _ & _ & H).
    exact (four_dates_keys _ _ H).
  - destruct (first_some (fun r => first_some _ (snd r)) _) as [d|] eqn:E2;
      [|now left].
    right. apply first_some_inv in E2 as (_ & r & _ & _ & _ & H).
    apply first_some_inv in H as (_ & c & _ & _ & _ & H).
    exact (derived_dates_keys _ _ H).
Qed.

(** X11: the first leading row with four or more date-like cells decides: its
    first four dates, in column order and zero-padded, are the block, and
    the later rows and the second pass are not consulted. *)
Theorem first_date_row_decides (table_matrix : matrix)
  (before after : list (Z * row)) (r : Z * row)
  (d0 d1 d2 d3 : string * string) (more : list (string * string)) :
  leading_rows table_matrix = before ++ r :: after ->
  List.Forall (fun r' => (length (row_dates (snd r')) < 4)%nat) before ->
  row_dates (snd r) = d0 :: d1 :: d2 :: d3 :: more ->
  _extract_date_info table_matrix
  = [ ("date_0", md d0); ("date_7", md d1); ("date_14", md d2); ("date_28", md d3) ].
Proof.
  intros Hl Hb Hr. unfold _extract_date_info. rewrite Hl.
  rewrite (first_some_skip (fun r => four_dates (snd r)) before after r
             [ ("date_0", md d0); ("date_7", md d1);
               ("date_14", md d2); ("date_28", md d3) ]).
  - reflexivity.
  - eapply List.Forall_impl; [|exact Hb]. intros r'. exact (four_dates_none (snd r')).
  - unfold four_dates. now rewrite Hr.
Qed.

Lemma first_date_row_decides_witness :
  _extract_date_info (example_page [] (fun _ _ => ""))
  = [ ("date_0", md ("01", "15")); ("date_7", md ("01", "22"));
      ("date_14", md ("01", "29")); ("date_28", md ("02", "12")) ].
Proof.
  apply (first_date_row_decides (example_page [] (fun _ _ => ""))
           [ (0, example_header) ]
           [ (2, [ (0, "25E15I14 GB1919-ZMB") ]) ]
           (1, [ (3, "01 15"); (4, "01 22"); (5, "01 29"); (6, "02 12") ])
           ("01", "15") ("01", "22") ("01", "29") ("02", "12") []).
  - vm_compute. reflexivity.
  - repeat constructor.
  - vm_compute. reflexivity.
Defined.

(** ** Row loop *)

Lemma range_sorted (a b : Z) : StronglySorted Z.lt (range a b).
Proof.
  unfold range. generalize (Z.to_nat (b - a)) as n. intros n.
  assert (forall k, StronglySorted Z.lt
                      (map (fun i => a + Z.of_nat i) (seq k n))) as H.
  { induction n as [|n IH]; intros k; cbn [seq map]; constructor; [apply IH|].
    apply List.Forall_forall. intros x Hx.
    apply in_map_iff in Hx as (i & <- & Hi). apply in_seq in Hi. lia. }
  apply H.
Qed.

Lemma rows_in_range_indices (m : matrix) (l : list Z) :
  StronglySorted Z.lt l ->
  StronglySorted Z.lt
    (map fst (omap (fun row_idx => match m !! row_idx with
                                   | Some row_data => Some (row_idx, row_data)
                                   | None => None
                                   end) l)).
Proof.
  induction 1 as [|i l Hs IH Hi]; [constructor|].
  cbn [omap list_omap]. destruct (m !! i) as [row_data|]; [|exact IH].
  cbn [map fst]. constructor; [exact IH|].
  apply List.Forall_forall. intros j Hj.
  apply in_map_iff in Hj as ([j' r'] & <- & Hj).
  apply list_elem_of_In, list_elem_of_omap in Hj as (k & Hk & Hm).
  destruct (m !! k); [|discriminate]. injection Hm as <- _.
  rewrite List.Forall_forall in Hi. apply Hi. now apply list_elem_of_In.
Qed.

Lemma length_omap_le {A B : Type} (f : A -> option B) (l : list A) :
  (length (omap f l) <= length l)%nat.
Proof.
  induction l as [|x l IH]; [reflexivity|].
  cbn [omap list_omap]. destruct (f x); simpl; lia.
Qed.

Lemma process_rows_length (cm : column_map_t) (rows : list row) (st : loop_state) :
  (length (snd (process_rows cm st rows)) <= length (snd st) + length rows)%nat.
Proof.
  revert st. induction rows as [|row_data rows IH]; intros st; [simpl; lia|].
  unfold process_rows in *. cbn [fold_left]. etransitivity; [apply IH|].
  unfold process_row. destruct (row_record _ _ _); cbn [snd length];
    rewrite ?length_app; simpl; lia.
Qed.

(** X12: the row loop takes the rows in strictly ascending index order, each
    once, and the output never has more records than rows were visited. *)
Theorem rows_visited_once (table_matrix : matrix) (column_map : column_map_t)
  (data_start_row : Z) :
  StronglySorted Z.lt (map fst (visited_rows table_matrix data_start_row))
  /\ (length (assemble table_matrix column_map data_start_row)
      <= length (visited_rows table_matrix data_start_row))%nat
  /\ (length (visited_rows table_matrix data_start_row)
      <= Z.to_nat (len table_matrix - data_start_row))%nat.
Proof.
  split; [|split].
  - apply rows_in_range_indices, range_sorted.
  - unfold assemble. rewrite (Permutation_length (reorder_perm _)).
    etransitivity; [apply process_rows_length|]. now rewrite length_map.
  - unfold visited_rows, rows_in_range.
    etransitivity; [apply length_omap_le|].
    unfold range. now rewrite length_map, length_seq.
Qed.

(** ** Reordering *)

Lemma spec_runs_well_split (l : list test_record) : well_split (spec_runs l).
Proof.
  induction l as [|x l IH]; [exact I|].
  cbn [spec_runs]. destruct (spec_runs l) as [|[|y g] gs].
  - repeat split; [discriminate | now repeat constructor].
  - now destruct IH as [[] _].
  - destruct IH as (_ & Hu & Hn & Hw). cbn [tag] in Hu, Hn.
    destruct (String.eqb_spec (test_number x) (test_number y)) as [E|E].
    + repeat split; cbn [tag]; [discriminate | | | exact Hw].
      * constructor; [reflexivity|]. now rewrite E.
      * now rewrite E.
    + repeat split; cbn [tag]; try discriminate; auto.
      now repeat constructor.
Qed.

Lemma well_split_runs (gs : list (list test_record)) :
  well_split gs -> spec_runs (concat gs) = gs.
Proof.
  induction gs as [|g gs IH]; [reflexivity|].
  intros (Hne & Hu & Hn & Hw). cbn [concat].
  rewrite (spec_runs_app (tag g) g _ Hne Hu), (IH Hw).
  destruct gs as [|[|y h] gs']; [reflexivity| |].
  - now destruct Hw as [[] _].
  - cbn [tag] in Hn. destruct (String.eqb_spec (tag g) (test_number y)); congruence.
Qed.

Lemma sort_by_uniform (t : string) (g : list test_record) :
  uniform t g -> uniform t (sort_by strain_key g).
Proof.
  unfold uniform. intros H.
  eapply Permutation_Forall; [|exact H].
  symmetry. apply sort_by_perm.
Qed.

Lemma uniform_tag (t : string) (g : list test_record) :
  g <> [] -> uniform t g -> tag g = t.
Proof. destruct g; [congruence|]. intros _ H. now inversion H. Qed.

Lemma sort_by_nonempty (g : list test_record) :
  g <> [] -> sort_by strain_key g <> [].
Proof.
  intros Hne E. apply Hne.
  apply Permutation_nil. rewrite <- E. apply sort_by_perm.
Qed.

Lemma sort_by_tag (g : list test_record) :
  g <> [] -> uniform (tag g) g -> tag (sort_by strain_key g) = tag g.
Proof.
  intros Hne Hu. apply uniform_tag; [now apply sort_by_nonempty|].
  now apply sort_by_uniform.
Qed.

Lemma well_split_sorted (gs : list (list test_record)) :
  well_split gs -> well_split (map (sort_by strain_key) gs).
Proof.
  induction gs as [|g gs IH]; [exact (fun H => H)|].
  intros (Hne & Hu & Hn & Hw). cbn [map well_split].
  rewrite (sort_by_tag g Hne Hu).
  repeat split; [now apply sort_by_nonempty | now apply sort_by_uniform | | auto].
  destruct gs as [|g' gs']; [exact I|]. cbn [map].
  destruct Hw as (Hne' & Hu' & _). now rewrite (sort_by_tag g' Hne' Hu').
Qed.

Lemma sort_by_of_sorted {A : Type} (key : A -> Z) (l : list A) :
  Sorted (fun a b => key a <= key b) l -> sort_by key l = l.
Proof.
  induction 1 as [|x l Hs IH Hd]; [reflexivity|].
  cbn [sort_by]. rewrite IH. destruct Hd as [|y l' Hxy]; [reflexivity|].
  cbn [insert_by]. apply Z.leb_le in Hxy. now rewrite Hxy.
Qed.

Lemma sort_by_idempotent {A : Type} (key : A -> Z) (l : list A) :
  sort_by key (sort_by key l) = sort_by key l.
Proof. apply sort_by_of_sorted, sort_by_sorted. Qed.

Lemma uniform_numbers (t : string) (g : list test_record) :
  uniform t g -> map test_number g = repeat t (length g).
Proof. induction 1 as [|x g Hx _ IH]; [reflexivity|]. simpl. now rewrite Hx, IH. Qed.

Lemma sort_by_numbers (t : string) (g : list test_record) :
  uniform t g ->
  map test_number (sort_by strain_key g) = map test_number g.
Proof.
  intros Hu.
  rewrite (uniform_numbers t _ (sort_by_uniform t g Hu)), (uniform_numbers t g Hu).
  now rewrite (Permutation_length (sort_by_perm strain_key g)).
Qed.

(** X2: the reordering moves no record from one test to another: the output
    is a permutation of the input with the same sequence of test numbers. *)
Theorem reorder_keeps_test_sequence (test_data : list test_record) :
  Permutation (reorder test_data) test_data
  /\ map test_number (reorder test_data) = map test_number test_data.
Proof.
  split; [apply reorder_perm|].
  rewrite reorder_refines. unfold spec_reorder.
  rewrite <- (spec_runs_concat test_data) at 2.
  pose proof (spec_runs_uniform test_data) as Hu.
  induction Hu as [|g gs [t Hg] _ IH]; [reflexivity|].
  cbn [map concat]. rewrite !map_app, IH, (sort_by_numbers t g Hg). reflexivity.
Qed.

Lemma reorder_twice (test_data : list test_record) :
  reorder (reorder test_data) = reorder test_data.
Proof.
  rewrite !reorder_refines. unfold spec_reorder.
  rewrite well_split_runs by apply well_split_sorted, spec_runs_well_split.
  rewrite map_map. f_equal. apply map_ext. intros g. apply sort_by_idempotent.
Qed.

(** X3: reordering an output that is already reordered changes nothing; in
    particular the records of a page are in their final order. *)
Theorem reorder_idempotent (test_data : list test_record) (table_matrix : matrix) :
  reorder (reorder test_data) = reorder test_data
  /\ reorder (_extract_strain_data table_matrix)
     = _extract_strain_data table_matrix.
Proof.
  split; [apply reorder_twice|].
  unfold _extract_strain_data.
  destruct (_find_header_row table_matrix) as [h|]; [|reflexivity].
  destruct (h =? -1); apply reorder_twice.
Qed.

(** ** Letter case *)

Lemma upper_is_empty (a b : string) :
  Py.upper a = Py.upper b -> Py.is_empty a = Py.is_empty b.
Proof.
  intros H. rewrite <- (is_empty_map_str Py.upper_char a),
              <- (is_empty_map_str Py.upper_char b).
  fold (Py.upper a) (Py.upper b). now rewrite H.
Qed.

(** X13: the identifier extractors and the strain normalizer do not look at
    the case of ASCII letters: two texts with the same upper-case form get
    the same results. *)
Theorem extraction_ignores_case (a b : string) :
  Py.upper a = Py.upper b ->
  _extract_test_info_from_row a = _extract_test_info_from_row b
  /\ extract_numbers a = extract_numbers b
  /\ _normalize_strain_name a = _normalize_strain_name b.
Proof.
  intros H. split; [|split].
  - unfold _extract_test_info_from_row, preprocess_row_text.
    now rewrite (upper_is_empty a b H), H.
  - unfold extract_numbers, preprocess_bulk_name. now rewrite H.
  - unfold _normalize_strain_name.
    now rewrite <- (lower_upper a), <- (lower_upper b), H.
Qed.

Lemma extraction_ignores_case_witness :
  _extract_test_info_from_row "25e15i14 gb1919-zmb"
  = _extract_test_info_from_row "25E15I14 GB1919-ZMB"
  /\ extract_numbers "25e15i14 gb1919-zmb" = extract_numbers "25E15I14 GB1919-ZMB"
  /\ _normalize_strain_name "25e15i14 gb1919-zmb"
     = _normalize_strain_name "25E15I14 GB1919-ZMB".
Proof.
  apply (extraction_ignores_case "25e15i14 gb1919-zmb" "25E15I14 GB1919-ZMB").
  reflexivity.
Defined.

(** ** The matrix of a table *)

Lemma row_set_keys (row_data : row) (col : Z) (v : string) :
  map fst (row_set row_data col v)
  = if row_has row_data col then map fst row_data else map fst row_data ++ [col].
Proof.
  induction row_data as [|[c x] rest IH]; [reflexivity|].
  cbn [row_set row_has existsb fst]. fold (row_has rest col).
  destruct (c =? col) eqn:E; cbn [orb map fst]; [reflexivity|].
  rewrite IH. now destruct (row_has rest col).
Qed.

Lemma row_has_spec (row_data : row) (col : Z) :
  row_has row_data col = true <-> In col (map fst row_data).
Proof.
  unfold row_has. rewrite existsb_exists, in_map_iff. split.
  - intros (p & Hp & E). exists p. split; [lia | exact Hp].
  - intros (p & E & Hp). exists p. split; [exact Hp | lia].
Qed.

Lemma row_set_nodup (row_data : row) (col : Z) (v : string) :
  NoDup (map fst row_data) -> NoDup (map fst (row_set row_data col v)).
Proof.
  intros H. rewrite row_set_keys.
  destruct (row_has row_data col) eqn:E; [exact H|].
  apply NoDup_app. repeat split; [exact H | | apply NoDup_singleton].
  intros x Hx Hx'. apply list_elem_of_In in Hx, Hx'.
  destruct Hx' as [<-|[]].
  apply row_has_spec in Hx. congruence.
Qed.

Lemma row_set_has (row_data : row) (col col' : Z) (v : string) :
  row_has (row_set row_data col v) col' = (col =? col') || row_has row_data col'.
Proof.
  induction row_data as [|[c x] rest IH].
  - cbn. now rewrite orb_false_r.
  - cbn [row_set]. destruct (c =? col) eqn:E.
    + apply Z.eqb_eq in E. subst c. cbn [row_has existsb fst].
      now destruct (col =? col').
    + cbn [row_has existsb fst]. fold (row_has (row_set rest col v) col').
      fold (row_has rest col'). rewrite IH.
      destruct (c =? col'), (col =? col'); reflexivity.
Qed.

Lemma row_set_get (row_data : row) (col col' : Z) (v d : string) :
  row_get (row_set row_data col v) col' d
  = if col =? col' then v else row_get row_data col' d.
Proof.
  unfold row_get. induction row_data as [|[c x] rest IH].
  - cbn. now destruct (col =? col').
  - cbn [row_set]. destruct (c =? col) eqn:E.
    + apply Z.eqb_eq in E. subst c. cbn [find fst snd].
      now destruct (col =? col').
    + cbn [find fst snd]. destruct (c =? col') eqn:E'.
      * apply Z.eqb_eq in E'. subst c. now rewrite Z.eqb_sym, E.
      * exact IH.
Qed.

Lemma row_set_values (row_data : row) (col : Z) (v : string) (p : Z * string) :
  In p (row_set row_data col v) -> p = (col, v) \/ In p row_data.
Proof.
  induction row_data as [|[c x] rest IH]; cbn [row_set].
  - intros [<-|[]]. now left.
  - destruct (c =? col) eqn:E.
    + apply Z.eqb_eq in E. subst c. intros [<-|H]; [now left | right; now right].
    + intros [<-|H]; [right; now left|].
      destruct (IH H) as [->|H']; [now left | right; now right].
Qed.

Lemma put_cell_at (m : matrix) (c : cell) (i j : Z) :
  cell_at (put_cell m c) i j
  = if (row_index c =? i) && (column_index c =? j)
    then Some (Py.strip (content c)) else cell_at m i j.
Proof.
  unfold cell_at, put_cell. cbv zeta.
  destruct (Z.eqb_spec (row_index c) i) as [<-|Hne].
  - rewrite lookup_insert_eq, row_set_has, row_set_get.
    destruct (column_index c =? j); cbn [andb orb]; [reflexivity|].
    now destruct (m !! row_index c).
  - now rewrite lookup_insert_ne.
Qed.

Lemma matrix_of_cells_snoc (l : list cell) (c : cell) :
  matrix_of_cells (l ++ [c]) = put_cell (matrix_of_cells l) c.
Proof. unfold matrix_of_cells. now rewrite fold_left_app. Qed.

Lemma cells_at_snoc (l : list cell) (c : cell) (i j : Z) :
  last (cells_at (l ++ [c]) i j)
  = if (row_index c =? i) && (column_index c =? j)
    then Some c else last (cells_at l i j).
Proof.
  unfold cells_at. rewrite List.filter_app. cbn [List.filter].
  destruct ((row_index c =? i) && (column_index c =? j)).
  - apply last_snoc.
  - now rewrite app_nil_r.
Qed.

(** Shared invariant of the loop over the cells. *)
Lemma matrix_of_cells_invariant (l : list cell) :
  forall i row_data,
    matrix_of_cells l !! i = Some row_data ->
    NoDup (map fst row_data)
    /\ row_data <> []
    /\ List.Forall (fun p => Py.strip (snd p) = snd p) row_data.
Proof.
  induction l as [|c l IH] using rev_ind; intros i row_data.
  - unfold matrix_of_cells. cbn [fold_left]. now rewrite lookup_empty.
  - rewrite matrix_of_cells_snoc. unfold put_cell. cbv zeta.
    destruct (Z.eqb_spec (row_index c) i) as [<-|Hne].
    2:{ rewrite lookup_insert_ne by exact Hne. apply IH. }
    rewrite lookup_insert_eq. intros [= <-].
    assert (NoDup (map fst (default [] (matrix_of_cells l !! row_index c)))
            /\ List.Forall (fun p => Py.strip (snd p) = snd p)
                           (default [] (matrix_of_cells l !! row_index c)))
      as [Hn Hs].
    { destruct (matrix_of_cells l !! row_index c) as [r|] eqn:E.
      - destruct (IH _ _ E) as (? & _ & ?). now split.
      - split; constructor. }
    split; [now apply row_set_nodup|]. split.
    + destruct (default [] _) as [|[c0 x] rest]; cbn [row_set]; [discriminate|].
      destruct (c0 =? _); discriminate.
    + apply List.Forall_forall. intros p Hp.
      apply row_set_values in Hp as [->|Hp].
      * apply strip_idempotent.
      * rewrite List.Forall_forall in Hs. now apply Hs.
Qed.

(** X14: the matrix built from the cells of a table holds, at each row and
    column, the stripped text of the last cell with these indices, and
    nothing where the table has no such cell; no row of it is empty or has a
    column twice, and every text in it is free of surrounding whitespace. *)
Theorem matrix_of_cells_lookup (l : list cell) (i j : Z) :
  cell_at (matrix_of_cells l) i j
  = option_map (fun c => Py.strip (content c)) (last (cells_at l i j))
  /\ (forall row_data,
        matrix_of_cells l !! i = Some row_data ->
        NoDup (map fst row_data)
        /\ row_data <> []
        /\ List.Forall (fun p => Py.strip (snd p) = snd p) row_data).
Proof.
  split; [|apply matrix_of_cells_invariant].
  induction l as [|c l IH] using rev_ind.
  - unfold cell_at, matrix_of_cells. cbn [fold_left]. now rewrite lookup_empty.
  - rewrite matrix_of_cells_snoc, put_cell_at, cells_at_snoc, IH.
    now destruct ((row_index c =? i) && (column_index c =? j)).
Qed.

Lemma matrix_of_cells_lookup_witness :
  NoDup (map fst [ (0, "E.coli"); (1, "<10") ])
  /\ [ (0, "E.coli"); (1, "<10") ] <> []
  /\ List.Forall (fun p => Py.strip (snd p) = snd p) [ (0, "E.coli"); (1, "<10") ].
Proof.
  apply (proj2 (matrix_of_cells_lookup
                  [ Cell 0 0 " E.coli"; Cell 0 1 "40"; Cell 0 1 "<10 " ] 0 0)).
  vm_compute. reflexivity.
Defined.

(** ** The whole-matrix identifier scan *)

Lemma scan_patterns_parse :
  forallb (fun p => match parse p with Some _ => true | None => false end)
          scan_patterns = true.
Proof. vm_compute. reflexivity. Qed.

Example extract_test_info_page :
  _extract_test_info dense_page 0 = ([ "25E15I14" ], [ "GB1919-ZMB" ]).
Proof. vm_compute. reflexivity. Qed.

Example extract_test_info_forms :
  _extract_test_info
    {[ 0 := [ (0, "25E15114 ab1234-xy") ];
       1 := [ (0, "25A20102"); (1, "AB1234 - XY") ];
       2 := [ (0, "25F1 5102") ];
       3 := [ (0, "lot 25G15|") ] ]} 0
  = ([ "25E15I14"; "25A20I02"; "25F15I10"; "25G15I" ], [ "AB1234-XY" ]).
Proof. vm_compute. reflexivity. Qed.

Lemma mem_spec (x : string) (l : list string) : Py.mem x l = true <-> In x l.
Proof.
  unfold Py.mem. rewrite existsb_exists. split.
  - intros (y & Hy & E). apply String.eqb_eq in E. now subst.
  - intros H. exists x. split; [exact H | apply String.eqb_refl].
Qed.

Lemma append_new_nodup (l : list string) (x : string) :
  NoDup l -> NoDup (append_new l x).
Proof.
  intros H. unfold append_new. destruct (Py.mem x l) eqn:E; [exact H|].
  apply NoDup_app. repeat split; [exact H | | apply NoDup_singleton].
  intros y Hy Hy'. apply list_elem_of_In in Hy, Hy'. destruct Hy' as [<-|[]].
  apply mem_spec in Hy. congruence.
Qed.

Lemma add_found_nodup (st : list string * list string) (x : string) :
  NoDup (fst st) -> NoDup (fst (add_found st x)).
Proof.
  destruct st as [t f]. cbn [add_found fst]. intros H.
  destruct (Py.mem x t) eqn:E; cbn [negb andb fst]; [exact H|].
  destruct (negb (Py.mem x f)); cbn [fst]; [|exact H].
  apply NoDup_app. repeat split; [exact H | | apply NoDup_singleton].
  intros y Hy Hy'. apply list_elem_of_In in Hy, Hy'. destruct Hy' as [<-|[]].
  apply mem_spec in Hy. congruence.
Qed.

Lemma fold_nodup {A S : Type} (P : S -> Prop) (f : S -> A -> S) (l : list A) :
  (forall s a, P s -> P (f s a)) -> forall s, P s -> P (fold_left f l s).
Proof. intros Hf. induction l as [|a l IH]; intros s Hs; [exact Hs | apply IH, Hf, Hs]. Qed.

Lemma add_truncated_nodup (l : list string) (m : string) :
  NoDup l -> NoDup (add_truncated l m).
Proof.
  intros H. unfold add_truncated. destruct (_ <? _)%nat; [exact H|].
  now apply append_new_nodup.
Qed.

Lemma scan_row_nodup (st : list string * list string) (row_data : row) :
  NoDup (fst st) /\ NoDup (snd st) ->
  NoDup (fst (scan_row st row_data)) /\ NoDup (snd (scan_row st row_data)).
Proof.
  destruct st as [t p]. cbn [fst snd]. intros [Ht Hp].
  unfold scan_row. cbv zeta. cbn [fst snd]. split.
  - set (s4 := fold_left add_found _ _).
    assert (NoDup (fst s4)) as H4.
    { subst s4.
      apply (fold_nodup (fun s => NoDup (fst s))); [apply add_found_nodup|].
      destruct (re_findall "\b(\d{2}[A-L]\d{2}I\d{2,3})\b" _) eqn:E1.
      - destruct (re_findall "\b(\d{2}[A-L]\d{2}1\d{2,3})\b" _);
          repeat (apply (fold_nodup (fun s => NoDup (fst s)));
                  [apply add_found_nodup|]); exact Ht.
      - apply (fold_nodup (fun s => NoDup (fst s))); [apply add_found_nodup|].
        exact Ht. }
    destruct (snd s4); [|exact H4].
    apply (fold_nodup (@NoDup string)); [apply add_truncated_nodup | exact H4].
  - apply (fold_nodup (@NoDup string)); [|exact Hp].
    intros s pattern Hs.
    apply (fold_nodup (@NoDup string)); [|exact Hs].
    intros s' m. apply append_new_nodup.
Qed.

Lemma or_blank_nodup (l : list string) : NoDup l -> NoDup (or_blank l).
Proof. destruct l; [intros _; apply NoDup_singleton | auto]. Qed.

Lemma or_blank_nonempty (l : list string) : or_blank l <> [].
Proof. now destruct l. Qed.

(** X15: the whole-matrix scan reports no number twice, and neither of its
    lists is ever empty: a list without a find is the list of the empty
    string. *)
Theorem extract_test_info_lists (table_matrix : matrix) (header_row : Z) :
  NoDup (fst (_extract_test_info table_matrix header_row))
  /\ NoDup (snd (_extract_test_info table_matrix header_row))
  /\ fst (_extract_test_info table_matrix header_row) <> []
  /\ snd (_extract_test_info table_matrix header_row) <> []
  /\ _extract_test_info ∅ header_row = ([ "" ], [ "" ]).
Proof.
  unfold _extract_test_info.
  assert (forall rows st, NoDup (fst st) /\ NoDup (snd st) ->
            NoDup (fst (fold_left scan_row rows st))
            /\ NoDup (snd (fold_left scan_row rows st))) as H.
  { intros rows. apply (fold_nodup (fun st => NoDup (fst st) /\ NoDup (snd st))).
    apply scan_row_nodup. }
  destruct (H (map snd (rows_in_range table_matrix 0 (len table_matrix)))
              ([], [])) as [Ht Hp]; [split; constructor|].
  destruct (fold_left scan_row _ _) as [t p]. cbn [fst snd] in *.
  repeat split; auto using or_blank_nodup, or_blank_nonempty.
Qed.

(** ** Strain names *)

Lemma mapping_targets (mapping : list (string * string)) (f : string * string -> bool)
  (p : string * string) :
  find f mapping = Some p -> In (snd p) (map snd mapping).
Proof. intros H. apply find_some in H as [H _]. now apply in_map. Qed.

Lemma backend_strain_range (strain : string) :
  In (DataCleaner.normalize_strain_name strain) canonical_strains
  \/ DataCleaner.normalize_strain_name strain = strain.
Proof.
  unfold DataCleaner.normalize_strain_name.
  destruct (find _ DataCleaner.strain_mapping) as [[full short]|] eqn:E.
  - left. apply mapping_targets in E. cbn [snd] in E.
    revert E. generalize short. apply List.Forall_forall.
    unfold DataCleaner.strain_mapping. cbn [map snd].
    repeat (apply List.Forall_cons; [vm_compute; tauto|]). apply List.Forall_nil.
  - clear E.
    destruct (find _ DataCleaner.strain_mapping) as [[full short]|] eqn:E';
      [|now right].
    left. apply mapping_targets in E'. cbn [snd] in E'.
    revert E'. generalize short. apply List.Forall_forall.
    unfold DataCleaner.strain_mapping. cbn [map snd].
    repeat (apply List.Forall_cons; [vm_compute; tauto|]). apply List.Forall_nil.
Qed.

(** X16: both strain normalizers leave a normalized name as it is; the one of
    the preservation backend answers with one of the five names or with the
    empty string, the one of [DataCleaner] with one of the five names or
    with its input. *)
Theorem strain_normalizers_idempotent (strain : string) :
  (_normalize_strain_name strain = ""
   \/ In (_normalize_strain_name strain) canonical_strains)
  /\ _normalize_strain_name (_normalize_strain_name strain)
     = _normalize_strain_name strain
  /\ (In (DataCleaner.normalize_strain_name strain) canonical_strains
      \/ DataCleaner.normalize_strain_name strain = strain)
  /\ DataCleaner.normalize_strain_name (DataCleaner.normalize_strain_name strain)
     = DataCleaner.normalize_strain_name strain.
Proof.
  assert (List.Forall (fun c => _normalize_strain_name c = c
                                /\ DataCleaner.normalize_strain_name c = c)
                      ("" :: canonical_strains)) as Hc.
  { unfold canonical_strains, strain_order. cbn [map fst].
    repeat (apply List.Forall_cons; [split; vm_compute; reflexivity|]).
    apply List.Forall_nil. }
  rewrite List.Forall_forall in Hc.
  split; [apply normalize_strain_range|]. split.
  - destruct (normalize_strain_range strain) as [H|H].
    + rewrite H. reflexivity.
    + apply Hc. now right.
  - split; [apply backend_strain_range|].
    destruct (backend_strain_range strain) as [H|H].
    + apply Hc. now right.
    + now rewrite !H.
Qed.

(** ** Identifier context *)

Lemma update_context_keeps (row_data : row) (ctx : context) :
  (fst ctx <> "" -> fst (update_context row_data ctx) <> "")
  /\ (snd ctx <> "" -> snd (update_context row_data ctx) <> "").
Proof.
  unfold update_context. cbv zeta.
  destruct (Py.is_empty (Py.strip _)); [tauto|].
  destruct (_extract_test_info_from_row _) as [t p]. cbn [fst snd].
  split; intros H.
  - destruct t; [exact H | discriminate].
  - destruct p; [exact H | discriminate].
Qed.

(** X17: once a test number (or a prescription number) is known, the row
    loop never goes back to an empty one: later rows replace it or leave
    it. *)
Theorem context_never_cleared (column_map : column_map_t) (rows : list row)
  (st : loop_state) :
  (fst (fst st) <> "" -> fst (fst (process_rows column_map st rows)) <> "")
  /\ (snd (fst st) <> "" -> snd (fst (process_rows column_map st rows)) <> "").
Proof.
  revert st. induction rows as [|row_data rows IH]; intros st; [tauto|].
  unfold process_rows in *. cbn [fold_left].
  specialize (IH (process_row column_map st row_data)).
  rewrite process_row_context in IH.
  destruct (update_context_keeps row_data (fst st)). tauto.
Qed.

Lemma context_never_cleared_witness :
  fst (fst (process_rows (_identify_columns dense_page 0)
              (("25E15I14", "GB1919-ZMB"), [])
              [ [ (0, "GB2020-ABC") ]; [ (1, "E.coli") ] ])) <> ""
  /\ snd (fst (process_rows (_identify_columns dense_page 0)
                 (("25E15I14", "GB1919-ZMB"), [])
                 [ [ (0, "GB2020-ABC") ]; [ (1, "E.coli") ] ])) <> "".
Proof.
  pose proof (context_never_cleared (_identify_columns dense_page 0)
                [ [ (0, "GB2020-ABC") ]; [ (1, "E.coli") ] ]
                (("25E15I14", "GB1919-ZMB"), [])) as [H1 H2].
  split; [apply H1 | apply H2]; discriminate.
Defined.

(** ** Noise removal *)

Lemma free_of_append (c : ascii) (a b : string) :
  free_of c (a +:+ b) = free_of c a && free_of c b.
Proof.
  induction a as [|x a IH]; [reflexivity|].
  rewrite append_cons. cbn [free_of]. now rewrite IH, andb_assoc.
Qed.

Lemma replace_fuel_free (c : ascii) (old new : string) (fuel : nat) (s : string) :
  free_of c new = true -> free_of c s = true ->
  free_of c (Py.replace_fuel fuel old new s) = true.
Proof.
  intros Hnew. revert s. induction fuel as [|fuel IH]; intros s Hs; [exact Hs|].
  cbn [Py.replace_fuel]. destruct s as [|a s]; [reflexivity|].
  destruct (Py.drop_prefix old (String a s)) as [r|] eqn:E.
  - apply drop_prefix_spec in E. rewrite E, free_of_append in Hs.
    apply andb_prop in Hs as [_ Hr].
    rewrite free_of_append, Hnew. now apply IH.
  - cbn [free_of] in *. apply andb_prop in Hs as [-> Hs]. now apply IH.
Qed.

Lemma replace_free (c : ascii) (s old new : string) :
  old <> "" -> free_of c new = true -> free_of c s = true ->
  free_of c (Py.replace s old new) = true.
Proof.
  intros Hold Hnew Hs. unfold Py.replace.
  destruct old; [congruence|]. now apply replace_fuel_free.
Qed.

(** Replacing a byte removes it, when the replacement does not hold it. *)
Lemma replace_fuel_removes (c : ascii) (new : string) (fuel : nat) (s : string) :
  free_of c new = true -> (String.length s <= fuel)%nat ->
  free_of c (Py.replace_fuel fuel (String c "") new s) = true.
Proof.
  intros Hnew. revert s. induction fuel as [|fuel IH]; intros s Hlen.
  - destruct s; [reflexivity | simpl in Hlen; lia].
  - cbn [Py.replace_fuel]. destruct s as [|a s]; [reflexivity|].
    cbn [Py.drop_prefix]. cbn [String.length] in Hlen.
    destruct (Ascii.eqb_spec c a) as [<-|Hne].
    + rewrite free_of_append, Hnew. apply IH. lia.
    + cbn [free_of]. rewrite IH by lia.
      destruct (Ascii.eqb_spec a c); [congruence | reflexivity].
Qed.

Lemma replace_removes (c : ascii) (s new : string) :
  free_of c new = true ->
  free_of c (Py.replace s (String c "") new) = true.
Proof. intros H. unfold Py.replace. now apply replace_fuel_removes. Qed.

Lemma strip_free (c : ascii) (s : string) :
  free_of c s = true -> free_of c (Py.strip s) = true.
Proof.
  intros H. unfold Py.strip.
  destruct (lstrip_spec s) as (_ & p & Hp).
  destruct (rstrip_spec (Py.lstrip s)) as (_ & q & Hq).
  rewrite Hp, Hq, !free_of_append in H.
  apply andb_prop in H as [_ H]. now apply andb_prop in H as [H _].
Qed.

Lemma remove_noise_free (value : string) :
  free_of dq_char (_remove_noise value) = true
  /\ free_of "'" (_remove_noise value) = true
  /\ free_of "010" (_remove_noise value) = true.
Proof.
  unfold _remove_noise. destruct value as [|a value]; [now repeat split|].
  cbn [Py.is_empty]. cbv zeta.
  set (v1 := Py.replace (Py.replace (String a value) ":selected:" "")
                        ":unselected:" "").
  repeat split; apply strip_free.
  - apply replace_free; [discriminate | reflexivity|].
    apply replace_free; [discriminate | reflexivity|].
    apply replace_free; [discriminate | reflexivity|].
    apply replace_free; [discriminate | reflexivity|].
    apply (replace_removes dq_char v1 ""). reflexivity.
  - apply replace_free; [discriminate | reflexivity|].
    apply replace_free; [discriminate | reflexivity|].
    apply replace_free; [discriminate | reflexivity|].
    apply (replace_removes "'" _ ""). reflexivity.
  - apply (replace_removes "010" _ " "). reflexivity.
Qed.

(** X18: what the noise removal returns holds no double quote, no apostrophe
    and no line feed, so the entries of the correction table that are
    spelled with a quote never apply to a cell on its way through
    [_clean_cfu_value]. *)
Theorem quoted_entries_unreachable (value : string) :
  let cleaned := _remove_noise (_split_merged_cells value) in
  free_of dq_char cleaned = true
  /\ free_of "'" cleaned = true
  /\ free_of "010" cleaned = true
  /\ List.Forall (fun pattern => In pattern less_than_10_patterns
                                 /\ Py.strip cleaned <> pattern)
                 quoted_patterns.
Proof.
  intros cleaned.
  destruct (remove_noise_free (_split_merged_cells value)) as (Hq & Ha & Hn).
  fold cleaned in Hq, Ha, Hn. repeat split; try assumption.
  apply (strip_free dq_char) in Hq. apply (strip_free "'") in Ha.
  unfold quoted_patterns.
  repeat (apply List.Forall_cons; [split; [vm_compute; tauto|]|]);
    [..|apply List.Forall_nil];
    intros E; rewrite E in Hq, Ha; vm_compute in Hq, Ha; congruence.
Qed.

(** ** What a successful run of the matcher means *)

Lemma rounds_snoc (R : mstate -> mstate -> Prop) (n : nat) (st st1 st' : mstate) :
  R st st1 -> rounds R n st1 st' -> rounds R (S n) st st'.
Proof. intros H1 H2. exists st1. now split. Qed.


(** Soundness of the backtracking matcher: a run that succeeds has taken
    [r] from [st] to a position from which the continuation succeeded. *)
Lemma run_sound (ci : bool) (r : regex) :
  forall st k res,
    run ci r st k = Some res ->
    exists st', matches ci r st st' /\ k st' = Some res.
Proof.
  induction r as [|ch|items| | | |r1 IH1 r2 IH2|r1 IH1 r2 IH2|r' IH lo hi|n r' IH];
    intros st k res; cbn [run matches].
  - eauto.
  - destruct (has_prefix ci ch (m_rest st)) eqn:E; [|discriminate]. eauto.
  - destruct (eat_class ci items (m_rest st)) as [n|] eqn:E; [|discriminate].
    eauto.
  - destruct (m_prev st) eqn:E; [discriminate|]. eauto.
  - destruct (at_eol st) eqn:E; [|discriminate]. eauto.
  - destruct (xorb _ _) eqn:E; [|discriminate]. eauto.
  - intros H. apply IH1 in H as (st1 & H1 & H). apply IH2 in H as (st2 & H2 & H).
    eauto.
  - destruct (run ci r1 st k) as [res'|] eqn:E.
    + intros [= ->]. apply IH1 in E as (st' & H1 & H). eauto.
    + intros H. apply IH2 in H as (st' & H2 & H). eauto.
  - generalize (String.length (m_rest st) + lo + 1)%nat as fuel. intros fuel.
    assert (forall fuel n st0,
              match hi with Some h => (n <= h)%nat | None => True end ->
              (fix loop (fuel n : nat) (st : mstate) {struct fuel} : option mstate :=
                 let stop := if (lo <=? n)%nat then k st else None in
                 match fuel with
                 | O => stop
                 | S fuel' =>
                     if at_max n hi then stop
                     else
                       match run ci r' st (fun st' =>
                               if (String.length (m_rest st') <? String.length (m_rest st))%nat
                                  || (n <? lo)%nat
                               then loop fuel' (S n) st' else None) with
                       | Some res => Some res
                       | None => stop
                       end
                 end) fuel n st0 = Some res ->
              exists j st',
                rounds (matches ci r') j st0 st'
                /\ (lo <= n + j)%nat
                /\ match hi with Some h => (n + j <= h)%nat | None => True end
                /\ k st' = Some res) as Hloop.
    { clear fuel st. induction fuel as [|fuel IHf]; intros n st0 Hb.
      - destruct (lo <=? n)%nat eqn:El; [|discriminate].
        intros H. exists 0%nat, st0. apply Nat.leb_le in El.
        rewrite Nat.add_0_r. repeat split; auto.
      - assert ((if (lo <=? n)%nat then k st0 else None) = Some res ->
                exists j st',
                  rounds (matches ci r') j st0 st'
                  /\ (lo <= n + j)%nat
                  /\ match hi with Some h => (n + j <= h)%nat | None => True end
                  /\ k st' = Some res) as Hstop.
        { destruct (lo <=? n)%nat eqn:El; [|discriminate].
          intros H. exists 0%nat, st0. apply Nat.leb_le in El.
          rewrite Nat.add_0_r. repeat split; auto. }
        destruct (at_max n hi) eqn:Em; [exact Hstop|].
        destruct (run ci r' st0 _) as [res'|] eqn:E; [|exact Hstop].
        intros [= ->]. apply IH in E as (st1 & H1 & E).
        destruct (_ || _); [|discriminate].
        apply IHf in E as (j & st' & Hr & Hlo & Hhi & Hk).
        + exists (S j), st'. repeat split.
          * now apply (rounds_snoc _ _ _ st1).
          * lia.
          * destruct hi; [lia | exact I].
          * exact Hk.
        + destruct hi as [h|]; [|exact I]. cbn [at_max] in Em.
          apply Nat.leb_gt in Em. lia. }
    intros H. apply Hloop in H as (j & st' & Hr & Hlo & Hhi & Hk).
    + exists st'. split; [|exact Hk]. exists j. repeat split; auto.
    + destruct hi; [lia | exact I].
  - intros H. apply IH in H as (st1 & H1 & H). eauto.
Qed.

Lemma seg_refl (st : mstate) : seg st st "".
Proof. now split. Qed.

Lemma seg_trans (st st1 st2 : mstate) (w1 w2 : string) :
  seg st st1 w1 -> seg st1 st2 w2 -> seg st st2 (w1 +:+ w2).
Proof.
  intros [H1 C1] [H2 C2]. split; [|congruence].
  now rewrite H1, H2, append_assoc.
Qed.

Lemma has_prefix_spec (p s : string) :
  has_prefix false p s = true <-> exists r, s = p +:+ r.
Proof.
  revert s. induction p as [|a p IH]; intros s; cbn [has_prefix].
  - split; [intros _; now exists s | reflexivity].
  - destruct s as [|b s]; [split; [discriminate | intros [r [=]]]|].
    rewrite andb_true_iff, IH. split.
    + intros [E [r ->]]. apply Ascii.eqb_eq in E. subst. now exists r.
    + intros [r [= -> ->]]. split; [apply Ascii.eqb_refl | now exists r].
Qed.

Lemma advance_append (p r : string) (prev : option ascii) :
  snd (advance (String.length p) prev (p +:+ r)) = r.
Proof.
  revert prev. induction p as [|a p IH]; intros prev; [now destruct r|].
  rewrite append_cons. cbn [String.length advance]. apply IH.
Qed.

Lemma step_append (st : mstate) (p r : string) :
  m_rest st = p +:+ r -> seg st (step (String.length p) st) p.
Proof.
  intros H. unfold step, seg. rewrite H.
  pose proof (advance_append p r (m_prev st)) as Ha.
  destruct (advance _ _ _) as [q s]. cbn [snd m_rest m_caps] in *.
  now subst s.
Qed.

Lemma matches_char (ch : string) (st st' : mstate) :
  matches false (RChar ch) st st' -> seg st st' ch.
Proof.
  cbn [matches]. intros [H ->]. apply has_prefix_spec in H as [r H].
  exact (step_append st ch r H).
Qed.


Lemma step_one (st : mstate) (b : ascii) (r : string) :
  m_rest st = String b r -> seg st (step 1 st) (String b "").
Proof. intros H. exact (step_append st (String b "") r H). Qed.


Lemma matches_range (lo hi : ascii) (st st' : mstate) :
  matches false (RClass [ CRange lo hi ]) st st' ->
  exists b, seg st st' (String b "") /\ in_range lo hi b = true.
Proof.
  cbn [matches eat_class eat_item]. intros (n & H & ->).
  destruct (m_rest st) as [|b r] eqn:E; [discriminate|].
  cbn [andb] in H. rewrite orb_false_r in H.
  destruct (in_range lo hi b) eqn:Ed; [|discriminate]. injection H as <-.
  exists b. split; [exact (step_one st b r E) | exact Ed].
Qed.

Lemma matches_space (ci : bool) (st st' : mstate) :
  matches ci (RClass [ CSpace ]) st st' -> exists t, seg st st' t.
Proof.
  cbn [matches eat_class eat_item]. intros (n & H & ->).
  destruct (Py.drop_any Py.whitespace (m_rest st)) as [r|] eqn:E; [|discriminate].
  injection H as <-. apply drop_any_spec in E as (t & _ & E).
  exists t. rewrite E, length_append.
  replace (String.length t + String.length r - String.length r)%nat
    with (String.length t) by lia.
  exact (step_append st t r E).
Qed.

(** Rounds of a relation that reads a segment each time read their
    concatenation. *)
Lemma rounds_seg (R : mstate -> mstate -> Prop) (P1 : string -> Prop)
  (P : nat -> string -> Prop) :
  (forall st st', R st st' -> exists w, seg st st' w /\ P1 w) ->
  P 0%nat "" ->
  (forall n a b, P1 a -> P n b -> P (S n) (a +:+ b)) ->
  forall n st st',
    rounds R n st st' -> exists w, seg st st' w /\ P n w.
Proof.
  intros HR P0 PS. induction n as [|n IH]; intros st st'; cbn [rounds].
  - intros ->. exists "". split; [apply seg_refl | exact P0].
  - intros (st1 & H1 & H). apply HR in H1 as (a & Ha & Pa).
    apply IH in H as (b & Hb & Pb).
    exists (a +:+ b). split; [exact (seg_trans _ _ _ _ _ Ha Hb) | now apply PS].
Qed.

Lemma all_digits_append (a b : string) :
  all_digits (a +:+ b) = all_digits a && all_digits b.
Proof.
  induction a as [|c a IH]; [reflexivity|].
  rewrite append_cons. cbn [all_digits]. now rewrite IH, andb_assoc.
Qed.


(** A run of whitespace. *)
Lemma rounds_spaces (ci : bool) (n : nat) (st st' : mstate) :
  rounds (matches ci (RClass [ CSpace ])) n st st' -> exists w, seg st st' w.
Proof.
  intros H.
  apply (rounds_seg _ (fun _ => True) (fun _ _ => True)) in H as (w & Hw & _);
    eauto.
  intros s s' Hm. apply matches_space in Hm as (t & Ht). eauto.
Qed.





Lemma take_append (w r : string) :
  take (String.length (w +:+ r) - String.length r) (w +:+ r) = w.
Proof.
  rewrite length_append.
  replace (String.length w + String.length r - String.length r)%nat
    with (String.length w) by lia.
  induction w as [|c w IH]; [now destruct r|].
  rewrite append_cons. cbn [String.length take]. now rewrite IH.
Qed.

(** What a group has captured when its body read [w]. *)
Lemma matches_group (ci : bool) (n : nat) (r : regex) (st st' : mstate)
  (P : string -> Prop) :
  (forall s s', matches ci r s s' -> exists w, seg s s' w /\ P w) ->
  matches ci (RGroup n r) st st' ->
  exists w, P w /\ m_rest st = w +:+ m_rest st'
            /\ m_caps st'
               = (n, w) :: filter (fun p => negb (fst p =? n)%nat) (m_caps st).
Proof.
  intros Hr. cbn [matches]. intros (st1 & H & ->).
  apply Hr in H as (w & [Hw Hc] & Pw). exists w.
  unfold set_cap. cbn [m_rest m_caps m_prev].
  rewrite Hw at 2 3. rewrite take_append, Hc. auto.
Qed.

Lemma matches_seq (ci : bool) (r1 r2 : regex) (st st' : mstate) :
  matches ci (RSeq r1 r2) st st' ->
  exists st1, matches ci r1 st st1 /\ matches ci r2 st1 st'.
Proof. exact (fun H => H). Qed.

Lemma matches_rep (ci : bool) (r : regex) (lo : nat) (hi : option nat)
  (st st' : mstate) :
  matches ci (RRep r lo hi) st st' ->
  exists n, rounds (matches ci r) n st st'
            /\ (lo <= n)%nat
            /\ match hi with Some h => (n <= h)%nat | None => True end.
Proof. exact (fun H => H). Qed.

Lemma matches_spaces (ci : bool) (lo : nat) (hi : option nat) (st st' : mstate) :
  matches ci (RRep (RClass [ CSpace ]) lo hi) st st' -> exists w, seg st st' w.
Proof.
  intros H. apply matches_rep in H as (n & H & _). exact (rounds_spaces _ _ _ _ H).
Qed.




Lemma match_at_sound (ci : bool) (r : regex) (prev : option ascii) (s : string)
  (m : rmatch) :
  match_at ci r prev s = Some m ->
  exists st', matches ci r (MState prev s []) st'
              /\ m_groups m = m_caps st' /\ m_after m = m_rest st'.
Proof.
  unfold match_at. destruct (run ci r _ Some) as [st|] eqn:E; [|discriminate].
  intros [= <-]. apply run_sound in E as (st' & H & [= <-]). eauto.
Qed.

Lemma search_from_sound (ci : bool) (r : regex) (s : string) :
  forall prev skipped m,
    search_from ci r prev s = Some (skipped, m) ->
    exists prev' s', s = skipped +:+ s' /\ match_at ci r prev' s' = Some m.
Proof.
  induction s as [|c s IH]; intros prev skipped m; cbn [search_from].
  - destruct (match_at ci r prev "") as [m'|] eqn:E; [|discriminate].
    intros [= <- <-]. now exists prev, "".
  - destruct (match_at ci r prev (String c s)) as [m'|] eqn:E.
    + intros [= <- <-]. now exists prev, (String c s).
    + destruct (search_from ci r (Some c) s) as [[sk m']|] eqn:E'; [|discriminate].
      intros [= <- <-]. apply IH in E' as (prev' & s' & -> & H).
      now exists prev', s'.
Qed.

Lemma re_search_sound (p s : string) (m : rmatch) :
  re_search p s = Some m ->
  exists skipped prev s' st',
    s = skipped +:+ s'
    /\ matches false (compile p) (MState prev s' []) st'
    /\ m_groups m = m_caps st' /\ m_after m = m_rest st'.
Proof.
  unfold re_search.
  destruct (search_from false (compile p) None s) as [[sk m']|] eqn:E;
    [|discriminate].
  intros [= <-]. apply search_from_sound in E as (prev & s' & -> & H).
  apply match_at_sound in H as (st' & H & Hg & Ha).
  now exists sk, prev, s', st'.
Qed.










(** ** The shape of a test number *)






Lemma takes_digit (ci : bool) (p : option ascii) (b : ascii) (s : string)
  (c : list (nat * string)) :
  Py.is_digit b = true ->
  takes ci (RClass [ CDigit ]) (MState p (String b s) c) (MState (Some b) s c).
Proof. intros H k. cbn [run eat_class eat_item m_rest]. now rewrite H. Qed.




























Lemma matches_class_chars (chs : list string) (st st' : mstate) :
  matches false (RClass (map CChar chs)) st st' ->
  exists ch, In ch chs /\ seg st st' ch.
Proof.
  cbn [matches]. intros (n & H & ->).
  induction chs as [|ch chs IH]; [discriminate|].
  cbn [map eat_class eat_item] in H.
  destruct (has_prefix false ch (m_rest st)) eqn:E.
  - injection H as <-. apply has_prefix_spec in E as [r E].
    exists ch. split; [now left | exact (step_append st ch r E)].
  - destruct (IH H) as (ch' & Hin & Hs). exists ch'. split; [now right | exact Hs].
Qed.












Example test_number_corrections :
  map (fun text => fst (_extract_test_info_from_row text))
      [ "25E15114"; "25e15!14"; "25E15|14 GB1919-ZMB"; "lot 25E15I14"; "25E1514" ]
  = [ "25E15I14"; "25E15I14"; "25E15I14"; "25E15I14"; "" ].
Proof. vm_compute. reflexivity. Qed.

(** ** Every match of a scan *)




(** ** The test number of [extract_numbers] *)













(** ** [DataCleaner.clean_cfu_value] *)

Lemma all_bytes_append (P : ascii -> bool) (a b : string) :
  all_bytes P (a +:+ b) = all_bytes P a && all_bytes P b.
Proof.
  induction a as [|c a IH]; [reflexivity|].
  rewrite append_cons. cbn [all_bytes]. now rewrite IH, andb_assoc.
Qed.

Lemma all_bytes_digits (s : string) : all_bytes Py.is_digit s = all_digits s.
Proof. induction s as [|c s IH]; [reflexivity|]. cbn. now rewrite IH. Qed.

(** A text without the byte [c] has no occurrence of a text that starts
    with [c], so replacing such a text changes nothing. *)
Lemma replace_fuel_absent (c : ascii) (old new : string) (fuel : nat) (s : string) :
  free_of c s = true ->
  Py.replace_fuel fuel (String c old) new s = s.
Proof.
  revert s. induction fuel as [|fuel IH]; intros s Hs; [reflexivity|].
  destruct s as [|a s]; [reflexivity|].
  cbn [free_of] in Hs. apply andb_prop in Hs as [Ha Hs].
  cbn [Py.replace_fuel Py.drop_prefix].
  rewrite Ascii.eqb_sym. destruct (Ascii.eqb a c); [discriminate|].
  now rewrite IH.
Qed.

Lemma replace_absent (c : ascii) (old new s : string) :
  free_of c s = true -> Py.replace s (String c old) new = s.
Proof. intros H. unfold Py.replace. now apply replace_fuel_absent. Qed.

(** X23: in [DataCleaner.clean_cfu_value] the replacements of "Co", "CIO" and
    "C10" never change the value: every "C" has been replaced by "<" before
    them, and the cleaned value holds no "C" and no "O". *)
Theorem ocr_cleanup_dead_replacements (value : string) :
  DataCleaner.ocr_cleanup value
  = Py.strip
      (Py.replace
         (Py.replace
            (Py.replace (DataCleaner.remove_kana_kanji value) "く" "<")
            "C" "<")
         "O" "0")
  /\ free_of "C" (DataCleaner.ocr_cleanup value) = true
  /\ free_of "O" (DataCleaner.ocr_cleanup value) = true.
Proof.
  unfold DataCleaner.ocr_cleanup. cbv zeta.
  set (v1 := Py.replace (DataCleaner.remove_kana_kanji value) "く" "<").
  assert (free_of "C" (Py.replace (Py.replace v1 "C" "<") "O" "0") = true) as HC.
  { apply replace_free; [discriminate | reflexivity|].
    apply (replace_removes "C" v1 "<"). reflexivity. }
  assert (free_of "O" (Py.replace (Py.replace v1 "C" "<") "O" "0") = true) as HO
    by (apply (replace_removes "O" _ "0"); reflexivity).
  set (v3 := Py.replace (Py.replace v1 "C" "<") "O" "0") in *.
  rewrite (replace_absent "C" "o" "0" v3 HC).
  rewrite (replace_absent "C" "IO" "<10" v3 HC).
  rewrite (replace_absent "C" "10" "<10" v3 HC).
  repeat split; now apply strip_free.
Qed.

Lemma matches_rep_char (ch : string) (lo : nat) (hi : option nat)
  (st st' : mstate) :
  matches false (RRep (RChar ch) lo hi) st st' -> exists w, seg st st' w.
Proof.
  intros H. apply matches_rep in H as (n & H & _).
  apply (rounds_seg _ (fun _ => True) (fun _ _ => True)) in H as (w & Hw & _);
    eauto.
  intros s s' Hm. apply matches_char in Hm. eauto.
Qed.

(** [[0-9]+] *)
Lemma matches_range_digits (lo : nat) (st st' : mstate) :
  matches false (RRep (RClass [ CRange "0" "9" ]) lo None) st st' ->
  exists w, seg st st' w
            /\ (all_digits w = true /\ (lo <= String.length w)%nat).
Proof.
  intros H. apply matches_rep in H as (n & H & Hlo & _).
  apply (rounds_seg _ (fun a => exists b, a = String b "" /\ Py.is_digit b = true)
           (fun n w => all_digits w = true /\ String.length w = n))
    in H as (w & Hw & Hd & <-); eauto.
  - intros s s' Hm. apply matches_range in Hm as (b & Hb & Hr). eauto.
  - intros k a b (c & -> & Hc) [Hb Hl].
    change (String c "" +:+ b) with (String c b).
    cbn [all_digits String.length]. rewrite Hc, Hb, Hl. now split.
Qed.

(** [[0-9.]+] *)
Lemma matches_digits_points (st st' : mstate) :
  matches false (RRep (RClass [ CRange "0" "9"; CChar "." ]) 1 None) st st' ->
  exists w, seg st st' w /\ (all_bytes digit_or_point w = true /\ w <> "").
Proof.
  intros H. apply matches_rep in H as (n & H & Hlo & _).
  apply (rounds_seg _ (fun a => exists b, a = String b ""
                                          /\ digit_or_point b = true)
           (fun n w => all_bytes digit_or_point w = true /\ String.length w = n))
    in H as (w & Hw & Hd & <-).
  - exists w. split; [exact Hw|]. split; [exact Hd|].
    destruct w; [simpl in Hlo; lia | discriminate].
  - intros s s' (k & Hm & ->). cbn [eat_class eat_item] in Hm.
    destruct (m_rest s) as [|b r] eqn:E; [discriminate|].
    cbn [andb has_prefix] in Hm. rewrite orb_false_r, andb_true_r in Hm.
    exists (String b ""). unfold digit_or_point.
    change (Py.is_digit b) with (in_range "0" "9" b).
    destruct (in_range "0" "9" b) eqn:Er.
    + injection Hm as <-. split; [exact (step_one s b r E)|].
      exists b. split; [reflexivity|].
      change (Py.is_digit b) with (in_range "0" "9" b). now rewrite Er.
    + destruct (Ascii.eqb "." b) eqn:Ep; [|discriminate].
      cbn [String.length] in Hm. injection Hm as <-.
      split; [exact (step_one s b r E)|].
      exists b. split; [reflexivity|].
      rewrite Ascii.eqb_sym, Ep. apply orb_true_r.
  - now split.
  - intros k a b (c & -> & Hc) [Hb Hl].
    change (String c "" +:+ b) with (String c b).
    cbn [all_bytes String.length]. rewrite Hc, Hb, Hl. now split.
Qed.

Lemma nonempty_length (w : string) : (1 <= String.length w)%nat -> w <> "".
Proof. destruct w; [simpl; lia | discriminate]. Qed.

(** The groups of a match of the exponent pattern of
    [DataCleaner.clean_cfu_value]. *)
Lemma exponent_pattern_groups (value : string) (m : rmatch) :
  re_match "([0-9.]+)\s*[×xX]\s*10\s*\^?([0-9]+)" value = Some m ->
  all_bytes digit_or_point (group 1 m) = true /\ group 1 m <> ""
  /\ all_digits (group 2 m) = true /\ group 2 m <> "".
Proof.
  unfold re_match, re_match_flags. intros H.
  apply match_at_sound in H as (st' & H & Hg & _).
  replace (compile "([0-9.]+)\s*[×xX]\s*10\s*\^?([0-9]+)")
    with (RSeq (RGroup 1 (RRep (RClass [CRange "0" "9"; CChar "."]) 1 None))
          (RSeq (RRep (RClass [CSpace]) 0 None)
             (RSeq (RClass (map CChar ["×"; "x"; "X"]))
                (RSeq (RRep (RClass [CSpace]) 0 None)
                   (RSeq (RChar "1")
                      (RSeq (RChar "0")
                         (RSeq (RRep (RClass [CSpace]) 0 None)
                            (RSeq (RRep (RChar "^") 0 (Some 1%nat))
                               (RGroup 2
                                  (RRep (RClass [CRange "0" "9"]) 1 None))))))))))
    in H by (vm_compute; reflexivity).
  apply matches_seq in H as (s1 & G1 & H).
  apply (matches_group _ _ _ _ _ _ matches_digits_points) in G1
    as (base & [Pb Nb] & _ & C1).
  apply matches_seq in H as (s2 & H2 & H). apply matches_spaces in H2 as (w2 & _ & C2).
  apply matches_seq in H as (s3 & H3 & H).
  apply matches_class_chars in H3 as (ch & _ & _ & C3).
  apply matches_seq in H as (s4 & H4 & H). apply matches_spaces in H4 as (w4 & _ & C4).
  apply matches_seq in H as (s5 & H5 & H). apply matches_char in H5 as (_ & C5).
  apply matches_seq in H as (s6 & H6 & H). apply matches_char in H6 as (_ & C6).
  apply matches_seq in H as (s7 & H7 & H). apply matches_spaces in H7 as (w7 & _ & C7).
  apply matches_seq in H as (s8 & H8 & H). apply matches_rep_char in H8 as (w8 & _ & C8).
  apply (matches_group _ _ _ _ _ _ (matches_range_digits 1)) in H
    as (expo & [Pe Le] & _ & C9).
  cbn [m_caps] in *. rewrite C8, C7, C6, C5, C4, C3, C2, C1 in C9. cbn in C9.
  unfold group. rewrite Hg, C9. cbn [find fst snd Nat.eqb].
  repeat split; auto. now apply nonempty_length.
Qed.

Lemma step_caps (n : nat) (st : mstate) : m_caps (step n st) = m_caps st.
Proof. unfold step. now destruct (advance _ _ _). Qed.

(** A pattern without groups leaves the groups as they are. *)
Lemma matches_caps (ci : bool) (r : regex) :
  ngroups r = 0%nat ->
  forall st st', matches ci r st st' -> m_caps st' = m_caps st.
Proof.
  induction r as [|ch|items| | | |r1 IH1 r2 IH2|r1 IH1 r2 IH2|r' IH lo hi|n r' IH];
    cbn [ngroups matches]; intros Hn st st'.
  - now intros ->.
  - intros [_ ->]. apply step_caps.
  - intros (n & _ & ->). apply step_caps.
  - now intros [_ ->].
  - now intros [_ ->].
  - now intros [_ ->].
  - intros (s1 & H1 & H2). rewrite (IH2 ltac:(lia) _ _ H2). apply IH1; [lia | exact H1].
  - intros [H|H]; [apply IH1 | apply IH2]; auto; lia.
  - intros (n & H & _). revert st H. induction n as [|n IHn]; intros st; cbn [rounds].
    + now intros ->.
    + intros (s1 & H1 & H). rewrite (IHn _ H). now apply IH.
  - discriminate.
Qed.

(** The group of a match of a pattern that reads pieces without groups and
    then its only group. *)
Lemma spine_group (Q : string -> Prop) (atoms : list regex) (body : regex) :
  forallb (fun r => (ngroups r =? 0)%nat) atoms = true ->
  (forall st st', matches false body st st' -> exists w, seg st st' w /\ Q w) ->
  forall st st',
    matches false (fold_right RSeq (RGroup 1 body) atoms) st st' ->
    exists w, Q w
              /\ m_caps st'
                 = (1%nat, w)
                   :: filter (fun p => negb (fst p =? 1)%nat) (m_caps st).
Proof.
  intros Ha Hb. induction atoms as [|a atoms IH]; intros st st'; cbn [fold_right].
  - intros H. apply (matches_group _ _ _ _ _ _ Hb) in H as (w & Hw & _ & C). eauto.
  - cbn [forallb] in Ha. apply andb_prop in Ha as [Hn Ha].
    intros H. apply matches_seq in H as (s1 & H1 & H).
    apply Nat.eqb_eq in Hn. apply (matches_caps _ _ Hn) in H1.
    destruct (IH Ha _ _ H) as (w & Hw & C). rewrite H1 in C. eauto.
Qed.

Lemma search_spine_group (Q : string -> Prop) (p : string) (atoms : list regex)
  (body : regex) (s : string) (m : rmatch) :
  compile p = fold_right RSeq (RGroup 1 body) atoms ->
  forallb (fun r => (ngroups r =? 0)%nat) atoms = true ->
  (forall st st', matches false body st st' -> exists w, seg st st' w /\ Q w) ->
  re_search p s = Some m -> Q (group 1 m).
Proof.
  intros Hc Ha Hb H.
  apply re_search_sound in H as (sk & prev & s' & st' & _ & H & Hg & _).
  rewrite Hc in H. apply (spine_group Q atoms body Ha Hb) in H as (w & Hw & C).
  unfold group. rewrite Hg, C. exact Hw.
Qed.

Lemma is_number_intro (w : string) :
  all_digits w = true /\ (1 <= String.length w)%nat -> is_number w = true.
Proof.
  intros [Hd Hl]. unfold is_number. rewrite Hd.
  destruct w; [simpl in Hl; lia | reflexivity].
Qed.

Lemma range_digits_number (st st' : mstate) :
  matches false (RRep (RClass [ CRange "0" "9" ]) 1 None) st st' ->
  exists w, seg st st' w /\ is_number w = true.
Proof.
  intros H. apply matches_range_digits in H as (w & S & Hw).
  exists w. split; [exact S | now apply is_number_intro].
Qed.


(** X24: [DataCleaner.clean_cfu_value] returns the empty string, the cleaned
    text, or one of four forms: digits and points followed by "×10^" and a
    number, "<10^" and a number, "<" and a number, or "≤" and a number. *)
Theorem backend_clean_cfu_value_forms (value : string)
  (strain day_column : option string) :
  let r := DataCleaner.clean_cfu_value value strain day_column in
  r = "" \/ r = DataCleaner.ocr_cleanup value
  \/ (exists base exponent,
        r = base +:+ "×10^" +:+ exponent
        /\ all_bytes digit_or_point base = true /\ base <> ""
        /\ is_number exponent = true)
  \/ (exists sign number,
        r = sign +:+ number
        /\ In sign [ "<10^"; "<"; "≤" ] /\ is_number number = true).
Proof.
  unfold DataCleaner.clean_cfu_value.
  destruct (Py.is_empty value); [now left|]. cbv zeta.
  generalize (DataCleaner.ocr_cleanup value) as v. intros v.
  assert (forall sign number, In sign [ "<10^"; "<"; "≤" ] ->
            is_number number = true ->
            sign +:+ number = "" \/ sign +:+ number = v
            \/ (exists base exponent,
                  sign +:+ number = base +:+ "×10^" +:+ exponent
                  /\ all_bytes digit_or_point base = true /\ base <> ""
                  /\ is_number exponent = true)
            \/ (exists sign' number',
                  sign +:+ number = sign' +:+ number'
                  /\ In sign' [ "<10^"; "<"; "≤" ] /\ is_number number' = true))
    as Hsign by (intros sign number Hs Hn; right; right; right; eauto).
  destruct (if is_match (re_search "[×xX]" v) then _ else None) as [m|] eqn:E.
  { destruct (is_match _); [|discriminate].
    apply exponent_pattern_groups in E as (Hb & Nb & He & Ne).
    right. right. left. exists (group 1 m), (group 2 m).
    repeat split; auto. unfold is_number. rewrite He.
    destruct (group 2 m); [congruence | reflexivity]. }
  clear E. destruct (Py.contains "<" v).
  { destruct (re_search "<\s*10\s*\^?\s*([0-9]+)" v) as [m|] eqn:E1.
    - apply Hsign; [simpl; tauto|].
      refine (search_spine_group (fun w => is_number w = true) _
                [ RChar "<"; RRep (RClass [CSpace]) 0 None; RChar "1"; RChar "0";
                  RRep (RClass [CSpace]) 0 None; RRep (RChar "^") 0 (Some 1%nat);
                  RRep (RClass [CSpace]) 0 None ] _ _ _ _ _ range_digits_number E1);
        vm_compute; reflexivity.
    - destruct (re_search "<\s*([0-9]+)" v) as [m|] eqn:E2.
      + apply Hsign; [simpl; tauto|].
        refine (search_spine_group (fun w => is_number w = true) _
                  [ RChar "<"; RRep (RClass [CSpace]) 0 None ] _ _ _ _ _
                  range_digits_number E2); vm_compute; reflexivity.
      + apply (Hsign "<" "10"); [simpl; tauto | reflexivity]. }
  destruct (if Py.contains "≤" v then _ else None) as [m|] eqn:E3.
  { destruct (Py.contains "≤" v); [|discriminate].
    apply Hsign; [simpl; tauto|].
    refine (search_spine_group (fun w => is_number w = true) _
              [ RChar "≤"; RRep (RClass [CSpace]) 0 None ] _ _ _ _ _
              range_digits_number E3); vm_compute; reflexivity. }
  clear E3.
  destruct (DataCleaner.day_in day_column [ "7일"; "14일"; "28일" ]
            && DataCleaner.is_target_strain strain); [|right; left; reflexivity].
  destruct (is_match _); [right; left; reflexivity|].
  destruct (_ <=? _)%nat; [right; left; reflexivity|].
  destruct (_ && _ && _).
  - apply (Hsign "<10^" "2"); [simpl; tauto | reflexivity].
  - destruct (DataCleaner.day_in day_column [ "7일" ]).
    + apply (Hsign "<10^" "2"); [simpl; tauto | reflexivity].
    + apply (Hsign "<" "10"); [simpl; tauto | reflexivity].
Qed.

(** ** Log conversion of detection limits *)


(** ** [DataCleaner.parse_consecutive_dates] *)

Example parse_consecutive_dates_docstring :
  parse_consecutive_dates "01 15 01 22 01 29 02 12"
  = [ "01/15"; "01/22"; "01/29"; "02/12" ].
Proof. vm_compute. reflexivity. Qed.

Example parse_consecutive_dates_refused :
  map parse_consecutive_dates
      [ ""; "01 15 01 22 01 29 02"; "01 15 01 22 01 29 02 1x";
        "1 15 01 22 01 29 02 12"; "01 15 01 22 01 29 02 12 2024" ]
  = [ []; []; []; []; [] ].
Proof. vm_compute. reflexivity. Qed.



